(** * A shallow embedding of the judging and harness core

    The development follows the Python sources
      - [judge/judge.py]               (comparators, special-judge invoker,
                                        per-case and per-submission judging,
                                        the loaders and [main]),
      - [runner/harness/json_helper.py] (the loaders, [run_single_test],
                                        [run_all_tests]),
      - [runner/run_tests.py]           (the two runners and the loop of
                                        [main]),
      - [judge/special_judges/float_tolerance.py], [exact_match.py] and
        [partial_score.py]             ([is_close] and the three programs).

    Modelling conventions.
      - A Python [str] is a [string]; a character is a code point below 256.
      - A Python [float] is a [pyfloat]: an exact rational, or one of the
        IEEE special values (two infinities, NaN).  Finite arithmetic is
        exact: rounding to binary64, overflow and the sign of zero are not
        modelled.  Every comparison with NaN is false, as in Python.
      - A Python [int] read from a document (milliseconds, kilobytes, exit
        codes) is a [Z].
      - A dictionary read with [d.get(k, default)] is a record whose field
        [k] is [None] when the key is absent; the fields carry the types
        that the dataclasses and the type hints of the sources give them.
      - Text produced by an f-string is a constructor of [message] that
        carries the interpolated values.
      - Child processes are the environment: their outcome is an argument
        of the function that launches them. *)

From Stdlib Require Import ZArith QArith Qabs Qround Lqa String Ascii List Bool Lia.
From Stdlib Require Import DecimalString.
From stdpp Require Import base option list gmap strings.

Local Open Scope Z_scope.
Local Open Scope string_scope.

(** ** Python strings *)

Module PyStr.

Definition nl : ascii := ascii_of_nat 10.

(** [str.isspace] on one character (code points below 256). *)
Definition isspace (c : ascii) : bool :=
  let n := N_of_ascii c in
  ((9 <=? n) && (n <=? 13) || (28 <=? n) && (n <=? 32)
   || (n =? 133) || (n =? 160))%N.

(** [str.lower] on one character (code points below 256). *)
Definition lower_char (c : ascii) : ascii :=
  let n := N_of_ascii c in
  if ((65 <=? n) && (n <=? 90)
      || (192 <=? n) && (n <=? 222) && negb (n =? 215))%N
  then ascii_of_N (n + 32) else c.

Fixpoint lower (s : string) : string :=
  match s with
  | EmptyString => EmptyString
  | String c s' => String (lower_char c) (lower s')
  end.

(** [s.rstrip()] and [s.rstrip(chars)]: drop the longest suffix whose
    characters all satisfy [p]. *)
Fixpoint rstrip_by (p : ascii -> bool) (s : string) : string :=
  match s with
  | EmptyString => EmptyString
  | String c s' =>
      match rstrip_by p s' with
      | EmptyString => if p c then EmptyString else String c EmptyString
      | r => String c r
      end
  end.

Fixpoint lstrip_by (p : ascii -> bool) (s : string) : string :=
  match s with
  | EmptyString => EmptyString
  | String c s' => if p c then lstrip_by p s' else s
  end.

Definition rstrip (s : string) : string := rstrip_by isspace s.
Definition rstrip_chars (c : ascii) (s : string) : string :=
  rstrip_by (Ascii.eqb c) s.
Definition strip (s : string) : string := rstrip_by isspace (lstrip_by isspace s).

(** [s.split(sep)] for a one-character separator: never empty. *)
Fixpoint split_on (sep : ascii) (s : string) : list string :=
  match s with
  | EmptyString => [EmptyString]
  | String c s' =>
      if Ascii.eqb c sep then EmptyString :: split_on sep s'
      else match split_on sep s' with
           | [] => [String c EmptyString]
           | l :: ls => String c l :: ls
           end
  end.

(** [sep.join(parts)]. *)
Fixpoint join (sep : string) (parts : list string) : string :=
  match parts with
  | [] => EmptyString
  | [x] => x
  | x :: xs => x ++ sep ++ join sep xs
  end.

(** [s.split()]: the maximal runs of non-whitespace characters. *)
Fixpoint split_ws (s : string) : list string :=
  match s with
  | EmptyString => []
  | String c s' =>
      if isspace c then split_ws s'
      else match s' with
           | EmptyString => [String c EmptyString]
           | String c' _ =>
               if isspace c' then String c EmptyString :: split_ws s'
               else match split_ws s' with
                    | [] => [String c EmptyString]
                    | t :: ts => String c t :: ts
                    end
           end
  end.

(** [s[:n]] for a bound [n] that is not negative. *)
Fixpoint take (n : N) (s : string) : string :=
  match s with
  | EmptyString => EmptyString
  | String c s' =>
      if (n =? 0)%N then EmptyString else String c (take (N.pred n) s')
  end.

(** [str(n)] for a natural number. *)
Definition of_nat (n : nat) : string := NilZero.string_of_uint (Nat.to_uint n).

End PyStr.

(** ** Python floats *)

Inductive pyfloat : Type :=
| Fin (q : Q)
| PosInf
| NegInf
| NaN.

Module PyFloat.

Definition Qltb (a b : Q) : bool := negb (Qle_bool b a).

Definition isnan (x : pyfloat) : bool :=
  match x with NaN => true | _ => false end.
Definition isinf (x : pyfloat) : bool :=
  match x with PosInf | NegInf => true | _ => false end.
Definition isfinite (x : pyfloat) : bool :=
  match x with Fin _ => true | _ => false end.

Definition neg (x : pyfloat) : pyfloat :=
  match x with
  | Fin q => Fin (- q)
  | PosInf => NegInf
  | NegInf => PosInf
  | NaN => NaN
  end.

Definition add (x y : pyfloat) : pyfloat :=
  match x, y with
  | NaN, _ | _, NaN => NaN
  | Fin a, Fin b => Fin (a + b)
  | PosInf, NegInf | NegInf, PosInf => NaN
  | PosInf, _ | _, PosInf => PosInf
  | NegInf, _ | _, NegInf => NegInf
  end.

Definition sub (x y : pyfloat) : pyfloat := add x (neg y).

Definition abs (x : pyfloat) : pyfloat :=
  match x with
  | Fin q => Fin (Qabs q)
  | PosInf | NegInf => PosInf
  | NaN => NaN
  end.

(** The sign of a value that is not NaN: -1, 0 or 1. *)
Definition sign (x : pyfloat) : Z :=
  match x with
  | Fin q => Z.sgn (Qnum q)
  | PosInf => 1
  | NegInf => -1
  | NaN => 0
  end.

Definition mul (x y : pyfloat) : pyfloat :=
  match x, y with
  | NaN, _ | _, NaN => NaN
  | Fin a, Fin b => Fin (a * b)
  | _, _ =>
      match sign x * sign y with
      | Z0 => NaN
      | Zpos _ => PosInf
      | Zneg _ => NegInf
      end
  end.

(** [x / y] for a finite, non-zero [y] (the only use in the sources is
    guarded by [max_score > 0]); division of a finite value by an
    infinity is zero. *)
Definition div (x y : pyfloat) : pyfloat :=
  match x, y with
  | NaN, _ | _, NaN => NaN
  | Fin a, Fin b => Fin (a / b)
  | Fin _, _ => Fin 0
  | _, Fin b =>
      match sign x * Z.sgn (Qnum b) with
      | Zneg _ => NegInf
      | _ => PosInf
      end
  | _, _ => NaN
  end.

(** [x < y], [x <= y], [x == y]: false as soon as one side is NaN. *)
Definition ltb (x y : pyfloat) : bool :=
  match x, y with
  | NaN, _ | _, NaN => false
  | Fin a, Fin b => Qltb a b
  | NegInf, NegInf | PosInf, _ => false
  | NegInf, _ | _, PosInf => true
  | _, NegInf => false
  end.

Definition leb (x y : pyfloat) : bool :=
  match x, y with
  | NaN, _ | _, NaN => false
  | Fin a, Fin b => Qle_bool a b
  | NegInf, _ | _, PosInf => true
  | _, _ => false
  end.

Definition eqb (x y : pyfloat) : bool :=
  match x, y with
  | Fin a, Fin b => Qeq_bool a b
  | PosInf, PosInf | NegInf, NegInf => true
  | _, _ => false
  end.

Definition gtb (x y : pyfloat) : bool := ltb y x.

(** Truth value of a number: anything but zero. *)
Definition truthy (x : pyfloat) : bool :=
  match x with Fin q => negb (Qeq_bool q 0) | _ => true end.

(** Nearest integer, ties to the even one. *)
Definition round_half_even (q : Q) : Z :=
  let f := Qfloor q in
  let r := (q - inject_Z f)%Q in
  if Qltb r (1 # 2) then f
  else if Qltb (1 # 2) r then f + 1
  else if Z.even f then f else f + 1.

(** [round(x, 2)]. *)
Definition round2 (x : pyfloat) : pyfloat :=
  match x with
  | Fin q => Fin (Qred (inject_Z (round_half_even (q * 100)) / 100))
  | _ => x
  end.

(** [sum(xs)]: a left fold that starts from the integer 0. *)
Definition sum (xs : list pyfloat) : pyfloat := fold_left add xs (Fin 0).

(** *** [float(s)] on a string *)

Definition digit_val (c : ascii) : option Z :=
  let n := N_of_ascii c in
  if ((48 <=? n) && (n <=? 57))%N then Some (Z.of_N (n - 48)) else None.

Definition starts_with_digit (s : string) : bool :=
  match s with
  | String c _ => match digit_val c with Some _ => true | None => false end
  | EmptyString => false
  end.

(** A digit part [digit (["_"] digit)*]: the accumulated value, the
    number of digits read, and the rest of the text. *)
Fixpoint digitpart (acc : Z) (cnt : nat) (s : string) : Z * nat * string :=
  match s with
  | EmptyString => (acc, cnt, s)
  | String c s' =>
      match digit_val c with
      | Some d => digitpart (10 * acc + d) (S cnt) s'
      | None =>
          if Ascii.eqb c "_" && negb (Nat.eqb cnt 0) && starts_with_digit s'
          then digitpart acc cnt s'
          else (acc, cnt, s)
      end
  end.

Definition read_sign (s : string) : bool * string :=
  match s with
  | String "-" s' => (true, s')
  | String "+" s' => (false, s')
  | _ => (false, s)
  end.

Definition read_exponent (s : string) : option Z :=
  match s with
  | EmptyString => Some 0
  | String c s' =>
      if Ascii.eqb c "e" || Ascii.eqb c "E" then
        let '(negative, s1) := read_sign s' in
        match digitpart 0 0 s1 with
        | (_, O, _) => None
        | (e, _, EmptyString) => Some (if negative then - e else e)
        | _ => None
        end
      else None
  end.

Definition read_number (s : string) : option Q :=
  let '(ip, icnt, s1) := digitpart 0 0 s in
  let '(fp, fcnt, s2) :=
    match s1 with
    | String "." s1' => digitpart 0 0 s1'
    | _ => (0, O, s1)
    end in
  let dotted_ok :=
    match s1 with
    | String "." s1' =>
        (* [digitpart "." digitpart], ["." digitpart] or [digitpart "."]:
           a digit part after the dot starts with a digit *)
        (negb (Nat.eqb fcnt 0) || (negb (Nat.eqb icnt 0) && negb (starts_with_digit s1')
                                   && match s1' with String "_" _ => false | _ => true end))
    | _ => negb (Nat.eqb icnt 0)
    end in
  if dotted_ok then
    match read_exponent s2 with
    | Some e =>
        let mant := ip * 10 ^ Z.of_nat fcnt + fp in
        Some (Qred (inject_Z mant * Qpower (10 # 1) (e - Z.of_nat fcnt)))
    | None => None
    end
  else None.

(** [float(s)]: surrounding whitespace is ignored; [None] stands for
    [ValueError]. *)
Definition of_string (s : string) : option pyfloat :=
  let '(negative, body) := read_sign (PyStr.strip s) in
  let name := PyStr.lower body in
  if String.eqb name "nan" then Some NaN
  else if String.eqb name "inf" || String.eqb name "infinity"
  then Some (if negative then NegInf else PosInf)
  else match read_number body with
       | Some q => Some (Fin (if negative then Qred (- q) else q))
       | None => None
       end.

End PyFloat.

(** ** JSON values ([json.loads]) *)

#[warnings="-register-all"]
Inductive json : Type :=
| JNull
| JBool (b : bool)
| JNum (x : pyfloat)
| JStr (s : string)
| JArr (l : list json)
| JObj (m : gmap string json).

Module Json.

(** Truth value of a Python object obtained from JSON. *)
Definition truthy (j : json) : bool :=
  match j with
  | JNull => false
  | JBool b => b
  | JNum x => PyFloat.truthy x
  | JStr s => negb (String.eqb s "")
  | JArr l => match l with [] => false | _ => true end
  | JObj m => match map_to_list m with [] => false | _ => true end
  end.

(** [j == s] for a string literal [s]. *)
Definition eq_str (j : json) (s : string) : bool :=
  match j with JStr t => String.eqb t s | _ => false end.

End Json.

(** [d.get(k, default)] on a field that is [None] when the key is absent. *)
Definition get {A : Type} (field : option A) (default : A) : A :=
  match field with Some v => v | None => default end.

(** ** judge.py: data *)

Inductive Verdict : Type := AC | WA | TLE | MLE | RE | CE | IE | PE | SK.

#[global] Instance Verdict_eq_dec : EqDecision Verdict.
Proof. solve_decision. Defined.

(** Exceptions caught by a bare [except Exception] and printed with [{e}]. *)
Inductive pyerror : Type :=
| AttributeError
| TypeError
| ValueError (text : string)
| OtherError (text : string).

(** The texts the judge produces; each constructor is one literal or one
    f-string of judge.py with the values it interpolates. *)
Inductive message : Type :=
| MsgText (s : string)
| MsgJson (j : json)
| MsgTimeLimit (exec_time : Z)
| MsgMemoryLimit (memory_kb : Z)
| MsgLineCount (expected actual : nat)
| MsgDiffLine (line : nat)
| MsgTokenCount (expected actual : nat)
| MsgTokenMismatch (position : nat) (expected actual : string)
| MsgFloatParse (token : string)
| MsgValueCount (expected actual : nat)
| MsgValueMismatch (position : nat) (expected actual tolerance : pyfloat)
| MsgSpecialJudgeStderr (stderr : string)
| MsgSpecialJudgeTimeout
| MsgSpecialJudgeError (e : pyerror)
| MsgSpecialJudgeScore (score : pyfloat)
| MsgSpecialJudgeUnknown (stdout : string).

Module TestCaseVerdict.
Record t : Type := mk {
  test_id : string;
  verdict : Verdict;
  score : pyfloat;
  max_score : pyfloat;
  execution_time_ms : Z;
  memory_used_kb : Z;
  message : option message;
  expected_output : option string;
  actual_output : option string;
  input_preview : option string
}.
End TestCaseVerdict.

Module JudgeResult.
Record t : Type := mk {
  final_verdict : Verdict;
  total_score : pyfloat;
  max_score : pyfloat;
  score_percentage : pyfloat;
  passed_count : Z;
  failed_count : Z;
  total_count : Z;
  total_time_ms : Z;
  max_memory_kb : Z;
  test_verdicts : list TestCaseVerdict.t;
  compilation_status : option string;
  compilation_message : option json;
  judge_message : option string
}.
End JudgeResult.

Module ProblemConfig.
Record t : Type := mk {
  time_limit_ms : Z;
  memory_limit_kb : Z;
  comparison_mode : string;
  float_tolerance : pyfloat;
  special_judge_path : option string;
  case_sensitive : bool;
  ignore_trailing_whitespace : bool;
  ignore_trailing_newlines : bool;
  partial_scoring : bool;
  test_weights : gmap string pyfloat
}.

(** The dataclass defaults. *)
Definition default : t :=
  {| time_limit_ms := 5000;
     memory_limit_kb := 262144;
     comparison_mode := "exact";
     float_tolerance := Fin (1 # 1000000);
     special_judge_path := None;
     case_sensitive := true;
     ignore_trailing_whitespace := true;
     ignore_trailing_newlines := true;
     partial_scoring := true;
     test_weights := ∅ |}.
End ProblemConfig.

(** One element of [test_results], as [judge_test_case] reads it: every
    key in both spellings, [None] when absent. *)
Module TestRecord.
Record t : Type := mk {
  test_id : option string;
  testId : option string;
  status : option string;
  actual_output : option string;
  actualOutput : option string;
  execution_time_ms : option Z;
  executionTimeMs : option Z;
  memory_used_kb : option Z;
  memoryUsedKb : option Z;
  input : option string;
  expected_output : option string;
  expectedOutput : option string;
  error : option (option string);
  timedOut : option bool
}.

Definition empty : t :=
  mk None None None None None None None None None None None None None None.
End TestRecord.

(** The harness-output document, as [judge_submission] reads it. *)
Module HarnessOutput.
Record t : Type := mk {
  compile_result : option (option (gmap string json));
  compileResult : option (option (gmap string json));
  test_results : option (list TestRecord.t);
  testResults : option (list TestRecord.t);
  stdout : option string;
  output : option string;
  status : option string;
  execution_time_ms : option Z;
  executionTimeMs : option Z;
  memory_used_kb : option Z;
  memoryUsedKb : option Z;
  input : option string;
  error : option (option string);
  timedOut : option bool
}.

Definition empty : t :=
  mk None None None None None None None None None None None None None None.
End HarnessOutput.

(** ** judge.py: [Comparator] *)

Module Comparator.

Definition normalize (text : option string) (config : ProblemConfig.t) : string :=
  match text with
  | None => ""
  | Some text =>
      let result := text in
      let result :=
        if ProblemConfig.ignore_trailing_whitespace config
        then PyStr.join (String PyStr.nl "")
               (map PyStr.rstrip (PyStr.split_on PyStr.nl result))
        else result in
      let result :=
        if ProblemConfig.ignore_trailing_newlines config
        then PyStr.rstrip_chars PyStr.nl result
        else result in
      let result :=
        if negb (ProblemConfig.case_sensitive config)
        then PyStr.lower result
        else result in
      result
  end.

(** Index of the first position at which the zipped lists differ. *)
Fixpoint first_diff {A : Type} (neqb : A -> A -> bool) (i : nat) (xs ys : list A)
  : option nat :=
  match xs, ys with
  | x :: xs', y :: ys' =>
      if neqb x y then Some i else first_diff neqb (S i) xs' ys'
  | _, _ => None
  end.

Definition str_neqb (a b : string) : bool := negb (String.eqb a b).

Definition exact_match (expected actual : string) (config : ProblemConfig.t)
  : bool * message :=
  let norm_expected := normalize (Some expected) config in
  let norm_actual := normalize (Some actual) config in
  if String.eqb norm_expected norm_actual
  then (true, MsgText "Output matches expected")
  else
    let exp_lines := PyStr.split_on PyStr.nl norm_expected in
    let act_lines := PyStr.split_on PyStr.nl norm_actual in
    if negb (Nat.eqb (length exp_lines) (length act_lines))
    then (false, MsgLineCount (length exp_lines) (length act_lines))
    else match first_diff str_neqb 0%nat exp_lines act_lines with
         | Some i => (false, MsgDiffLine (i + 1)%nat)
         | None => (false, MsgText "Output differs from expected")
         end.

Definition list_str_eqb (xs ys : list string) : bool :=
  bool_decide (xs = ys).

Definition token_match (expected actual : string) (config : ProblemConfig.t)
  : bool * message :=
  let exp_tokens := PyStr.split_ws expected in
  let act_tokens := PyStr.split_ws actual in
  let '(exp_tokens, act_tokens) :=
    if negb (ProblemConfig.case_sensitive config)
    then (map PyStr.lower exp_tokens, map PyStr.lower act_tokens)
    else (exp_tokens, act_tokens) in
  if list_str_eqb exp_tokens act_tokens
  then (true, MsgText "All tokens match")
  else if negb (Nat.eqb (length exp_tokens) (length act_tokens))
  then (false, MsgTokenCount (length exp_tokens) (length act_tokens))
  else match first_diff str_neqb 0%nat exp_tokens act_tokens with
       | Some i =>
           (false, MsgTokenMismatch (i + 1)%nat
                     (nth i exp_tokens "") (nth i act_tokens ""))
       | None => (false, MsgText "Tokens differ")
       end.

(** [[float(x) for x in tokens]]: the values, or the first token on
    which [float] raises [ValueError]. *)
Fixpoint parse_floats (tokens : list string) : string + list pyfloat :=
  match tokens with
  | [] => inr []
  | tok :: rest =>
      match PyFloat.of_string tok with
      | None => inl tok
      | Some x =>
          match parse_floats rest with
          | inl bad => inl bad
          | inr xs => inr (x :: xs)
          end
      end
  end.

(** The test of the comparison loop: both the absolute and the relative
    bound are exceeded. *)
Definition out_of_tolerance (tolerance : pyfloat) (exp_val act_val : pyfloat) : bool :=
  PyFloat.gtb (PyFloat.abs (PyFloat.sub exp_val act_val)) tolerance
  && PyFloat.gtb (PyFloat.abs (PyFloat.sub exp_val act_val))
       (PyFloat.mul tolerance (PyFloat.abs exp_val)).

Definition float_match (expected actual : string) (config : ProblemConfig.t)
  : bool * message :=
  match parse_floats (PyStr.split_ws expected) with
  | inl bad => (false, MsgFloatParse bad)
  | inr exp_values =>
      match parse_floats (PyStr.split_ws actual) with
      | inl bad => (false, MsgFloatParse bad)
      | inr act_values =>
          if negb (Nat.eqb (length exp_values) (length act_values))
          then (false, MsgValueCount (length exp_values) (length act_values))
          else
            let tolerance := ProblemConfig.float_tolerance config in
            match first_diff (out_of_tolerance tolerance) 0%nat exp_values act_values with
            | Some i =>
                (false, MsgValueMismatch (i + 1)%nat
                          (nth i exp_values NaN) (nth i act_values NaN) tolerance)
            | None => (true, MsgText "All values within tolerance")
            end
      end
  end.

End Comparator.

(** ** judge.py: [SpecialJudge] *)

Inductive init_error : Type := FileNotFoundError | PermissionError.

Module SpecialJudge.

Record t : Type := mk { judge_path : string }.

(** [__init__]: the two file-system checks are answered by the
    environment. *)
Definition init (path_exists executable : string -> bool) (judge_path : string)
  : init_error + t :=
  if negb (path_exists judge_path) then inl FileNotFoundError
  else if negb (executable judge_path) then inl PermissionError
  else inr (mk judge_path).

(** What [subprocess.run] does with the special-judge program.
    [stdout_json] is the value of [json.loads(result.stdout.strip())],
    [None] when it raises [JSONDecodeError]; the JSON reader is library
    code and is not modelled. *)
Inductive outcome : Type :=
| Completed (returncode : Z) (stdout : string) (stdout_json : option json)
    (stderr : string)
| TimeoutExpired
| Raised (e : pyerror).

(** The program, as a function of its command line
    [judge_path input expected actual test_id] (the three texts stand
    for the scratch files that hold them). *)
Definition launcher : Type :=
  string -> string -> string -> string -> string -> outcome.

(** [float(v)] on a JSON value. *)
Definition float_of_json (v : json) : pyerror + pyfloat :=
  match v with
  | JNum x => inr x
  | JBool b => inr (if b then Fin 1 else Fin 0)
  | JStr s =>
      match PyFloat.of_string s with
      | Some x => inr x
      | None => inl (ValueError s)
      end
  | _ => inl TypeError
  end.

Definition str_in (s : string) (options : list string) : bool :=
  existsb (String.eqb s) options.

Definition run (launch : launcher) (self : t)
    (input_data expected_output actual_output test_id : string)
  : bool * pyfloat * message :=
  match launch (judge_path self) input_data expected_output actual_output test_id with
  | Completed returncode stdout stdout_json stderr =>
      if negb (returncode =? 0)%Z
      then (false, Fin 0, MsgSpecialJudgeStderr stderr)
      else
        match stdout_json with
        | Some (JObj output) =>
            let passed :=
              Json.eq_str (get (output !! "verdict") (JStr "WA")) "AC"
              || Json.truthy (get (output !! "passed") (JBool false)) in
            match float_of_json
                    (get (output !! "score") (JNum (if passed then Fin 1 else Fin 0))) with
            | inr score =>
                (passed, score, MsgJson (get (output !! "message") (JStr "")))
            | inl e => (false, Fin 0, MsgSpecialJudgeError e)
            end
        | Some _ =>
            (* [output.get] on a value that is not a dictionary *)
            (false, Fin 0, MsgSpecialJudgeError AttributeError)
        | None =>
            let stdout := PyStr.strip stdout in
            if str_in stdout ["1"; "AC"; "ACCEPTED"; "true"]
            then (true, Fin 1, MsgText "Accepted by special judge")
            else if str_in stdout ["0"; "WA"; "WRONG"; "false"]
            then (false, Fin 0, MsgText "Rejected by special judge")
            else match PyFloat.of_string stdout with
                 | Some score =>
                     (PyFloat.gtb score (Fin 0), score, MsgSpecialJudgeScore score)
                 | None => (false, Fin 0, MsgSpecialJudgeUnknown stdout)
                 end
        end
  | TimeoutExpired => (false, Fin 0, MsgSpecialJudgeTimeout)
  | Raised e => (false, Fin 0, MsgSpecialJudgeError e)
  end.

End SpecialJudge.

(** ** judge.py: [Judge] *)

Module Judge.

Record t : Type := mk {
  config : ProblemConfig.t;
  special_judge : option SpecialJudge.t
}.

Definition str_truthy (s : option string) : bool :=
  match s with
  | Some s => negb (String.eqb s "")
  | None => false
  end.

Definition init (path_exists executable : string -> bool)
    (config : option ProblemConfig.t) : init_error + t :=
  let config := get config ProblemConfig.default in
  match ProblemConfig.special_judge_path config with
  | Some path =>
      if negb (String.eqb path "") then
        match SpecialJudge.init path_exists executable path with
        | inr sj => inr (mk config (Some sj))
        | inl e => inl e
        end
      else inr (mk config None)
  | None => inr (mk config None)
  end.

(** The guard [self.special_judge and self.config.comparison_mode ==
    'special']: the special judge to run, if any. *)
Definition selected_special_judge (self : t) : option SpecialJudge.t :=
  match special_judge self with
  | Some sj =>
      if String.eqb (ProblemConfig.comparison_mode (config self)) "special"
      then Some sj else None
  | None => None
  end.

(** [text[:n] if text else None]. *)
Definition preview (n : N) (text : string) : option string :=
  if negb (String.eqb text "") then Some (PyStr.take n text) else None.

Definition judge_test_case (launch : SpecialJudge.launcher) (self : t)
    (test_result : TestRecord.t) (expected_output : option string)
  : TestCaseVerdict.t :=
  let test_id :=
    get (TestRecord.test_id test_result)
      (get (TestRecord.testId test_result) "unknown") in
  let status := get (TestRecord.status test_result) "" in
  let actual_output :=
    get (TestRecord.actual_output test_result)
      (get (TestRecord.actualOutput test_result) "") in
  let exec_time :=
    get (TestRecord.execution_time_ms test_result)
      (get (TestRecord.executionTimeMs test_result) 0) in
  let memory_kb :=
    get (TestRecord.memory_used_kb test_result)
      (get (TestRecord.memoryUsedKb test_result) 0) in
  let input_data := get (TestRecord.input test_result) "" in
  let expected_output :=
    match expected_output with
    | None =>
        get (TestRecord.expected_output test_result)
          (get (TestRecord.expectedOutput test_result) "")
    | Some e => e
    end in
  let weight := get (ProblemConfig.test_weights (config self) !! test_id) (Fin 1) in
  if String.eqb status "timeout" || get (TestRecord.timedOut test_result) false then
    {| TestCaseVerdict.test_id := test_id;
       TestCaseVerdict.verdict := TLE;
       TestCaseVerdict.score := Fin 0;
       TestCaseVerdict.max_score := weight;
       TestCaseVerdict.execution_time_ms := exec_time;
       TestCaseVerdict.memory_used_kb := memory_kb;
       TestCaseVerdict.message := Some (MsgTimeLimit exec_time);
       TestCaseVerdict.expected_output := None;
       TestCaseVerdict.actual_output := None;
       TestCaseVerdict.input_preview := preview 100 input_data |}
  else if String.eqb status "memory_limit" then
    {| TestCaseVerdict.test_id := test_id;
       TestCaseVerdict.verdict := MLE;
       TestCaseVerdict.score := Fin 0;
       TestCaseVerdict.max_score := weight;
       TestCaseVerdict.execution_time_ms := exec_time;
       TestCaseVerdict.memory_used_kb := memory_kb;
       TestCaseVerdict.message := Some (MsgMemoryLimit memory_kb);
       TestCaseVerdict.expected_output := None;
       TestCaseVerdict.actual_output := None;
       TestCaseVerdict.input_preview := preview 100 input_data |}
  else if String.eqb status "runtime_error" then
    let error_msg :=
      get (TestRecord.error test_result) (Some "Unknown runtime error") in
    {| TestCaseVerdict.test_id := test_id;
       TestCaseVerdict.verdict := RE;
       TestCaseVerdict.score := Fin 0;
       TestCaseVerdict.max_score := weight;
       TestCaseVerdict.execution_time_ms := exec_time;
       TestCaseVerdict.memory_used_kb := memory_kb;
       TestCaseVerdict.message := option_map MsgText error_msg;
       TestCaseVerdict.expected_output := None;
       TestCaseVerdict.actual_output := None;
       TestCaseVerdict.input_preview := preview 100 input_data |}
  else
    let '(passed, score, message) :=
      match selected_special_judge self with
      | Some sj =>
          let '(passed, score, message) :=
            SpecialJudge.run launch sj input_data expected_output actual_output test_id in
          (passed, PyFloat.mul score weight, message)
      | None =>
          let '(passed, message) :=
            if String.eqb (ProblemConfig.comparison_mode (config self)) "token"
            then Comparator.token_match expected_output actual_output (config self)
            else if String.eqb (ProblemConfig.comparison_mode (config self)) "float"
            then Comparator.float_match expected_output actual_output (config self)
            else Comparator.exact_match expected_output actual_output (config self) in
          (passed, if passed then weight else Fin 0, message)
      end in
    let verdict := if passed then AC else WA in
    {| TestCaseVerdict.test_id := test_id;
       TestCaseVerdict.verdict := verdict;
       TestCaseVerdict.score := score;
       TestCaseVerdict.max_score := weight;
       TestCaseVerdict.execution_time_ms := exec_time;
       TestCaseVerdict.memory_used_kb := memory_kb;
       TestCaseVerdict.message := Some message;
       TestCaseVerdict.expected_output := preview 500 expected_output;
       TestCaseVerdict.actual_output := preview 500 actual_output;
       TestCaseVerdict.input_preview := preview 100 input_data |}.

(** Truth value of a dictionary: it has at least one key. *)
Definition dict_truthy {V : Type} (d : gmap string V) : bool :=
  match map_to_list d with [] => false | _ => true end.

Definition opt_dict_truthy {V : Type} (d : option (gmap string V)) : bool :=
  match d with Some d => dict_truthy d | None => false end.

(** The loop [for test_result in test_results]; [verdicts] is the list
    built so far. *)
Fixpoint judge_cases (launch : SpecialJudge.launcher) (self : t)
    (expected_outputs : option (gmap string string))
    (verdicts : list TestCaseVerdict.t) (test_results : list TestRecord.t)
  : list TestCaseVerdict.t :=
  match test_results with
  | [] => verdicts
  | test_result :: rest =>
      let test_id :=
        get (TestRecord.test_id test_result)
          (get (TestRecord.testId test_result)
             ("test-" ++ PyStr.of_nat (length verdicts + 1))) in
      let expected :=
        match expected_outputs with
        | Some outputs => if dict_truthy outputs then outputs !! test_id else None
        | None => None
        end in
      let verdict := judge_test_case launch self test_result expected in
      judge_cases launch self expected_outputs (verdicts ++ [verdict]) rest
  end.

Definition verdict_is (code : Verdict) (v : TestCaseVerdict.t) : bool :=
  bool_decide (TestCaseVerdict.verdict v = code).

(** [sum] of integers and [max(..., default=0)]. *)
Definition sum_int (xs : list Z) : Z := fold_left Z.add xs 0.
Definition max_default0 (xs : list Z) : Z :=
  match xs with
  | [] => 0
  | x :: rest => fold_left Z.max rest x
  end.

(** The guard of the compilation check: [compile_result] is truthy, and
    neither its [success] nor its [skipped] entry is. *)
Definition compile_failed (compile_result : option (gmap string json)) : bool :=
  match compile_result with
  | Some cr =>
      dict_truthy cr
      && negb (Json.truthy (get (cr !! "success") (JBool true)))
      && negb (Json.truthy (get (cr !! "skipped") (JBool false)))
  | None => false
  end.

Definition judge_submission (launch : SpecialJudge.launcher) (self : t)
    (harness_output : HarnessOutput.t)
    (expected_outputs : option (gmap string string))
  : JudgeResult.t :=
  let compile_result :=
    get (HarnessOutput.compile_result harness_output)
      (get (HarnessOutput.compileResult harness_output) None) in
  if compile_failed compile_result then
    {| JudgeResult.final_verdict := CE;
       JudgeResult.total_score := Fin 0;
       JudgeResult.max_score := Fin 0;
       JudgeResult.score_percentage := Fin 0;
       JudgeResult.passed_count := 0;
       JudgeResult.failed_count := 0;
       JudgeResult.total_count := 0;
       JudgeResult.total_time_ms := 0;
       JudgeResult.max_memory_kb := 0;
       JudgeResult.test_verdicts := [];
       JudgeResult.compilation_status := Some "failed";
       JudgeResult.compilation_message :=
         match compile_result with
         | Some cr =>
             Some (get (cr !! "stderr")
                     (get (cr !! "error") (JStr "Compilation failed")))
         | None => None
         end;
       JudgeResult.judge_message := None |}
  else
    let test_results :=
      get (HarnessOutput.test_results harness_output)
        (get (HarnessOutput.testResults harness_output) []) in
    let test_results :=
      match test_results, HarnessOutput.stdout harness_output with
      | [], Some _ =>
          [ {| TestRecord.test_id := Some "test-1";
               TestRecord.testId := None;
               TestRecord.status :=
                 Some (get (HarnessOutput.status harness_output) "success");
               TestRecord.actual_output :=
                 Some (get (HarnessOutput.stdout harness_output)
                         (get (HarnessOutput.output harness_output) ""));
               TestRecord.actualOutput := None;
               TestRecord.execution_time_ms :=
                 Some (get (HarnessOutput.execution_time_ms harness_output)
                         (get (HarnessOutput.executionTimeMs harness_output) 0));
               TestRecord.executionTimeMs := None;
               TestRecord.memory_used_kb :=
                 Some (get (HarnessOutput.memory_used_kb harness_output)
                         (get (HarnessOutput.memoryUsedKb harness_output) 0));
               TestRecord.memoryUsedKb := None;
               TestRecord.input := Some (get (HarnessOutput.input harness_output) "");
               TestRecord.expected_output :=
                 Some (if opt_dict_truthy expected_outputs
                       then get (get expected_outputs ∅ !! "test-1") ""
                       else "");
               TestRecord.expectedOutput := None;
               TestRecord.error := Some (get (HarnessOutput.error harness_output) None);
               TestRecord.timedOut :=
                 Some (get (HarnessOutput.timedOut harness_output) false) |} ]
      | _, _ => test_results
      end in
    let verdicts := judge_cases launch self expected_outputs [] test_results in
    let total_score := PyFloat.sum (map TestCaseVerdict.score verdicts) in
    let max_score := PyFloat.sum (map TestCaseVerdict.max_score verdicts) in
    let passed_count := Z.of_nat (length (filter (verdict_is AC) verdicts)) in
    let failed_count := Z.of_nat (length verdicts) - passed_count in
    let total_time := sum_int (map TestCaseVerdict.execution_time_ms verdicts) in
    let max_memory := max_default0 (map TestCaseVerdict.memory_used_kb verdicts) in
    let final_verdict :=
      if forallb (verdict_is AC) verdicts then AC
      else if existsb (verdict_is TLE) verdicts then TLE
      else if existsb (verdict_is MLE) verdicts then MLE
      else if existsb (verdict_is RE) verdicts then RE
      else WA in
    let score_percentage :=
      if PyFloat.gtb max_score (Fin 0)
      then PyFloat.mul (PyFloat.div total_score max_score) (Fin 100)
      else Fin 0 in
    {| JudgeResult.final_verdict := final_verdict;
       JudgeResult.total_score := PyFloat.round2 total_score;
       JudgeResult.max_score := PyFloat.round2 max_score;
       JudgeResult.score_percentage := PyFloat.round2 score_percentage;
       JudgeResult.passed_count := passed_count;
       JudgeResult.failed_count := failed_count;
       JudgeResult.total_count := Z.of_nat (length verdicts);
       JudgeResult.total_time_ms := total_time;
       JudgeResult.max_memory_kb := max_memory;
       JudgeResult.test_verdicts := verdicts;
       JudgeResult.compilation_status :=
         if opt_dict_truthy compile_result then Some "success" else None;
       JudgeResult.compilation_message := None;
       JudgeResult.judge_message := None |}.

(** The exit status of [main]: [sys.exit(0 if result.final_verdict ==
    Verdict.AC.value else 1)]. *)
Definition exit_code (result : JudgeResult.t) : Z :=
  if bool_decide (JudgeResult.final_verdict result = AC) then 0 else 1.

End Judge.

(** ** special_judges/float_tolerance.py: [is_close] *)

Module FloatTolerance.

(** The module constants: the defaults used when [FLOAT_ABS_TOL] and
    [FLOAT_REL_TOL] are not set. *)
Definition ABSOLUTE_TOLERANCE : pyfloat := Fin (1 # 1000000000).
Definition RELATIVE_TOLERANCE : pyfloat := Fin (1 # 1000000).

Definition is_close (expected actual : pyfloat) : bool :=
  if PyFloat.isnan expected && PyFloat.isnan actual then true
  else if PyFloat.isnan expected || PyFloat.isnan actual then false
  else if PyFloat.isinf expected && PyFloat.isinf actual
  then Bool.eqb (PyFloat.gtb expected (Fin 0)) (PyFloat.gtb actual (Fin 0))
  else if PyFloat.isinf expected || PyFloat.isinf actual then false
  else
    let diff := PyFloat.abs (PyFloat.sub expected actual) in
    if PyFloat.leb diff ABSOLUTE_TOLERANCE then true
    else if negb (PyFloat.eqb expected (Fin 0))
    then PyFloat.leb diff (PyFloat.mul RELATIVE_TOLERANCE (PyFloat.abs expected))
    else false.

End FloatTolerance.

(** ** runner/harness/json_helper.py: [run_single_test] *)

Module JsonHelper.

Module TestCase.
Record t : Type := mk {
  id : string;
  input : string;
  expected_output : string;
  time_limit_ms : option Z;
  memory_limit_kb : option Z;
  hidden : bool;
  weight : pyfloat
}.
End TestCase.

(** The [error] texts, one constructor per f-string. *)
Inductive error_text : Type :=
| ErrTimeout (actual_timeout : Q)
| ErrMemoryLimit (actual_memory : Z)
| ErrRuntime (exit_code : Z) (stderr_head : option string)
| ErrException (e : string).

Module TestResult.
Record t : Type := mk {
  test_id : string;
  passed : bool;
  input : string;
  expected_output : string;
  actual_output : string;
  execution_time_ms : Z;
  memory_used_kb : Z;
  status : string;
  error : option error_text;
  stderr : option string
}.
End TestResult.

(** What happens to the child process: it ends with a return code,
    [communicate] times out (the harness then kills it and records exit
    code 124), or starting it raises. *)
Inductive process : Type :=
| Exited (returncode : Z) (stdout stderr : string)
| CommunicateTimeout (stdout stderr : string)
| Raised (e : string).

Definition int_truthy (n : option Z) : bool :=
  match n with Some n => negb (n =? 0)%Z | None => false end.

(** [run_single_test]: [proc] is the outcome of the child process,
    [elapsed_ms] and [max_rss_kb] the two measurements taken after it
    ([max_rss_kb] is 0 when the time file cannot be read). *)
Definition run_single_test (proc : process) (elapsed_ms max_rss_kb : Z)
    (test_case : TestCase.t) (timeout_sec memory_limit_kb : Z)
  : TestResult.t :=
  let actual_timeout : Q :=
    if int_truthy (TestCase.time_limit_ms test_case)
    then (inject_Z (get (TestCase.time_limit_ms test_case) 0%Z) / 1000)%Q
    else inject_Z timeout_sec in
  let actual_memory :=
    if int_truthy (TestCase.memory_limit_kb test_case)
    then get (TestCase.memory_limit_kb test_case) 0
    else memory_limit_kb in
  match
    match proc with
    | Exited returncode stdout stderr => Some (returncode, stdout, stderr)
    | CommunicateTimeout stdout stderr => Some (124, stdout, stderr)
    | Raised _ => None
    end
  with
  | None =>
      {| TestResult.test_id := TestCase.id test_case;
         TestResult.passed := false;
         TestResult.input := PyStr.take 1000 (TestCase.input test_case);
         TestResult.expected_output :=
           PyStr.take 1000 (TestCase.expected_output test_case);
         TestResult.actual_output := "";
         TestResult.execution_time_ms := elapsed_ms;
         TestResult.memory_used_kb := 0;
         TestResult.status := "runtime_error";
         TestResult.error :=
           match proc with Raised e => Some (ErrException e) | _ => None end;
         TestResult.stderr := None |}
  | Some (exit_code, stdout, stderr) =>
      let execution_time_ms := elapsed_ms in
      let memory_used_kb := max_rss_kb in
      let actual_output := PyStr.strip stdout in
      let stderr_output := PyStr.strip stderr in
      let '(status, error) :=
        if (exit_code =? 124)%Z || (exit_code =? 137)%Z
        then ("timeout", Some (ErrTimeout actual_timeout))
        else if (exit_code =? 139)%Z
        then ("memory_limit", Some (ErrMemoryLimit actual_memory))
        else if negb (exit_code =? 0)%Z
        then ("runtime_error",
              Some (ErrRuntime exit_code
                      (if negb (String.eqb stderr_output "")
                       then Some (PyStr.take 500 stderr_output) else None)))
        else ("passed", None) in
      let expected := PyStr.strip (TestCase.expected_output test_case) in
      let actual := PyStr.strip actual_output in
      let passed :=
        (String.eqb status "passed" || String.eqb status "runtime_error")
        && String.eqb actual expected in
      let status :=
        if String.eqb status "passed" && negb passed then "wrong_answer"
        else if passed then "passed"
        else status in
      let shown (text : string) :=
        if negb (TestCase.hidden test_case) then PyStr.take 1000 text else "[hidden]" in
      {| TestResult.test_id := TestCase.id test_case;
         TestResult.passed := passed;
         TestResult.input := shown (TestCase.input test_case);
         TestResult.expected_output := shown (TestCase.expected_output test_case);
         TestResult.actual_output := shown actual_output;
         TestResult.execution_time_ms := execution_time_ms;
         TestResult.memory_used_kb := memory_used_kb;
         TestResult.status := status;
         TestResult.error := error;
         TestResult.stderr :=
           if negb (String.eqb stderr_output "")
           then Some (PyStr.take 1000 stderr_output) else None |}
  end.

(** The exit code of the run that a record describes: the child's return
    code, or 124 after a [communicate] timeout; none when the child
    could not be started. *)
Definition exit_code_of (proc : process) : option Z :=
  match proc with
  | Exited returncode _ _ => Some returncode
  | CommunicateTimeout _ _ => Some 124
  | Raised _ => None
  end.

End JsonHelper.

(** ** runner/run_tests.py: [run_single_test] *)

Module RunTests.

(** The result dictionary; every key is always present. *)
Module Result.
Record t : Type := mk {
  testId : string;
  passed : bool;
  exitCode : Z;
  timeMs : Z;
  memoryKb : Z;
  timeoutOccurred : bool;
  memoryExceeded : bool;
  stdout : string;
  stderr : string;
  expectedOutput : string
}.
End Result.

Inductive process : Type :=
| Exited (returncode : Z) (stdout stderr : string)
| CommunicateTimeout (stdout stderr : string)
| RaisedMemoryError
| Raised (e : string).

(** [run_single_test]: [proc] is the outcome of the child process,
    [elapsed_ms] the measured time and [vm_hwm_kb] the peak memory read
    from [/proc] ([None] when it cannot be read). *)
Definition run_single_test (proc : process) (elapsed_ms : Z) (vm_hwm_kb : option Z)
    (expected_output test_id : string) (timeout_sec memory_kb : Z)
  : Result.t :=
  let '(exitCode, timeoutOccurred, memoryExceeded, stdout, stderr) :=
    match proc with
    | Exited returncode stdout stderr =>
        (returncode, false, false,
         PyStr.take 100000 stdout, PyStr.take 10000 stderr)
    | CommunicateTimeout stdout stderr =>
        (124, true, false, PyStr.take 100000 stdout, PyStr.take 10000 stderr)
    | RaisedMemoryError => (137, false, true, "", "")
    | Raised e => (1, false, false, "", e)
    end in
  let memoryKb := get vm_hwm_kb 0 in
  let passed :=
    if negb timeoutOccurred && negb memoryExceeded then
      if (exitCode =? 0)%Z
      then String.eqb (PyStr.strip stdout) (PyStr.strip expected_output)
      else false
    else false in
  let '(memoryExceeded, passed) :=
    if (memoryKb >? memory_kb)%Z then (true, false) else (memoryExceeded, passed) in
  {| Result.testId := test_id;
     Result.passed := passed;
     Result.exitCode := exitCode;
     Result.timeMs := elapsed_ms;
     Result.memoryKb := memoryKb;
     Result.timeoutOccurred := timeoutOccurred;
     Result.memoryExceeded := memoryExceeded;
     Result.stdout := stdout;
     Result.stderr := stderr;
     Result.expectedOutput := expected_output |}.

End RunTests.

(** ** runner/run_tests.py: [run_with_time_command], [load_test_cases] and
    the loop of [main] *)

Module RunTestsDriver.

(** What the parse of the [/usr/bin/time] output file gives: no line with
    the maximum resident set size (or no file), the value of that line, or
    an exception while the value is converted. *)
Inductive rss_reading : Type :=
| RssAbsent
| RssValue (kb : Z)
| RssError (e : string).

(** What happens inside the [try] block: the child ends and the time file
    is read, [communicate] times out, or another exception is raised
    before any field of the result is set. *)
Inductive process : Type :=
| Finished (returncode : Z) (stdout stderr : string) (elapsed_ms : Z)
    (rss : rss_reading)
| CommunicateTimeout
| Raised (e : string).

Definition run_with_time_command (proc : process)
    (expected_output test_id : string) (timeout_sec memory_kb : Z)
  : RunTests.Result.t :=
  let '(exitCode, timeMs, memoryKb, timeoutOccurred, stdout, stderr) :=
    match proc with
    | Finished returncode stdout stderr elapsed_ms rss =>
        let stdout := PyStr.take 100000 stdout in
        let stderr := PyStr.take 10000 stderr in
        let timeoutOccurred := (returncode =? 124)%Z || (returncode =? 137)%Z in
        match rss with
        | RssAbsent => (returncode, elapsed_ms, 0, timeoutOccurred, stdout, stderr)
        | RssValue kb => (returncode, elapsed_ms, kb, timeoutOccurred, stdout, stderr)
        | RssError e => (1, elapsed_ms, 0, timeoutOccurred, stdout, e)
        end
    | CommunicateTimeout => (124, 0, 0, true, "", "")
    | Raised e => (1, 0, 0, false, "", e)
    end in
  let passed :=
    if negb timeoutOccurred && (exitCode =? 0)%Z
    then String.eqb (PyStr.strip stdout) (PyStr.strip expected_output)
    else false in
  let '(memoryExceeded, passed) :=
    if (memoryKb >? memory_kb)%Z then (true, false) else (false, passed) in
  {| RunTests.Result.testId := test_id;
     RunTests.Result.passed := passed;
     RunTests.Result.exitCode := exitCode;
     RunTests.Result.timeMs := timeMs;
     RunTests.Result.memoryKb := memoryKb;
     RunTests.Result.timeoutOccurred := timeoutOccurred;
     RunTests.Result.memoryExceeded := memoryExceeded;
     RunTests.Result.stdout := stdout;
     RunTests.Result.stderr := stderr;
     RunTests.Result.expectedOutput := expected_output |}.

(** One test case of the test-case document, as [main] reads it. *)
Module TestCase.
Record t : Type := mk {
  id : option string;
  input : option string;
  expectedOutput : option string;
  expected : option string;
  stopOnFailure : option bool
}.
End TestCase.

(** The parsed test-case file: an array, an object (with or without the
    key [testCases]), or another JSON value. *)
Inductive document : Type :=
| DocArray (cases : list TestCase.t)
| DocObject (testCases : option (list TestCase.t))
| DocOther.

(** [load_test_cases]: [None] stands for [ValueError]. *)
Definition load_test_cases (data : document) : option (list TestCase.t) :=
  match data with
  | DocArray cases => Some cases
  | DocObject (Some cases) => Some cases
  | _ => None
  end.

(** The environment of the loop: whether [/usr/bin/time] exists, and for
    the test at each position what the child process does under each of
    the two runners. *)
Record environment : Type := {
  has_time_command : bool;
  timed_process : nat -> process;
  plain_process : nat -> RunTests.process * Z * option Z
}.

(** The loop of [main] from position [i] on: the results, in order, up to
    the [break]. *)
Fixpoint run_cases (env : environment) (timeout_sec memory_kb : Z)
    (i : nat) (test_cases : list TestCase.t) : list RunTests.Result.t :=
  match test_cases with
  | [] => []
  | test_case :: rest =>
      let test_id := get (TestCase.id test_case) ("test-" ++ PyStr.of_nat (i + 1)) in
      let expected_output :=
        get (TestCase.expectedOutput test_case) (get (TestCase.expected test_case) "") in
      let result :=
        if has_time_command env
        then run_with_time_command (timed_process env i) expected_output test_id
               timeout_sec memory_kb
        else let '(proc, elapsed_ms, vm_hwm_kb) := plain_process env i in
             RunTests.run_single_test proc elapsed_ms vm_hwm_kb expected_output test_id
               timeout_sec memory_kb in
      if get (TestCase.stopOnFailure test_case) false
         && negb (RunTests.Result.passed result)
      then [result]
      else result :: run_cases env timeout_sec memory_kb (S i) rest
  end.

End RunTestsDriver.

(** ** judge/special_judges: the report a special-judge program prints *)

Module JudgeReport.

(** The texts the special-judge programs produce; each constructor is one
    literal or one f-string with the values it interpolates. *)
Inductive text : Type :=
| Text (s : string)
| Usage (program : string)
| JudgeError (e : pyerror)
| LineCount (expected actual : nat)
| DiffLine (line : nat)
| CannotParseExpected (token : string)
| CannotParseActual (token : string)
| ValueCount (expected actual : nat)
| ValueDiff (position : nat) (expected actual : pyfloat)
| AllWithin (count : nat)
| ExpectedEmpty (actual : nat)
| AllCorrect (total : nat)
| WrongAt (correct total : nat) (wrong_indices : list nat)
| CorrectShare (correct total : nat) (score : pyfloat).

(** The dictionary given to [json.dumps]; the key [passed] is absent from
    some of the reports. *)
Record t : Type := mk {
  verdict : string;
  passed : option bool;
  score : pyfloat;
  message : text
}.

End JudgeReport.

(** ** judge/special_judges/exact_match.py *)

Module ExactMatchJudge.

(** [while lines and not lines[-1]: lines.pop()]: what is left of the
    list when its trailing empty lines are dropped. *)
Fixpoint pop_trailing_empty (lines : list string) : list string :=
  match lines with
  | [] => []
  | line :: lines' =>
      match pop_trailing_empty lines' with
      | [] => if String.eqb line "" then [] else [line]
      | kept => line :: kept
      end
  end.

Definition normalize (text : string) : string :=
  let lines := PyStr.split_on PyStr.nl text in
  let lines := map PyStr.rstrip lines in
  let lines := pop_trailing_empty lines in
  PyStr.join (String PyStr.nl "") lines.

(** [main] as a function of the length of [sys.argv] and of what reading
    the two files gives: an exception or the text. *)
Definition main (argc : nat) (expected_file actual_file : pyerror + string)
  : JudgeReport.t * Z :=
  if (argc <? 4)%nat
  then (JudgeReport.mk "IE" None (Fin 0) (JudgeReport.Usage "exact_match.py"), 1)
  else
    match expected_file with
    | inl e => (JudgeReport.mk "IE" None (Fin 0) (JudgeReport.JudgeError e), 1)
    | inr expected_text =>
        let expected := normalize expected_text in
        match actual_file with
        | inl e => (JudgeReport.mk "IE" None (Fin 0) (JudgeReport.JudgeError e), 1)
        | inr actual_text =>
            let actual := normalize actual_text in
            if String.eqb expected actual
            then (JudgeReport.mk "AC" (Some true) (Fin 1)
                    (JudgeReport.Text "Output matches expected"), 0)
            else
              let exp_lines := PyStr.split_on PyStr.nl expected in
              let act_lines := PyStr.split_on PyStr.nl actual in
              let message :=
                if negb (Nat.eqb (length exp_lines) (length act_lines))
                then JudgeReport.LineCount (length exp_lines) (length act_lines)
                else
                  match Comparator.first_diff Comparator.str_neqb 0%nat
                          exp_lines act_lines with
                  | Some i => JudgeReport.DiffLine (i + 1)%nat
                  | None => JudgeReport.Text "Output differs"
                  end in
              (JudgeReport.mk "WA" (Some false) (Fin 0) message, 0)
        end
    end.

End ExactMatchJudge.

(** ** judge/special_judges/float_tolerance.py: [parse_floats] and [main] *)

Module FloatToleranceJudge.

(** [parse_floats]: the values, or the token on which [float] raises
    [ValueError]. *)
Definition parse_floats (text : string) : string + list pyfloat :=
  let tokens := PyStr.split_ws text in
  Comparator.parse_floats tokens.

Definition not_close (exp act : pyfloat) : bool :=
  negb (FloatTolerance.is_close exp act).

(** [main] as a function of the length of [sys.argv] and of what reading
    the two files gives: an exception or the text. *)
Definition main (argc : nat) (expected_file actual_file : pyerror + string)
  : JudgeReport.t * Z :=
  if (argc <? 4)%nat
  then (JudgeReport.mk "IE" None (Fin 0) (JudgeReport.Usage "float_tolerance.py"), 1)
  else
    match expected_file with
    | inl e => (JudgeReport.mk "IE" None (Fin 0) (JudgeReport.JudgeError e), 1)
    | inr expected_text =>
        let expected_text := PyStr.strip expected_text in
        match actual_file with
        | inl e => (JudgeReport.mk "IE" None (Fin 0) (JudgeReport.JudgeError e), 1)
        | inr actual_text =>
            let actual_text := PyStr.strip actual_text in
            match parse_floats expected_text with
            | inl bad =>
                (JudgeReport.mk "IE" None (Fin 0) (JudgeReport.CannotParseExpected bad), 0)
            | inr expected_values =>
                match parse_floats actual_text with
                | inl bad =>
                    (JudgeReport.mk "WA" None (Fin 0)
                       (JudgeReport.CannotParseActual bad), 0)
                | inr actual_values =>
                    if negb (Nat.eqb (length expected_values) (length actual_values))
                    then (JudgeReport.mk "WA" None (Fin 0)
                            (JudgeReport.ValueCount (length expected_values)
                               (length actual_values)), 0)
                    else
                      match Comparator.first_diff not_close 0%nat
                              expected_values actual_values with
                      | Some i =>
                          (JudgeReport.mk "WA" None (Fin 0)
                             (JudgeReport.ValueDiff (i + 1)%nat
                                (nth i expected_values NaN) (nth i actual_values NaN)), 0)
                      | None =>
                          (JudgeReport.mk "AC" (Some true) (Fin 1)
                             (JudgeReport.AllWithin (length expected_values)), 0)
                      end
                end
            end
        end
    end.

End FloatToleranceJudge.

(** ** judge/special_judges/partial_score.py *)

Module PartialScoreJudge.

(** [for line in f]: the lines of the text, each with its newline. *)
Fixpoint file_lines (text : string) : list string :=
  match text with
  | EmptyString => []
  | String c text' =>
      if Ascii.eqb c PyStr.nl then String c EmptyString :: file_lines text'
      else match file_lines text' with
           | [] => [String c EmptyString]
           | line :: lines => String c line :: lines
           end
  end.

(** [[line.strip() for line in f if line.strip()]]. *)
Definition read_lines (text : string) : list string :=
  map PyStr.strip
    (List.filter (fun line => negb (String.eqb (PyStr.strip line) ""))
       (file_lines text)).

(** [while len(actual_lines) < len(expected_lines): actual_lines.append("")]. *)
Definition pad (actual_lines : list string) (n : nat) : list string :=
  (actual_lines ++ replicate (n - length actual_lines) "")%list.

(** The loop over the zipped lines, from index [i]: the number of equal
    pairs and the 1-based positions of the others. *)
Fixpoint count_correct (i : nat) (expected_lines actual_lines : list string)
  : nat * list nat :=
  match expected_lines, actual_lines with
  | exp :: expected_lines', act :: actual_lines' =>
      let '(correct_count, wrong_indices) :=
        count_correct (S i) expected_lines' actual_lines' in
      if String.eqb exp act then (S correct_count, wrong_indices)
      else (correct_count, (i + 1)%nat :: wrong_indices)
  | _, _ => (0%nat, [])
  end.

(** [round(x, 4)]. *)
Definition round4 (q : Q) : Q :=
  Qred (inject_Z (PyFloat.round_half_even (q * 10000)) / 10000).

(** [main] as a function of the length of [sys.argv] and of what reading
    the two files gives: an exception or the text. *)
Definition main (argc : nat) (expected_file actual_file : pyerror + string)
  : JudgeReport.t * Z :=
  if (argc <? 4)%nat
  then (JudgeReport.mk "IE" None (Fin 0) (JudgeReport.Usage "partial_score.py"), 1)
  else
    match expected_file with
    | inl e => (JudgeReport.mk "IE" None (Fin 0) (JudgeReport.JudgeError e), 1)
    | inr expected_text =>
        let expected_lines := read_lines expected_text in
        match actual_file with
        | inl e => (JudgeReport.mk "IE" None (Fin 0) (JudgeReport.JudgeError e), 1)
        | inr actual_text =>
            let actual_lines := read_lines actual_text in
            if (length expected_lines =? 0)%nat
            then
              if (length actual_lines =? 0)%nat
              then (JudgeReport.mk "AC" None (Fin 1)
                      (JudgeReport.Text "Both empty (correct)"), 0)
              else (JudgeReport.mk "WA" None (Fin 0)
                      (JudgeReport.ExpectedEmpty (length actual_lines)), 0)
            else
              let actual_lines := pad actual_lines (length expected_lines) in
              let '(correct_count, wrong_indices) :=
                count_correct 0 expected_lines actual_lines in
              let total := length expected_lines in
              let score :=
                (inject_Z (Z.of_nat correct_count) / inject_Z (Z.of_nat total))%Q in
              let extra_lines :=
                Z.of_nat (length actual_lines) - Z.of_nat (length expected_lines) in
              let score :=
                if extra_lines >? 0
                then
                  let lowered := (score - (1 # 10) * inject_Z extra_lines)%Q in
                  if PyFloat.Qltb 0 lowered then lowered else 0%Q
                else score in
              let '(verdict, message) :=
                if (correct_count =? total)%nat && (extra_lines =? 0)%Z
                then ("AC", JudgeReport.AllCorrect total)
                else if PyFloat.Qltb 0 score
                then ("WA",
                      if (length wrong_indices <=? 5)%nat
                      then JudgeReport.WrongAt correct_count total wrong_indices
                      else JudgeReport.CorrectShare correct_count total (Fin score))
                else ("WA", JudgeReport.Text "No correct answers") in
              (JudgeReport.mk verdict (Some (String.eqb verdict "AC"))
                 (Fin (round4 score)) message, 0)
        end
    end.

End PartialScoreJudge.

(** ** runner/harness/json_helper.py: [load_test_cases],
    [load_test_cases_from_list], [run_all_tests] and the document written
    by [main] *)

Module JsonHelperSuite.

(** One test case of the test-case document, as the loaders read it.  A
    limit may be given as [null]. *)
Module RawTestCase.
Record t : Type := mk {
  id : option string;
  input : option string;
  expected_output : option string;
  expectedOutput : option string;
  time_limit_ms : option (option Z);
  timeLimitMs : option (option Z);
  memory_limit_kb : option (option Z);
  memoryLimitKb : option (option Z);
  hidden : option bool;
  weight : option pyfloat
}.
End RawTestCase.

(** The test-case document: an array, an object (with its [test_cases]
    entry, if any), or another value. *)
Inductive document : Type :=
| DocArray (data : list RawTestCase.t)
| DocObject (test_cases : option (list RawTestCase.t))
| DocOther.

Definition load_test_cases_from_list (test_list : list RawTestCase.t)
  : list JsonHelper.TestCase.t :=
  imap (fun i tc =>
          {| JsonHelper.TestCase.id :=
               get (RawTestCase.id tc) ("test-" ++ PyStr.of_nat (i + 1));
             JsonHelper.TestCase.input := get (RawTestCase.input tc) "";
             JsonHelper.TestCase.expected_output :=
               get (RawTestCase.expected_output tc)
                 (get (RawTestCase.expectedOutput tc) "");
             JsonHelper.TestCase.time_limit_ms :=
               get (RawTestCase.time_limit_ms tc) None;
             JsonHelper.TestCase.memory_limit_kb :=
               get (RawTestCase.memory_limit_kb tc) None;
             JsonHelper.TestCase.hidden := get (RawTestCase.hidden tc) false;
             JsonHelper.TestCase.weight := get (RawTestCase.weight tc) (Fin 1) |})
    test_list.

Definition load_test_cases (data : document) : list JsonHelper.TestCase.t :=
  match data with
  | DocArray data =>
      imap (fun i tc =>
              {| JsonHelper.TestCase.id :=
                   get (RawTestCase.id tc) ("test-" ++ PyStr.of_nat (i + 1));
                 JsonHelper.TestCase.input := get (RawTestCase.input tc) "";
                 JsonHelper.TestCase.expected_output :=
                   get (RawTestCase.expected_output tc)
                     (get (RawTestCase.expectedOutput tc) "");
                 JsonHelper.TestCase.time_limit_ms :=
                   get (RawTestCase.time_limit_ms tc)
                     (get (RawTestCase.timeLimitMs tc) None);
                 JsonHelper.TestCase.memory_limit_kb :=
                   get (RawTestCase.memory_limit_kb tc)
                     (get (RawTestCase.memoryLimitKb tc) None);
                 JsonHelper.TestCase.hidden := get (RawTestCase.hidden tc) false;
                 JsonHelper.TestCase.weight := get (RawTestCase.weight tc) (Fin 1) |})
        data
  | DocObject (Some test_cases) => load_test_cases_from_list test_cases
  | _ => []
  end.

Module ExecutionSummary.
Record t : Type := mk {
  success : bool;
  total_tests : Z;
  passed_tests : Z;
  failed_tests : Z;
  total_time_ms : Z;
  max_memory_kb : Z;
  score : pyfloat;
  test_results : list JsonHelper.TestResult.t;
  compile_result : option (gmap string json)
}.
End ExecutionSummary.


(** The document [main] writes, as judge.py reads it back: the keys of a
    record are the field names of [TestResult]; [render] gives the text
    of an error. *)
Definition record_of (render : JsonHelper.error_text -> string)
    (r : JsonHelper.TestResult.t) : TestRecord.t :=
  {| TestRecord.test_id := Some (JsonHelper.TestResult.test_id r);
     TestRecord.testId := None;
     TestRecord.status := Some (JsonHelper.TestResult.status r);
     TestRecord.actual_output := Some (JsonHelper.TestResult.actual_output r);
     TestRecord.actualOutput := None;
     TestRecord.execution_time_ms := Some (JsonHelper.TestResult.execution_time_ms r);
     TestRecord.executionTimeMs := None;
     TestRecord.memory_used_kb := Some (JsonHelper.TestResult.memory_used_kb r);
     TestRecord.memoryUsedKb := None;
     TestRecord.input := Some (JsonHelper.TestResult.input r);
     TestRecord.expected_output := Some (JsonHelper.TestResult.expected_output r);
     TestRecord.expectedOutput := None;
     TestRecord.error := Some (option_map render (JsonHelper.TestResult.error r));
     TestRecord.timedOut := None |}.

Definition result_document (render : JsonHelper.error_text -> string)
    (summary : ExecutionSummary.t) : HarnessOutput.t :=
  {| HarnessOutput.compile_result := Some (ExecutionSummary.compile_result summary);
     HarnessOutput.compileResult := None;
     HarnessOutput.test_results :=
       Some (map (record_of render) (ExecutionSummary.test_results summary));
     HarnessOutput.testResults := None;
     HarnessOutput.stdout := None;
     HarnessOutput.output := None;
     HarnessOutput.status := None;
     HarnessOutput.execution_time_ms := None;
     HarnessOutput.executionTimeMs := None;
     HarnessOutput.memory_used_kb := None;
     HarnessOutput.memoryUsedKb := None;
     HarnessOutput.input := None;
     HarnessOutput.error := None;
     HarnessOutput.timedOut := None |}.

End JsonHelperSuite.

(** ** judge.py: [load_expected_outputs], [load_problem_config] and [main] *)

Module JudgeMain.

(** One test case of the expected-outputs document. *)
Module ExpectedCase.
Record t : Type := mk {
  id : option string;
  test_id : option string;
  expected_output : option string;
  expectedOutput : option string
}.
End ExpectedCase.

(** The expected-outputs document: an array of test cases, an object
    (its [test_cases] entry if it has one, and the object itself as a
    mapping), or another value. *)
Inductive expected_document : Type :=
| ExpArray (data : list ExpectedCase.t)
| ExpObject (test_cases : option (list ExpectedCase.t)) (mapping : gmap string string)
| ExpOther.

(** The dictionary comprehension over [enumerate(test_list)], from index
    [i]: a later test case replaces an earlier one with the same key. *)
Fixpoint collect (i : nat) (test_list : list ExpectedCase.t)
    (outputs : gmap string string) : gmap string string :=
  match test_list with
  | [] => outputs
  | tc :: rest =>
      let key :=
        get (ExpectedCase.id tc)
          (get (ExpectedCase.test_id tc) ("test-" ++ PyStr.of_nat (i + 1))) in
      let value :=
        get (ExpectedCase.expected_output tc)
          (get (ExpectedCase.expectedOutput tc) "") in
      collect (S i) rest (<[key := value]> outputs)
  end.

Definition load_expected_outputs_from_list (test_list : list ExpectedCase.t)
  : gmap string string :=
  collect 0 test_list ∅.

Definition load_expected_outputs (data : expected_document) : gmap string string :=
  match data with
  | ExpArray data => collect 0 data ∅
  | ExpObject (Some test_cases) _ => load_expected_outputs_from_list test_cases
  | ExpObject None mapping => mapping
  | ExpOther => ∅
  end.

(** The problem-configuration document. *)
Module RawConfig.
Record t : Type := mk {
  time_limit_ms : option Z;
  timeLimitMs : option Z;
  memory_limit_kb : option Z;
  memoryLimitKb : option Z;
  comparison_mode : option string;
  comparisonMode : option string;
  float_tolerance : option pyfloat;
  floatTolerance : option pyfloat;
  special_judge_path : option (option string);
  specialJudgePath : option (option string);
  case_sensitive : option bool;
  caseSensitive : option bool;
  ignore_trailing_whitespace : option bool;
  ignore_trailing_newlines : option bool;
  partial_scoring : option bool;
  partialScoring : option bool;
  test_weights : option (gmap string pyfloat);
  testWeights : option (gmap string pyfloat)
}.
End RawConfig.

Definition load_problem_config (data : RawConfig.t) : ProblemConfig.t :=
  {| ProblemConfig.time_limit_ms :=
       get (RawConfig.time_limit_ms data) (get (RawConfig.timeLimitMs data) 5000);
     ProblemConfig.memory_limit_kb :=
       get (RawConfig.memory_limit_kb data) (get (RawConfig.memoryLimitKb data) 262144);
     ProblemConfig.comparison_mode :=
       get (RawConfig.comparison_mode data) (get (RawConfig.comparisonMode data) "exact");
     ProblemConfig.float_tolerance :=
       get (RawConfig.float_tolerance data)
         (get (RawConfig.floatTolerance data) (Fin (1 # 1000000)));
     ProblemConfig.special_judge_path :=
       get (RawConfig.special_judge_path data)
         (get (RawConfig.specialJudgePath data) None);
     ProblemConfig.case_sensitive :=
       get (RawConfig.case_sensitive data) (get (RawConfig.caseSensitive data) true);
     ProblemConfig.ignore_trailing_whitespace :=
       get (RawConfig.ignore_trailing_whitespace data) true;
     ProblemConfig.ignore_trailing_newlines :=
       get (RawConfig.ignore_trailing_newlines data) true;
     ProblemConfig.partial_scoring :=
       get (RawConfig.partial_scoring data) (get (RawConfig.partialScoring data) true);
     ProblemConfig.test_weights :=
       get (RawConfig.test_weights data) (get (RawConfig.testWeights data) ∅) |}.

(** The parsed command line. *)
Module Args.
Record t : Type := mk {
  harness_output : string;
  expected : option string;
  special_judge : option string;
  problem_config : option string;
  output : option string;
  comparison : string;
  tolerance : pyfloat;
  case_insensitive : bool
}.
End Args.

(** What [main] reads: the three documents by their paths, and the two
    file-system checks of the special judge. *)
Record files : Type := {
  harness_document : string -> HarnessOutput.t;
  config_document : string -> RawConfig.t;
  expected_outputs_document : string -> expected_document;
  path_exists : string -> bool;
  executable : string -> bool
}.

(** The configuration [main] hands to [Judge]. *)
Definition config_of (fs : files) (args : Args.t) : ProblemConfig.t :=
  let config :=
    if Judge.str_truthy (Args.problem_config args)
    then load_problem_config (config_document fs (get (Args.problem_config args) ""))
    else
      {| ProblemConfig.time_limit_ms := 5000;
         ProblemConfig.memory_limit_kb := 262144;
         ProblemConfig.comparison_mode := Args.comparison args;
         ProblemConfig.float_tolerance := Args.tolerance args;
         ProblemConfig.special_judge_path := Args.special_judge args;
         ProblemConfig.case_sensitive := negb (Args.case_insensitive args);
         ProblemConfig.ignore_trailing_whitespace := true;
         ProblemConfig.ignore_trailing_newlines := true;
         ProblemConfig.partial_scoring := true;
         ProblemConfig.test_weights := ∅ |} in
  if Judge.str_truthy (Args.special_judge args)
  then
    {| ProblemConfig.time_limit_ms := ProblemConfig.time_limit_ms config;
       ProblemConfig.memory_limit_kb := ProblemConfig.memory_limit_kb config;
       ProblemConfig.comparison_mode := "special";
       ProblemConfig.float_tolerance := ProblemConfig.float_tolerance config;
       ProblemConfig.special_judge_path := Args.special_judge args;
       ProblemConfig.case_sensitive := ProblemConfig.case_sensitive config;
       ProblemConfig.ignore_trailing_whitespace :=
         ProblemConfig.ignore_trailing_whitespace config;
       ProblemConfig.ignore_trailing_newlines :=
         ProblemConfig.ignore_trailing_newlines config;
       ProblemConfig.partial_scoring := ProblemConfig.partial_scoring config;
       ProblemConfig.test_weights := ProblemConfig.test_weights config |}
  else config.

(** [main]: the result it prints and its exit status, or the exception
    of [Judge.__init__]. *)
Definition main (launch : SpecialJudge.launcher) (fs : files) (args : Args.t)
  : init_error + (JudgeResult.t * Z) :=
  let harness_output := harness_document fs (Args.harness_output args) in
  let config := config_of fs args in
  let expected_outputs :=
    if Judge.str_truthy (Args.expected args)
    then Some (load_expected_outputs
                 (expected_outputs_document fs (get (Args.expected args) "")))
    else None in
  match Judge.init (path_exists fs) (executable fs) (Some config) with
  | inl e => inl e
  | inr judge =>
      let result := Judge.judge_submission launch judge harness_output expected_outputs in
      inr (result, Judge.exit_code result)
  end.

End JudgeMain.

(** * Notions of the specification

    The definitions of this part are not translated from the sources:
    they name what the statements below talk about. *)

(** ** Per-case verdicts *)

(** A verdict is the verdict of a record when [judge_test_case] returns it
    for that record and some choice of the expected output. *)
Definition judged_as (launch : SpecialJudge.launcher) (self : Judge.t)
    (test_result : TestRecord.t) (v : TestCaseVerdict.t) : Prop :=
  exists expected, v = Judge.judge_test_case launch self test_result expected.

(** ** The precedence of the final verdict *)

(** The rule of the specification, on the sequence of per-case verdicts:
    the first of the five lines that applies gives the final verdict. *)
Definition all_cases (code : Verdict) (vs : list Verdict) : Prop :=
  Forall (fun v => v = code) vs.
Definition any_case (code : Verdict) (vs : list Verdict) : Prop :=
  Exists (fun v => v = code) vs.

Definition precedence_rule (vs : list Verdict) (final : Verdict) : Prop :=
  (all_cases AC vs /\ final = AC)
  \/ (~ all_cases AC vs /\ any_case TLE vs /\ final = TLE)
  \/ (~ all_cases AC vs /\ ~ any_case TLE vs /\ any_case MLE vs /\ final = MLE)
  \/ (~ all_cases AC vs /\ ~ any_case TLE vs /\ ~ any_case MLE vs
      /\ any_case RE vs /\ final = RE)
  \/ (~ all_cases AC vs /\ ~ any_case TLE vs /\ ~ any_case MLE vs
      /\ ~ any_case RE vs /\ final = WA).

(** ** What [judge_test_case] reads from a record *)

Definition case_test_id (tr : TestRecord.t) : string :=
  get (TestRecord.test_id tr) (get (TestRecord.testId tr) "unknown").
Definition case_actual (tr : TestRecord.t) : string :=
  get (TestRecord.actual_output tr) (get (TestRecord.actualOutput tr) "").
Definition case_expected (tr : TestRecord.t) (expected : option string) : string :=
  match expected with
  | Some e => e
  | None => get (TestRecord.expected_output tr) (get (TestRecord.expectedOutput tr) "")
  end.
Definition case_exec_time (tr : TestRecord.t) : Z :=
  get (TestRecord.execution_time_ms tr) (get (TestRecord.executionTimeMs tr) 0).
Definition case_memory (tr : TestRecord.t) : Z :=
  get (TestRecord.memory_used_kb tr) (get (TestRecord.memoryUsedKb tr) 0).
Definition case_input (tr : TestRecord.t) : string := get (TestRecord.input tr) "".
Definition case_weight (self : Judge.t) (tr : TestRecord.t) : pyfloat :=
  get (ProblemConfig.test_weights (Judge.config self) !! case_test_id tr) (Fin 1).

(** The record is settled by its status alone: one of the three tests
    that precede the comparison succeeds. *)
Definition timed_out (tr : TestRecord.t) : bool :=
  String.eqb (get (TestRecord.status tr) "") "timeout"
  || get (TestRecord.timedOut tr) false.
Definition classified_by_status (tr : TestRecord.t) : bool :=
  timed_out tr
  || String.eqb (get (TestRecord.status tr) "") "memory_limit"
  || String.eqb (get (TestRecord.status tr) "") "runtime_error".

(** The score that the special judge reports for a record (before the
    weight is applied). *)
Definition reported_score (launch : SpecialJudge.launcher) (sj : SpecialJudge.t)
    (tr : TestRecord.t) (expected : option string) : pyfloat :=
  snd (fst (SpecialJudge.run launch sj (case_input tr) (case_expected tr expected)
              (case_actual tr) (case_test_id tr))).

(** ** Failures of the special judge *)

(** The special judge failed: it ended with a non-zero return code, or it
    did not end within its time limit. *)
Definition special_judge_failed (o : SpecialJudge.outcome) : Prop :=
  match o with
  | SpecialJudge.Completed returncode _ _ _ => returncode <> 0
  | SpecialJudge.TimeoutExpired => True
  | SpecialJudge.Raised _ => False
  end.

(** The text that reports the failure. *)
Definition failure_message (o : SpecialJudge.outcome) : message :=
  match o with
  | SpecialJudge.Completed _ _ _ stderr => MsgSpecialJudgeStderr stderr
  | SpecialJudge.TimeoutExpired => MsgSpecialJudgeTimeout
  | SpecialJudge.Raised e => MsgSpecialJudgeError e
  end.

(** ** Normalisation *)

(** Normalisation in the words of the specification.  A character that
    is not a newline is trailing whitespace of its line when it is
    whitespace and only whitespace follows it up to the end of the line,
    that is, when what is kept of the rest of the text is empty or starts
    with a newline. *)
Definition at_line_end (rest : string) : bool :=
  match rest with
  | EmptyString => true
  | String c _ => Ascii.eqb c PyStr.nl
  end.

Fixpoint strip_each_line (text : string) : string :=
  match text with
  | EmptyString => EmptyString
  | String c text' =>
      let rest := strip_each_line text' in
      if Ascii.eqb c PyStr.nl then String c rest
      else if PyStr.isspace c && at_line_end rest then rest
      else String c rest
  end.

Definition normalise (config : ProblemConfig.t) (text : string) : string :=
  let text :=
    if ProblemConfig.ignore_trailing_whitespace config
    then strip_each_line text else text in
  let text :=
    if ProblemConfig.ignore_trailing_newlines config
    then PyStr.rstrip_chars PyStr.nl text else text in
  if ProblemConfig.case_sensitive config then text else PyStr.lower text.

(** ** Sample documents *)

(** A record with the four keys the harness always writes. *)
Definition sample_record (test_id status actual expected : string) : TestRecord.t :=
  {| TestRecord.test_id := Some test_id;
     TestRecord.testId := None;
     TestRecord.status := Some status;
     TestRecord.actual_output := Some actual;
     TestRecord.actualOutput := None;
     TestRecord.execution_time_ms := Some 12;
     TestRecord.executionTimeMs := None;
     TestRecord.memory_used_kb := Some 2048;
     TestRecord.memoryUsedKb := None;
     TestRecord.input := Some "1 2";
     TestRecord.expected_output := Some expected;
     TestRecord.expectedOutput := None;
     TestRecord.error := None;
     TestRecord.timedOut := None |}.

Definition sample_document (test_results : list TestRecord.t) : HarnessOutput.t :=
  {| HarnessOutput.compile_result := Some None;
     HarnessOutput.compileResult := None;
     HarnessOutput.test_results := Some test_results;
     HarnessOutput.testResults := None;
     HarnessOutput.stdout := None;
     HarnessOutput.output := None;
     HarnessOutput.status := None;
     HarnessOutput.execution_time_ms := None;
     HarnessOutput.executionTimeMs := None;
     HarnessOutput.memory_used_kb := None;
     HarnessOutput.memoryUsedKb := None;
     HarnessOutput.input := None;
     HarnessOutput.error := None;
     HarnessOutput.timedOut := None |}.

(** The judge built from the default configuration: exact comparison, no
    special judge. *)
Definition default_judge : Judge.t := Judge.mk ProblemConfig.default None.

(** A special-judge program that always gives the same outcome. *)
Definition constant_program (o : SpecialJudge.outcome) : SpecialJudge.launcher :=
  fun _ _ _ _ _ => o.

Definition crashing_program : SpecialJudge.launcher :=
  constant_program (SpecialJudge.Completed 1 "" None "boom").

Definition with_mode (mode : string) (weights : gmap string pyfloat)
    (path : option string) : ProblemConfig.t :=
  {| ProblemConfig.time_limit_ms := 5000;
     ProblemConfig.memory_limit_kb := 262144;
     ProblemConfig.comparison_mode := mode;
     ProblemConfig.float_tolerance := Fin (1 # 1000000);
     ProblemConfig.special_judge_path := path;
     ProblemConfig.case_sensitive := true;
     ProblemConfig.ignore_trailing_whitespace := true;
     ProblemConfig.ignore_trailing_newlines := true;
     ProblemConfig.partial_scoring := true;
     ProblemConfig.test_weights := weights |}.

(** A judge in special mode, with a special judge at [/judges/checker]. *)
Definition special_judge_judge : Judge.t :=
  Judge.mk (with_mode "special" ∅ (Some "/judges/checker"))
    (Some (SpecialJudge.mk "/judges/checker")).

(** The judge in float mode with the default tolerance. *)
Definition float_judge : Judge.t := Judge.mk (with_mode "float" ∅ None) None.

(** The double quote, to spell JSON texts. *)
Definition dq : string := String (ascii_of_nat 34) "".

(** A special judge that prints [{"verdict": "AC", "score": 0.5}]. *)
Definition half_score_program : SpecialJudge.launcher :=
  constant_program
    (SpecialJudge.Completed 0
       ("{" ++ dq ++ "verdict" ++ dq ++ ": " ++ dq ++ "AC" ++ dq ++ ", "
            ++ dq ++ "score" ++ dq ++ ": 0.5}")
       (Some (JObj (<["verdict" := JStr "AC"]> (<["score" := JNum (Fin (1 # 2))]> ∅))))
       "").

(** A special judge that prints [{"verdict": "AC", "score": 2}]. *)
Definition double_score_program : SpecialJudge.launcher :=
  constant_program
    (SpecialJudge.Completed 0
       ("{" ++ dq ++ "verdict" ++ dq ++ ": " ++ dq ++ "AC" ++ dq ++ ", "
            ++ dq ++ "score" ++ dq ++ ": 2}")
       (Some (JObj (<["verdict" := JStr "AC"]> (<["score" := JNum (Fin 2)]> ∅))))
       "").

Definition answer_case : JsonHelper.TestCase.t :=
  {| JsonHelper.TestCase.id := "a";
     JsonHelper.TestCase.input := "6 7";
     JsonHelper.TestCase.expected_output := "42";
     JsonHelper.TestCase.time_limit_ms := None;
     JsonHelper.TestCase.memory_limit_kb := None;
     JsonHelper.TestCase.hidden := false;
     JsonHelper.TestCase.weight := Fin 1 |}.

(** * Further notions *)

(** ** The records a submission judges *)

(** The identifier under which the loop of [judge_submission] looks up the
    expected output of the record at position [i] (counted from 0). *)
Definition lookup_id (i : nat) (tr : TestRecord.t) : string :=
  get (TestRecord.test_id tr)
    (get (TestRecord.testId tr) ("test-" ++ PyStr.of_nat (i + 1))).

(** The expected output that the loop passes to [judge_test_case]. *)
Definition expected_for (expected_outputs : option (gmap string string))
    (i : nat) (tr : TestRecord.t) : option string :=
  match expected_outputs with
  | Some outputs => if Judge.dict_truthy outputs then outputs !! lookup_id i tr else None
  | None => None
  end.

(** The first lookup of [judge_submission]: the compile result and the
    list of test results of a document. *)
Definition compile_result_of (harness_output : HarnessOutput.t)
  : option (gmap string json) :=
  get (HarnessOutput.compile_result harness_output)
    (get (HarnessOutput.compileResult harness_output) None).
Definition test_results_of (harness_output : HarnessOutput.t) : list TestRecord.t :=
  get (HarnessOutput.test_results harness_output)
    (get (HarnessOutput.testResults harness_output) []).

(** The judge with another comparison mode. *)
Definition with_comparison_mode (mode : string) (self : Judge.t) : Judge.t :=
  let config := Judge.config self in
  {| Judge.config :=
       {| ProblemConfig.time_limit_ms := ProblemConfig.time_limit_ms config;
          ProblemConfig.memory_limit_kb := ProblemConfig.memory_limit_kb config;
          ProblemConfig.comparison_mode := mode;
          ProblemConfig.float_tolerance := ProblemConfig.float_tolerance config;
          ProblemConfig.special_judge_path := ProblemConfig.special_judge_path config;
          ProblemConfig.case_sensitive := ProblemConfig.case_sensitive config;
          ProblemConfig.ignore_trailing_whitespace :=
            ProblemConfig.ignore_trailing_whitespace config;
          ProblemConfig.ignore_trailing_newlines :=
            ProblemConfig.ignore_trailing_newlines config;
          ProblemConfig.partial_scoring := ProblemConfig.partial_scoring config;
          ProblemConfig.test_weights := ProblemConfig.test_weights config |};
     Judge.special_judge := Judge.special_judge self |}.

(** The record with other values under its two expected-output keys. *)
Definition with_expected (snake camel : option string) (tr : TestRecord.t)
  : TestRecord.t :=
  {| TestRecord.test_id := TestRecord.test_id tr;
     TestRecord.testId := TestRecord.testId tr;
     TestRecord.status := TestRecord.status tr;
     TestRecord.actual_output := TestRecord.actual_output tr;
     TestRecord.actualOutput := TestRecord.actualOutput tr;
     TestRecord.execution_time_ms := TestRecord.execution_time_ms tr;
     TestRecord.executionTimeMs := TestRecord.executionTimeMs tr;
     TestRecord.memory_used_kb := TestRecord.memory_used_kb tr;
     TestRecord.memoryUsedKb := TestRecord.memoryUsedKb tr;
     TestRecord.input := TestRecord.input tr;
     TestRecord.expected_output := snake;
     TestRecord.expectedOutput := camel;
     TestRecord.error := TestRecord.error tr;
     TestRecord.timedOut := TestRecord.timedOut tr |}.

(** ** The range of the float sums *)



(** ** The timed runner *)

(** The memory that the timed runner records for a reading of the time
    file; none when the reading raises. *)
Definition recorded_memory (rss : RunTestsDriver.rss_reading) : option Z :=
  match rss with
  | RunTestsDriver.RssAbsent => Some 0
  | RunTestsDriver.RssValue kb => Some kb
  | RunTestsDriver.RssError _ => None
  end.

(** ** The loop of [run_tests.py] *)

(** The result of the test case at position [i], and whether the loop
    ends after it. *)
Definition result_at (env : RunTestsDriver.environment) (timeout_sec memory_kb : Z)
    (i : nat) (test_case : RunTestsDriver.TestCase.t) : RunTests.Result.t :=
  let test_id :=
    get (RunTestsDriver.TestCase.id test_case) ("test-" ++ PyStr.of_nat (i + 1)) in
  let expected_output :=
    get (RunTestsDriver.TestCase.expectedOutput test_case)
      (get (RunTestsDriver.TestCase.expected test_case) "") in
  if RunTestsDriver.has_time_command env
  then RunTestsDriver.run_with_time_command (RunTestsDriver.timed_process env i)
         expected_output test_id timeout_sec memory_kb
  else RunTests.run_single_test (RunTestsDriver.plain_process env i).1.1
         (RunTestsDriver.plain_process env i).1.2
         (RunTestsDriver.plain_process env i).2
         expected_output test_id timeout_sec memory_kb.

Definition stops_after (env : RunTestsDriver.environment) (timeout_sec memory_kb : Z)
    (i : nat) (test_case : RunTestsDriver.TestCase.t) : bool :=
  get (RunTestsDriver.TestCase.stopOnFailure test_case) false
  && negb (RunTests.Result.passed (result_at env timeout_sec memory_kb i test_case)).

(** ** The special-judge programs *)

(** The text of a special-judge program that reads as a message of the
    built-in comparators. *)
Definition builtin_text (m : message) : option JudgeReport.text :=
  match m with
  | MsgText s => Some (JudgeReport.Text s)
  | MsgLineCount expected actual => Some (JudgeReport.LineCount expected actual)
  | MsgDiffLine line => Some (JudgeReport.DiffLine line)
  | _ => None
  end.

(** ** The test suite of the harness *)


(** A limit of a raw test case is given by its camelCase key only. *)
Definition camel_limit_read (snake camel : option (option Z)) : Prop :=
  snake = None /\ exists v, camel = Some (Some v).

Definition camel_limits_unused (tc : JsonHelperSuite.RawTestCase.t) : Prop :=
  ~ camel_limit_read (JsonHelperSuite.RawTestCase.time_limit_ms tc)
      (JsonHelperSuite.RawTestCase.timeLimitMs tc)
  /\ ~ camel_limit_read (JsonHelperSuite.RawTestCase.memory_limit_kb tc)
         (JsonHelperSuite.RawTestCase.memoryLimitKb tc).

(** ** The expected-outputs document *)

(** The key and the value that the test case at position [i] (counted
    from 0) contributes to the expected outputs. *)
Definition expected_key (i : nat) (tc : JudgeMain.ExpectedCase.t) : string :=
  get (JudgeMain.ExpectedCase.id tc)
    (get (JudgeMain.ExpectedCase.test_id tc) ("test-" ++ PyStr.of_nat (i + 1))).
Definition expected_value (tc : JudgeMain.ExpectedCase.t) : string :=
  get (JudgeMain.ExpectedCase.expected_output tc)
    (get (JudgeMain.ExpectedCase.expectedOutput tc) "").

(** ** The command line of the judge *)

(** The command line with other comparison flags. *)
Definition with_flags (comparison : string) (tolerance : pyfloat)
    (case_insensitive : bool) (args : JudgeMain.Args.t) : JudgeMain.Args.t :=
  {| JudgeMain.Args.harness_output := JudgeMain.Args.harness_output args;
     JudgeMain.Args.expected := JudgeMain.Args.expected args;
     JudgeMain.Args.special_judge := JudgeMain.Args.special_judge args;
     JudgeMain.Args.problem_config := JudgeMain.Args.problem_config args;
     JudgeMain.Args.output := JudgeMain.Args.output args;
     JudgeMain.Args.comparison := comparison;
     JudgeMain.Args.tolerance := tolerance;
     JudgeMain.Args.case_insensitive := case_insensitive |}.

(** ** Notions of the further facts *)


(** The lines that the exact comparator compares. *)
Definition compared_lines (config : ProblemConfig.t) (text : string) : list string :=
  PyStr.split_on PyStr.nl (Comparator.normalize (Some text) config).

(** The text is empty or starts with whitespace. *)
Definition at_boundary (text : string) : bool :=
  match text with
  | EmptyString => true
  | String c _ => PyStr.isspace c
  end.

(** The tokens that the token comparator compares. *)
Definition compared_tokens (config : ProblemConfig.t) (text : string) : list string :=
  if ProblemConfig.case_sensitive config then PyStr.split_ws text
  else map PyStr.lower (PyStr.split_ws text).

(** What the test of the comparison loop lets pass in the exact
    arithmetic of the model, for the tolerance [t]: a NaN on either
    side, every actual value when the expected one is infinite, and two
    finite values within the absolute or the relative bound. *)
Definition within_tolerance (t : Q) (exp_val act_val : pyfloat) : Prop :=
  match exp_val, act_val with
  | NaN, _ | _, NaN => True
  | PosInf, _ | NegInf, _ => True
  | Fin x, Fin y => (Qabs (x - y) <= t \/ Qabs (x - y) <= t * Qabs x)%Q
  | Fin _, _ => False
  end.

(** No line of the text ends with whitespace. *)
Fixpoint lines_stripped (text : string) : bool :=
  match text with
  | EmptyString => true
  | String c text' =>
      lines_stripped text'
      && negb (negb (Ascii.eqb c PyStr.nl) && PyStr.isspace c && at_line_end text')
  end.

Definition sample_environment : RunTestsDriver.environment :=
  {| RunTestsDriver.has_time_command := true;
     RunTestsDriver.timed_process :=
       fun i => RunTestsDriver.Finished 0 "42" "" 15 (RunTestsDriver.RssValue 900);
     RunTestsDriver.plain_process := fun i => (RunTests.RaisedMemoryError, 0, None) |}.

Ltac harness_cases :=
  repeat split; try done; auto; try congruence;
  try (intros [[=] | [=]]; congruence);
  try match goal with
      | Hh : JsonHelper.TestCase.hidden _ = true |- _ => by rewrite Hh
      end.

Definition sample_files : JudgeMain.files :=
  {| JudgeMain.harness_document :=
       fun _ => sample_document [sample_record "a" "passed" "3" "3"];
     JudgeMain.config_document :=
       fun _ => JudgeMain.RawConfig.mk None None None None (Some "token") None None None
                  None None None None None None None None None None;
     JudgeMain.expected_outputs_document := fun _ => JudgeMain.ExpOther;
     JudgeMain.path_exists := fun _ => true;
     JudgeMain.executable := fun _ => true |}.

(** * Facts about the embedding *)

(** ** The loop over the test records *)

Section JudgeCases.

Variable launch : SpecialJudge.launcher.
Variable self : Judge.t.
Variable expected_outputs : option (gmap string string).

Lemma judge_cases_spec (test_results : list TestRecord.t) :
  forall verdicts,
  exists judged,
    Judge.judge_cases launch self expected_outputs verdicts test_results
      = (verdicts ++ judged)%list
    /\ Forall2 (judged_as launch self) test_results judged.
Proof.
  induction test_results as [|tr rest IH]; intros verdicts; simpl.
  - exists []. split; [by rewrite app_nil_r | constructor].
  - edestruct IH as (judged & -> & Hall).
    eexists (_ :: judged). split.
    + by rewrite <- app_assoc.
    + constructor; [eexists; reflexivity | exact Hall].
Qed.

Lemma judge_cases_length (test_results : list TestRecord.t) verdicts :
  length (Judge.judge_cases launch self expected_outputs verdicts test_results)
  = (length verdicts + length test_results)%nat.
Proof.
  destruct (judge_cases_spec test_results verdicts) as (judged & -> & Hall).
  rewrite length_app. f_equal. symmetry. eapply Forall2_length, Hall.
Qed.

End JudgeCases.

(** ** The five verdict codes of a judged case *)

Lemma judge_test_case_verdict launch self tr expected :
  TestCaseVerdict.verdict (Judge.judge_test_case launch self tr expected)
  ∈ [AC; WA; TLE; MLE; RE].
Proof.
  unfold Judge.judge_test_case.
  repeat match goal with
         | |- context [if ?b then _ else _] => destruct b
         | |- context [match ?x with _ => _ end] => destruct x
         end; simpl; set_solver.
Qed.

Example special_judge_judge_init :
  Judge.init (fun _ => true) (fun _ => true)
    (Some (with_mode "special" ∅ (Some "/judges/checker")))
  = inr special_judge_judge.
Proof. reflexivity. Qed.

(** ** The scenarios of the specification, with the status texts of
    the harness *)

Example scenario_correct_answer :
  let result :=
    Judge.judge_submission crashing_program default_judge
      (sample_document [sample_record "a" "passed" ("3" ++ String PyStr.nl "")
                          ("3" ++ String PyStr.nl "")]) None in
  (JudgeResult.final_verdict result, JudgeResult.total_score result,
   JudgeResult.max_score result, JudgeResult.score_percentage result)
  = (AC, Fin 1, Fin 1, Fin 100).
Proof. reflexivity. Qed.

Example scenario_wrong_answer :
  let result :=
    Judge.judge_submission crashing_program default_judge
      (sample_document [sample_record "a" "passed" "4" "3"]) None in
  (JudgeResult.final_verdict result, JudgeResult.total_score result,
   JudgeResult.max_score result, JudgeResult.score_percentage result)
  = (WA, Fin 0, Fin 1, Fin 0).
Proof. reflexivity. Qed.

Example scenario_timeout :
  let result :=
    Judge.judge_submission crashing_program default_judge
      (sample_document [sample_record "a" "passed" "3" "3";
                        sample_record "b" "timeout" "" "4"]) None in
  (JudgeResult.final_verdict result, JudgeResult.total_score result,
   JudgeResult.max_score result, JudgeResult.score_percentage result)
  = (TLE, Fin 1, Fin 2, Fin 50).
Proof. reflexivity. Qed.

Example scenario_weights :
  let weights : gmap string pyfloat :=
    <["a" := Fin 2]> (<["b" := Fin 1]> (<["c" := Fin 1]> ∅)) in
  let result :=
    Judge.judge_submission crashing_program
      (Judge.mk (with_mode "exact" weights None) None)
      (sample_document [sample_record "a" "passed" "3" "3";
                        sample_record "b" "passed" "5" "4";
                        sample_record "c" "passed" "7" "7"]) None in
  (JudgeResult.final_verdict result, JudgeResult.total_score result,
   JudgeResult.max_score result, JudgeResult.score_percentage result)
  = (WA, Fin 3, Fin 4, Fin 75).
Proof. vm_compute. reflexivity. Qed.

Example scenario_compile_error :
  let document :=
    {| HarnessOutput.compile_result :=
         Some (Some (<["success" := JBool false]> ∅));
       HarnessOutput.compileResult := None;
       HarnessOutput.test_results :=
         Some [sample_record "a" "passed" "3" "3"];
       HarnessOutput.testResults := None;
       HarnessOutput.stdout := None;
       HarnessOutput.output := None;
       HarnessOutput.status := None;
       HarnessOutput.execution_time_ms := None;
       HarnessOutput.executionTimeMs := None;
       HarnessOutput.memory_used_kb := None;
       HarnessOutput.memoryUsedKb := None;
       HarnessOutput.input := None;
       HarnessOutput.error := None;
       HarnessOutput.timedOut := None |} in
  let result := Judge.judge_submission crashing_program default_judge document None in
  (JudgeResult.final_verdict result, JudgeResult.test_verdicts result,
   JudgeResult.compilation_message result)
  = (CE, [], Some (JStr "Compilation failed")).
Proof. vm_compute. reflexivity. Qed.

Example scenario_float_tolerance :
  Comparator.float_match "1.0 2.0" "1.0000001 1.9999999"
    (with_mode "float" ∅ None)
  = (true, MsgText "All values within tolerance").
Proof. vm_compute. reflexivity. Qed.

(** ** C1: the precedence of the final verdict *)

Lemma forallb_verdict_is code (verdicts : list TestCaseVerdict.t) :
  forallb (Judge.verdict_is code) verdicts = true
  <-> all_cases code (map TestCaseVerdict.verdict verdicts).
Proof.
  unfold all_cases, Judge.verdict_is.
  induction verdicts as [|v vs IH]; simpl.
  - split; [constructor | reflexivity].
  - rewrite andb_true_iff, IH, bool_decide_eq_true, Forall_cons. tauto.
Qed.

Lemma existsb_verdict_is code (verdicts : list TestCaseVerdict.t) :
  existsb (Judge.verdict_is code) verdicts = true
  <-> any_case code (map TestCaseVerdict.verdict verdicts).
Proof.
  unfold any_case, Judge.verdict_is.
  induction verdicts as [|v vs IH]; simpl.
  - split; [discriminate | intros H; inversion H].
  - rewrite orb_true_iff, IH, bool_decide_eq_true, Exists_cons. tauto.
Qed.

Lemma precedence_rule_functional vs final1 final2 :
  precedence_rule vs final1 -> precedence_rule vs final2 -> final1 = final2.
Proof. unfold precedence_rule. intros H1 H2. intuition congruence. Qed.

(** C1.  Whenever [judge_submission] reports at least one per-case
    verdict, its final verdict is the one the precedence rule gives for
    the sequence of per-case verdicts (all AC, else any TLE, else any MLE,
    else any RE, else WA), and the rule gives no other verdict: the final
    verdict is a function of that sequence alone. *)
Theorem final_verdict_follows_precedence
    (launch : SpecialJudge.launcher) (self : Judge.t)
    (harness_output : HarnessOutput.t)
    (expected_outputs : option (gmap string string)) :
  let result := Judge.judge_submission launch self harness_output expected_outputs in
  let vs := map TestCaseVerdict.verdict (JudgeResult.test_verdicts result) in
  vs <> [] ->
  precedence_rule vs (JudgeResult.final_verdict result)
  /\ (forall final, precedence_rule vs final -> final = JudgeResult.final_verdict result).
Proof.
  intros result vs Hne.
  assert (Hrule : precedence_rule vs (JudgeResult.final_verdict result)).
  { subst vs result. revert Hne. unfold Judge.judge_submission.
    destruct (Judge.compile_failed _); [intros Hne; by destruct Hne |].
    cbv zeta. simpl JudgeResult.test_verdicts. simpl JudgeResult.final_verdict.
    set (verdicts := Judge.judge_cases _ _ _ _ _). intros _.
    unfold precedence_rule.
    pose proof (forallb_verdict_is AC verdicts) as HAC.
    pose proof (existsb_verdict_is TLE verdicts) as HTLE.
    pose proof (existsb_verdict_is MLE verdicts) as HMLE.
    pose proof (existsb_verdict_is RE verdicts) as HRE.
    destruct (forallb _ verdicts); [left; split; [by apply HAC | done] |].
    assert (~ all_cases AC (map TestCaseVerdict.verdict verdicts))
      by (intros H; apply HAC in H; discriminate).
    destruct (existsb (Judge.verdict_is TLE) verdicts);
      [right; left; repeat split; [done | by apply HTLE] |].
    assert (~ any_case TLE (map TestCaseVerdict.verdict verdicts))
      by (intros H'; apply HTLE in H'; discriminate).
    destruct (existsb (Judge.verdict_is MLE) verdicts);
      [right; right; left; repeat split; [done | done | by apply HMLE] |].
    assert (~ any_case MLE (map TestCaseVerdict.verdict verdicts))
      by (intros H'; apply HMLE in H'; discriminate).
    destruct (existsb (Judge.verdict_is RE) verdicts);
      [right; right; right; left; repeat split; [done | done | done | by apply HRE] |].
    assert (~ any_case RE (map TestCaseVerdict.verdict verdicts))
      by (intros H'; apply HRE in H'; discriminate).
    right; right; right; right. repeat split; done. }
  split; [exact Hrule |].
  intros final Hfinal. eapply precedence_rule_functional; eassumption.
Qed.

Lemma final_verdict_follows_precedence_witness :
  let result :=
    Judge.judge_submission crashing_program default_judge
      (sample_document [sample_record "a" "passed" "3" "3";
                        sample_record "b" "timeout" "" "4"]) None in
  map TestCaseVerdict.verdict (JudgeResult.test_verdicts result) = [AC; TLE]
  /\ precedence_rule [AC; TLE] (JudgeResult.final_verdict result)
  /\ JudgeResult.final_verdict result = TLE.
Proof.
  split; [reflexivity |]. split; [| reflexivity].
  apply (final_verdict_follows_precedence crashing_program default_judge
           (sample_document [sample_record "a" "passed" "3" "3";
                             sample_record "b" "timeout" "" "4"]) None).
  vm_compute. discriminate.
Defined.

(** ** C2: timeouts *)

(** C2.  The timed-out status of a harness record is the status text
    [timeout], the one the harness writes for a timed-out child (see
    [harness_timeout_status] below); the judge also takes a true
    [timedOut] flag for it.  For such a record the verdict is TLE with
    score 0; the result is built from the identifier, the weight, the two
    measurements and the input alone, so neither the outputs, nor the
    comparison mode, nor the special judge take part: the classification
    comes before any output comparison. *)
Theorem timeout_record_is_TLE
    (launch : SpecialJudge.launcher) (self : Judge.t)
    (tr : TestRecord.t) (expected : option string) :
  get (TestRecord.status tr) "" = "timeout"
  \/ get (TestRecord.timedOut tr) false = true ->
  Judge.judge_test_case launch self tr expected
  = {| TestCaseVerdict.test_id := case_test_id tr;
       TestCaseVerdict.verdict := TLE;
       TestCaseVerdict.score := Fin 0;
       TestCaseVerdict.max_score := case_weight self tr;
       TestCaseVerdict.execution_time_ms := case_exec_time tr;
       TestCaseVerdict.memory_used_kb := case_memory tr;
       TestCaseVerdict.message := Some (MsgTimeLimit (case_exec_time tr));
       TestCaseVerdict.expected_output := None;
       TestCaseVerdict.actual_output := None;
       TestCaseVerdict.input_preview := Judge.preview 100 (case_input tr) |}.
Proof.
  intros H. unfold Judge.judge_test_case.
  assert (Hguard : String.eqb (get (TestRecord.status tr) "") "timeout"
                   || get (TestRecord.timedOut tr) false = true).
  { destruct H as [-> | ->]; [reflexivity | apply orb_true_r]. }
  rewrite Hguard. reflexivity.
Qed.

Lemma timeout_record_is_TLE_witness :
  TestCaseVerdict.verdict
    (Judge.judge_test_case crashing_program default_judge
       (sample_record "b" "timeout" "4" "4") None) = TLE
  /\ TestCaseVerdict.score
       (Judge.judge_test_case crashing_program default_judge
          (sample_record "b" "timeout" "4" "4") None) = Fin 0.
Proof.
  rewrite (timeout_record_is_TLE crashing_program default_judge
             (sample_record "b" "timeout" "4" "4") None (or_introl eq_refl)).
  split; reflexivity.
Defined.

(** The harness writes the status [timeout] exactly for the exit codes 124
    and 137. *)
Lemma harness_timeout_status
    (proc : JsonHelper.process) (elapsed_ms max_rss_kb : Z)
    (test_case : JsonHelper.TestCase.t) (timeout_sec memory_limit_kb : Z) :
  JsonHelper.TestResult.status
    (JsonHelper.run_single_test proc elapsed_ms max_rss_kb test_case
       timeout_sec memory_limit_kb) = "timeout"
  <-> JsonHelper.exit_code_of proc = Some 124
      \/ JsonHelper.exit_code_of proc = Some 137.
Proof.
  unfold JsonHelper.run_single_test.
  destruct proc as [rc out err|out err|e]; cbn -[PyStr.take PyStr.strip].
  - destruct (Z.eqb_spec rc 124) as [->|H124]; [cbn; split; auto |].
    destruct (Z.eqb_spec rc 137) as [->|H137]; [cbn; split; auto |].
    destruct (Z.eqb_spec rc 139) as [->|H139];
      [cbn; split; [discriminate | intros [[=] | [=]]] |].
    destruct (Z.eqb_spec rc 0) as [->|H0]; cbn -[PyStr.take PyStr.strip];
      destruct (String.eqb _ _); cbn;
      (split; [discriminate | intros [[=] | [=]]; congruence]).
  - split; auto.
  - split; [discriminate | intros [[=] | [=]]].
Qed.

(** ** Order facts on [pyfloat] *)

Lemma leb_fin a b : PyFloat.leb (Fin a) (Fin b) = true <-> (a <= b)%Q.
Proof. simpl. apply Qle_bool_iff. Qed.

Lemma leb_zero_finite x :
  PyFloat.isfinite x = true -> PyFloat.leb (Fin 0) x = true ->
  exists q, x = Fin q /\ (0 <= q)%Q.
Proof.
  destruct x as [q| | |]; try discriminate. intros _ H%leb_fin. eauto.
Qed.

Lemma leb_unit_interval s :
  PyFloat.leb (Fin 0) s = true -> PyFloat.leb s (Fin 1) = true ->
  exists q, s = Fin q /\ (0 <= q <= 1)%Q.
Proof.
  destruct s as [q| | |]; try discriminate.
  intros H0%leb_fin H1%leb_fin. eauto.
Qed.

Lemma mul_zero_finite w :
  PyFloat.isfinite w = true -> PyFloat.eqb (PyFloat.mul (Fin 0) w) (Fin 0) = true.
Proof.
  destruct w as [q| | |]; try discriminate. intros _. simpl.
  apply Qeq_bool_iff. ring.
Qed.

Lemma mul_unit_interval s w :
  PyFloat.isfinite w = true -> PyFloat.leb (Fin 0) w = true ->
  PyFloat.leb (Fin 0) s = true -> PyFloat.leb s (Fin 1) = true ->
  PyFloat.leb (Fin 0) (PyFloat.mul s w) = true
  /\ PyFloat.leb (PyFloat.mul s w) w = true.
Proof.
  intros Hfin Hw Hs0 Hs1.
  destruct (leb_zero_finite w Hfin Hw) as (b & -> & Hb).
  destruct (leb_unit_interval s Hs0 Hs1) as (a & -> & Ha0 & Ha1).
  simpl PyFloat.mul. rewrite !leb_fin. split; nra.
Qed.

(** ** C3: the score of a case and its maximum *)

Lemma judge_test_case_max_score launch self tr expected :
  TestCaseVerdict.max_score (Judge.judge_test_case launch self tr expected)
  = case_weight self tr.
Proof.
  unfold Judge.judge_test_case.
  repeat match goal with
         | |- context [if ?b then _ else _] => destruct b
         | |- context [match ?x with _ => _ end] => destruct x
         end; reflexivity.
Qed.

(** The score of a case settled by its status or by a built-in comparator
    is 0 or the weight. *)
Lemma judge_test_case_score_builtin launch self tr expected :
  classified_by_status tr = true \/ Judge.selected_special_judge self = None ->
  TestCaseVerdict.score (Judge.judge_test_case launch self tr expected) = Fin 0
  \/ TestCaseVerdict.score (Judge.judge_test_case launch self tr expected)
     = case_weight self tr.
Proof.
  unfold classified_by_status, timed_out, Judge.judge_test_case.
  intros H.
  destruct (String.eqb (get (TestRecord.status tr) "") "timeout"
            || get (TestRecord.timedOut tr) false); [by left |].
  destruct (String.eqb (get (TestRecord.status tr) "") "memory_limit"); [by left |].
  destruct (String.eqb (get (TestRecord.status tr) "") "runtime_error"); [by left |].
  destruct H as [H | H]; [discriminate |]. rewrite H.
  match goal with
  | |- context [if String.eqb ?m "token" then ?a else ?b] =>
      destruct (if String.eqb m "token" then a else b) as [passed message]
  end.
  destruct passed; simpl; auto.
Qed.

(** The score of a case judged by the special judge is the reported score
    times the weight. *)
Lemma judge_test_case_score_special launch self sj tr expected :
  classified_by_status tr = false ->
  Judge.selected_special_judge self = Some sj ->
  TestCaseVerdict.score (Judge.judge_test_case launch self tr expected)
  = PyFloat.mul (reported_score launch sj tr expected) (case_weight self tr).
Proof.
  unfold classified_by_status, timed_out, reported_score, Judge.judge_test_case.
  intros Hstatus Hsel.
  apply orb_false_iff in Hstatus as [Hstatus Hre].
  apply orb_false_iff in Hstatus as [Hto Hml].
  rewrite Hto, Hml, Hre, Hsel.
  fold (case_test_id tr) (case_input tr) (case_actual tr) (case_expected tr expected).
  destruct (SpecialJudge.run _ _ _ _ _ _) as [[passed score] message].
  reflexivity.
Qed.

(** C3, as the code has it.  For a case whose weight is finite and not
    negative, [max_score] is the weight, and [0 <= score <= max_score]
    holds when the case is settled by its status or by a built-in
    comparator.  The score reported by a special judge is multiplied by
    the weight without being clamped, so in special mode the bound holds
    when the reported score lies between 0 and 1. *)
Theorem score_within_max_score
    (launch : SpecialJudge.launcher) (self : Judge.t)
    (tr : TestRecord.t) (expected : option string) :
  PyFloat.isfinite (case_weight self tr) = true ->
  PyFloat.leb (Fin 0) (case_weight self tr) = true ->
  (forall sj,
      classified_by_status tr = false ->
      Judge.selected_special_judge self = Some sj ->
      PyFloat.leb (Fin 0) (reported_score launch sj tr expected) = true
      /\ PyFloat.leb (reported_score launch sj tr expected) (Fin 1) = true) ->
  let v := Judge.judge_test_case launch self tr expected in
  TestCaseVerdict.max_score v = case_weight self tr
  /\ PyFloat.leb (Fin 0) (TestCaseVerdict.score v) = true
  /\ PyFloat.leb (TestCaseVerdict.score v) (TestCaseVerdict.max_score v) = true.
Proof.
  intros Hfin Hpos Hreported v. subst v.
  rewrite judge_test_case_max_score. split; [reflexivity |].
  destruct (leb_zero_finite _ Hfin Hpos) as (w & Hw & Hw0).
  destruct (classified_by_status tr) eqn:Hstatus;
    [| destruct (Judge.selected_special_judge self) as [sj|] eqn:Hsel].
  - destruct (judge_test_case_score_builtin launch self tr expected) as [-> | ->];
      [by left | | ]; rewrite ?Hw, !leb_fin; split; lra.
  - rewrite (judge_test_case_score_special launch self sj) by done.
    destruct (Hreported sj eq_refl eq_refl) as [H0 H1].
    by apply mul_unit_interval.
  - destruct (judge_test_case_score_builtin launch self tr expected) as [-> | ->];
      [by right | | ]; rewrite ?Hw, !leb_fin; split; lra.
Qed.

Lemma score_within_max_score_witness :
  let v := Judge.judge_test_case half_score_program special_judge_judge
             (sample_record "a" "passed" "3" "3") None in
  TestCaseVerdict.score v = Fin ((1 # 2) * 1)
  /\ PyFloat.leb (TestCaseVerdict.score v) (TestCaseVerdict.max_score v) = true.
Proof.
  split; [reflexivity |].
  apply (score_within_max_score half_score_program special_judge_judge
           (sample_record "a" "passed" "3" "3") None).
  - reflexivity.
  - reflexivity.
  - intros sj _ _. split; reflexivity.
Defined.

(** A special judge that reports the score 2 gives the case twice its
    maximum. *)
Lemma special_judge_score_exceeds_max_score :
  let v := Judge.judge_test_case double_score_program special_judge_judge
             (sample_record "a" "passed" "3" "3") None in
  TestCaseVerdict.verdict v = AC
  /\ PyFloat.eqb (TestCaseVerdict.score v) (Fin 2) = true
  /\ TestCaseVerdict.max_score v = Fin 1
  /\ PyFloat.leb (TestCaseVerdict.score v) (TestCaseVerdict.max_score v) = false.
Proof. vm_compute. repeat split. Qed.

(** ** C4: the aggregate scores *)

(** C4, as the code has it.  The result carries the two sums rounded to
    two decimal places, and the percentage computed from the sums before
    rounding: [total_score = round(sum of scores, 2)], [max_score =
    round(sum of max_scores, 2)], [score_percentage = round(sum of scores
    / sum of max_scores * 100, 2)] when the sum of max_scores is positive
    and 0 otherwise. *)
Theorem aggregate_scores
    (launch : SpecialJudge.launcher) (self : Judge.t)
    (harness_output : HarnessOutput.t)
    (expected_outputs : option (gmap string string)) :
  let result := Judge.judge_submission launch self harness_output expected_outputs in
  let scores := PyFloat.sum (map TestCaseVerdict.score (JudgeResult.test_verdicts result)) in
  let maxima :=
    PyFloat.sum (map TestCaseVerdict.max_score (JudgeResult.test_verdicts result)) in
  JudgeResult.total_score result = PyFloat.round2 scores
  /\ JudgeResult.max_score result = PyFloat.round2 maxima
  /\ JudgeResult.score_percentage result
     = (if PyFloat.gtb maxima (Fin 0)
        then PyFloat.round2 (PyFloat.mul (PyFloat.div scores maxima) (Fin 100))
        else Fin 0).
Proof.
  intros result scores maxima. subst scores maxima result.
  unfold Judge.judge_submission.
  destruct (Judge.compile_failed _).
  - split; [reflexivity | split; reflexivity].
  - cbv zeta.
    cbn [JudgeResult.test_verdicts JudgeResult.total_score JudgeResult.max_score
         JudgeResult.score_percentage].
    split; [reflexivity | split; [reflexivity |]].
    destruct (PyFloat.gtb _ _); reflexivity.
Qed.

(** One accepted case of weight 0.333: the result carries 0.33 as its
    total, the only per-case score is 0.333. *)
Lemma total_score_is_rounded :
  let self := Judge.mk (with_mode "exact" (<["a" := Fin (333 # 1000)]> ∅) None) None in
  let result :=
    Judge.judge_submission crashing_program self
      (sample_document [sample_record "a" "passed" "3" "3"]) None in
  map TestCaseVerdict.score (JudgeResult.test_verdicts result) = [Fin (333 # 1000)]
  /\ JudgeResult.total_score result = Fin (33 # 100)
  /\ PyFloat.eqb (JudgeResult.total_score result)
       (PyFloat.sum (map TestCaseVerdict.score (JudgeResult.test_verdicts result)))
     = false.
Proof. vm_compute. repeat split. Qed.

(** ** C5: exact comparison and normalisation *)

Lemma split_on_nonempty sep s : PyStr.split_on sep s <> [].
Proof.
  destruct s as [|c s]; simpl; [discriminate |].
  destruct (Ascii.eqb c sep); [discriminate |].
  destruct (PyStr.split_on sep s); discriminate.
Qed.

(** What [rstrip] keeps of the first line of a text does not start with
    a newline. *)
Lemma first_line_head s line lines :
  PyStr.split_on PyStr.nl s = line :: lines ->
  match PyStr.rstrip line with
  | EmptyString => True
  | String d _ => Ascii.eqb d PyStr.nl = false
  end.
Proof.
  destruct s as [|c s]; simpl.
  - intros [= <- <-]. exact I.
  - destruct (Ascii.eqb c PyStr.nl) eqn:Hc.
    + intros [= <- <-]. exact I.
    + destruct (PyStr.split_on PyStr.nl s) as [|l ls]; intros [= <- <-];
        unfold PyStr.rstrip; simpl.
      * by destruct (PyStr.isspace c).
      * destruct (PyStr.rstrip_by PyStr.isspace l); [by destruct (PyStr.isspace c) | done].
Qed.

Lemma rstrip_cons c line :
  PyStr.rstrip (String c line)
  = match PyStr.rstrip line with
    | EmptyString => if PyStr.isspace c then EmptyString else String c EmptyString
    | String d r => String c (String d r)
    end.
Proof. unfold PyStr.rstrip. simpl. by destruct (PyStr.rstrip_by _ line). Qed.

(** Splitting into lines, stripping each line and joining the lines again
    is stripping the trailing whitespace of each line. *)
Lemma strip_lines_refines text :
  PyStr.join (String PyStr.nl "") (map PyStr.rstrip (PyStr.split_on PyStr.nl text))
  = strip_each_line text.
Proof.
  induction text as [|c text IH]; [reflexivity |].
  cbn [PyStr.split_on strip_each_line].
  pose proof (first_line_head text) as Hhead.
  destruct (PyStr.split_on PyStr.nl text) as [|l ls] eqn:Hsplit;
    [by destruct (split_on_nonempty PyStr.nl text) |].
  specialize (Hhead l ls eq_refl).
  destruct (Ascii.eqb c PyStr.nl) eqn:Hc.
  - cbn [map PyStr.join] in *. rewrite <- IH.
    apply Ascii.eqb_eq in Hc. subst c. reflexivity.
  - cbn [map] in *. rewrite rstrip_cons. rewrite <- IH.
    destruct ls as [|y ys]; cbn [map PyStr.join] in *.
    + destruct (PyStr.rstrip l) as [|d r]; cbn [at_line_end].
      * by destruct (PyStr.isspace c).
      * rewrite Hhead, andb_false_r. reflexivity.
    + destruct (PyStr.rstrip l) as [|d r].
      * destruct (PyStr.isspace c); reflexivity.
      * simpl. rewrite Hhead, andb_false_r. reflexivity.
Qed.

Lemma normalize_refines config text :
  Comparator.normalize (Some text) config = normalise config text.
Proof.
  unfold Comparator.normalize, normalise.
  rewrite strip_lines_refines.
  by destruct (ProblemConfig.case_sensitive config).
Qed.

(** The code's [normalize] maps a missing text to the empty text. *)
Lemma normalize_None config : Comparator.normalize None config = "".
Proof. reflexivity. Qed.

(** C5.  For all texts and every configuration, the exact comparator
    reports a match if and only if the two texts are equal after
    normalisation (trailing whitespace of each line, trailing newlines
    and letter case, each according to its flag). *)
Theorem exact_match_iff_normalised_equal
    (expected actual : string) (config : ProblemConfig.t) :
  fst (Comparator.exact_match expected actual config) = true
  <-> normalise config expected = normalise config actual.
Proof.
  unfold Comparator.exact_match. rewrite !normalize_refines.
  destruct (String.eqb_spec (normalise config expected) (normalise config actual))
    as [Heq | Hne].
  - simpl. tauto.
  - destruct (negb _); [simpl; split; [discriminate | contradiction] |].
    destruct (Comparator.first_diff _ _ _ _); simpl;
      (split; [discriminate | contradiction]).
Qed.

Lemma exact_match_iff_normalised_equal_witness :
  fst (Comparator.exact_match ("3" ++ String PyStr.nl "") "3  " ProblemConfig.default)
  = true.
Proof.
  apply (exact_match_iff_normalised_equal ("3" ++ String PyStr.nl "") "3  "
           ProblemConfig.default).
  reflexivity.
Defined.

(** Leading blanks are not trailing whitespace: they are kept. *)
Example exact_match_trailing_blanks :
  Comparator.exact_match "3" ("  3  " ++ String PyStr.nl (String PyStr.nl ""))
    ProblemConfig.default
  = (false, MsgDiffLine 1).
Proof. reflexivity. Qed.

(** ** C6: NaN in float mode *)

(** No value is out of tolerance against NaN, on either side: both
    comparisons of the loop are false. *)
Lemma out_of_tolerance_nan_actual tolerance exp_val :
  Comparator.out_of_tolerance tolerance exp_val NaN = false.
Proof.
  unfold Comparator.out_of_tolerance.
  by destruct exp_val, tolerance.
Qed.


(** Against values that are all NaN, the comparison loop finds no
    mismatch, whatever the expected values are. *)
Lemma first_diff_all_nan tolerance (exp_values act_values : list pyfloat) i :
  Forall (fun a => a = NaN) act_values ->
  Comparator.first_diff (Comparator.out_of_tolerance tolerance) i exp_values act_values
  = None.
Proof.
  intros Hnan. revert i exp_values.
  induction Hnan as [|a act_values -> _ IH]; intros i [|e exp_values]; simpl;
    try reflexivity.
  rewrite out_of_tolerance_nan_actual. apply IH.
Qed.

(** C6.  The built-in float comparator on expected [1.0] and actual
    [NaN]: the comparator reports a match and the case is AC with the
    full score, while [is_close] of the stand-alone float judge rejects
    the same pair. *)
Theorem float_mode_accepts_nan :
  let v := Judge.judge_test_case crashing_program float_judge
             (sample_record "a" "success" "NaN" "1.0") None in
  Comparator.float_match "1.0" "NaN" (Judge.config float_judge)
  = (true, MsgText "All values within tolerance")
  /\ TestCaseVerdict.verdict v = AC
  /\ TestCaseVerdict.score v = Fin 1
  /\ FloatTolerance.is_close (Fin 1) NaN = false.
Proof. vm_compute. repeat split. Qed.

(** ** C7: a failing special judge *)

Lemma run_failed launch sj input_data expected actual test_id :
  special_judge_failed
    (launch (SpecialJudge.judge_path sj) input_data expected actual test_id) ->
  SpecialJudge.run launch sj input_data expected actual test_id
  = (false, Fin 0,
     failure_message
       (launch (SpecialJudge.judge_path sj) input_data expected actual test_id)).
Proof.
  unfold SpecialJudge.run.
  destruct (launch _ _ _ _ _) as [rc out js err| |e]; simpl; intros H.
  - destruct (Z.eqb_spec rc 0); [contradiction | reflexivity].
  - reflexivity.
  - contradiction.
Qed.

Lemma final_verdict_codes launch self harness_output expected_outputs :
  JudgeResult.final_verdict
    (Judge.judge_submission launch self harness_output expected_outputs)
  ∈ [AC; TLE; MLE; RE; WA; CE].
Proof.
  unfold Judge.judge_submission.
  repeat match goal with
         | |- context [if ?b then _ else _] => destruct b
         end; simpl; set_solver.
Qed.

(** C7, as the code has it.  In special mode, when the special judge
    exits with a non-zero code or times out on a case, that case gets the
    verdict WA (the judge has no RE for this), the score [0 * weight]
    (which is 0 for a finite weight) and the message that reports the
    failure.  The loop goes on: every record of the list is judged by
    [judge_test_case], and the final verdict of a submission is never IE. *)
Theorem special_judge_failure_is_local
    (launch : SpecialJudge.launcher) (self : Judge.t) (sj : SpecialJudge.t)
    (tr : TestRecord.t) (expected : option string) :
  Judge.selected_special_judge self = Some sj ->
  classified_by_status tr = false ->
  special_judge_failed
    (launch (SpecialJudge.judge_path sj) (case_input tr) (case_expected tr expected)
       (case_actual tr) (case_test_id tr)) ->
  let v := Judge.judge_test_case launch self tr expected in
  (TestCaseVerdict.verdict v = WA
   /\ TestCaseVerdict.score v = PyFloat.mul (Fin 0) (case_weight self tr)
   /\ (PyFloat.isfinite (case_weight self tr) = true ->
       PyFloat.eqb (TestCaseVerdict.score v) (Fin 0) = true)
   /\ TestCaseVerdict.message v
      = Some (failure_message
                (launch (SpecialJudge.judge_path sj) (case_input tr)
                   (case_expected tr expected) (case_actual tr) (case_test_id tr))))
  /\ (forall expected_outputs test_results,
         Forall2 (judged_as launch self) test_results
           (Judge.judge_cases launch self expected_outputs [] test_results))
  /\ (forall harness_output expected_outputs,
         JudgeResult.final_verdict
           (Judge.judge_submission launch self harness_output expected_outputs) <> IE).
Proof.
  intros Hsel Hstatus Hfailed v. split; [| split].
  - assert (Hv : TestCaseVerdict.verdict v = WA
                 /\ TestCaseVerdict.score v = PyFloat.mul (Fin 0) (case_weight self tr)
                 /\ TestCaseVerdict.message v
                    = Some (failure_message
                              (launch (SpecialJudge.judge_path sj) (case_input tr)
                                 (case_expected tr expected) (case_actual tr)
                                 (case_test_id tr)))).
    { subst v. revert Hstatus.
      unfold classified_by_status, timed_out, Judge.judge_test_case.
      intros Hstatus.
      apply orb_false_iff in Hstatus as [Hstatus Hre].
      apply orb_false_iff in Hstatus as [Hto Hml].
      rewrite Hto, Hml, Hre, Hsel.
      fold (case_test_id tr) (case_input tr) (case_actual tr)
        (case_expected tr expected) (case_weight self tr).
      rewrite (run_failed _ _ _ _ _ _ Hfailed). repeat split. }
    destruct Hv as (Hverdict & Hscore & Hmessage).
    repeat split; [done | done | | done].
    intros Hfin. rewrite Hscore. by apply mul_zero_finite.
  - intros expected_outputs test_results.
    destruct (judge_cases_spec launch self expected_outputs test_results [])
      as (judged & -> & Hall).
    exact Hall.
  - intros harness_output expected_outputs Hie.
    pose proof (final_verdict_codes launch self harness_output expected_outputs) as H.
    rewrite Hie in H. apply list_elem_of_In in H. simpl in H.
    intuition discriminate.
Qed.

Lemma special_judge_failure_is_local_witness :
  let v := Judge.judge_test_case crashing_program special_judge_judge
             (sample_record "a" "passed" "3" "3") None in
  TestCaseVerdict.verdict v = WA
  /\ TestCaseVerdict.message v = Some (MsgSpecialJudgeStderr "boom").
Proof.
  pose proof (special_judge_failure_is_local crashing_program special_judge_judge
                (SpecialJudge.mk "/judges/checker")
                (sample_record "a" "passed" "3" "3") None eq_refl eq_refl) as H.
  assert (Hfailed : (1 : Z) <> 0) by discriminate.
  destruct (H Hfailed) as ((Hverdict & _ & _ & Hmessage) & _).
  split; [exact Hverdict | exact Hmessage].
Defined.

(** When the special judge crashes the case is reported as WA, not RE. *)
Lemma special_judge_crash_is_not_RE :
  let v := Judge.judge_test_case crashing_program special_judge_judge
             (sample_record "a" "passed" "3" "3") None in
  TestCaseVerdict.verdict v = WA /\ TestCaseVerdict.verdict v <> RE.
Proof. vm_compute. split; [reflexivity | discriminate]. Qed.

(** ** C8: passed records and exit codes *)

(** C8, as the code has it.  In [run_tests.py], a result is marked as
    passed only when the exit code is 0.  In [json_helper.py], a record
    has the status [passed] exactly when the child ended with a return
    code other than 124, 137 and 139 and its stripped output is the
    stripped expected output: a run that exits with another non-zero code
    and prints the expected output is recorded as passed. *)
Theorem passed_records_and_exit_codes :
  (forall (proc : RunTests.process) (elapsed_ms : Z) (vm_hwm_kb : option Z)
          (expected_output test_id : string) (timeout_sec memory_kb : Z),
      let r := RunTests.run_single_test proc elapsed_ms vm_hwm_kb expected_output
                 test_id timeout_sec memory_kb in
      RunTests.Result.passed r = true -> RunTests.Result.exitCode r = 0)
  /\ (forall (proc : JsonHelper.process) (elapsed_ms max_rss_kb : Z)
             (test_case : JsonHelper.TestCase.t) (timeout_sec memory_limit_kb : Z),
         let r := JsonHelper.run_single_test proc elapsed_ms max_rss_kb test_case
                    timeout_sec memory_limit_kb in
         JsonHelper.TestResult.status r = "passed"
         <-> exists returncode stdout stderr,
               proc = JsonHelper.Exited returncode stdout stderr
               /\ returncode <> 124 /\ returncode <> 137 /\ returncode <> 139
               /\ PyStr.strip (PyStr.strip stdout)
                  = PyStr.strip (JsonHelper.TestCase.expected_output test_case)).
Proof.
  split.
  - intros proc elapsed_ms vm_hwm_kb expected_output test_id timeout_sec memory_kb.
    unfold RunTests.run_single_test.
    destruct proc as [rc out err|out err| |e]; cbn -[PyStr.take PyStr.strip Z.gtb];
      destruct (_ >? _)%Z; cbn -[PyStr.take PyStr.strip]; try discriminate.
    destruct (Z.eqb_spec rc 0); [done | discriminate].
  - intros proc elapsed_ms max_rss_kb test_case timeout_sec memory_limit_kb.
    unfold JsonHelper.run_single_test.
    destruct proc as [rc out err|out err|e]; cbn -[PyStr.take PyStr.strip].
    + destruct (Z.eqb_spec rc 124) as [->|H124];
        [cbn; split; [discriminate | intros (? & ? & ? & [= <-] & ? & _); done] |].
      destruct (Z.eqb_spec rc 137) as [->|H137];
        [cbn; split; [discriminate | intros (? & ? & ? & [= <-] & _ & ? & _); done] |].
      destruct (Z.eqb_spec rc 139) as [->|H139];
        [cbn; split; [discriminate | intros (? & ? & ? & [= <-] & _ & _ & ? & _); done] |].
      destruct (Z.eqb_spec rc 0) as [->|H0]; cbn -[PyStr.take PyStr.strip];
        destruct (String.eqb_spec (PyStr.strip (PyStr.strip out))
                    (PyStr.strip (JsonHelper.TestCase.expected_output test_case)))
          as [Heq|Hne];
        cbn -[PyStr.take PyStr.strip];
        (split;
         [ try discriminate; intros _; eexists _, _, _; repeat split; try done
         | intros (? & ? & ? & [= <- <- <-] & _ & _ & _ & ?); done ]).
    + split; [discriminate | intros (? & ? & ? & [=] & _)].
    + split; [discriminate | intros (? & ? & ? & [=] & _)].
Qed.

Lemma passed_records_and_exit_codes_witness :
  RunTests.Result.exitCode
    (RunTests.run_single_test (RunTests.Exited 0 "42" "") 15 (Some 900) "42" "a" 5 262144)
  = 0
  /\ JsonHelper.TestResult.status
       (JsonHelper.run_single_test (JsonHelper.Exited 0 "42" "") 15 900 answer_case
          5 262144) = "passed".
Proof.
  split.
  - apply (proj1 passed_records_and_exit_codes
             (RunTests.Exited 0 "42" "") 15 (Some 900) "42" "a" 5 262144).
    reflexivity.
  - apply (proj2 passed_records_and_exit_codes
             (JsonHelper.Exited 0 "42" "") 15 900 answer_case 5 262144).
    exists 0, "42", "". repeat split; discriminate.
Defined.

(** A child that prints the expected output and exits with code 1 is
    recorded by [json_helper.py] as passed, with the runtime-error text
    still attached. *)
Lemma nonzero_exit_recorded_as_passed :
  let proc := JsonHelper.Exited 1 "42" "" in
  let r := JsonHelper.run_single_test proc 15 900 answer_case 5 262144 in
  JsonHelper.exit_code_of proc = Some 1
  /\ JsonHelper.TestResult.status r = "passed"
  /\ JsonHelper.TestResult.passed r = true
  /\ JsonHelper.TestResult.error r = Some (JsonHelper.ErrRuntime 1 None).
Proof. vm_compute. repeat split. Qed.

(** ** C9: judging does not depend on the special-judge program unless it
    is selected *)

Lemma judge_test_case_without_special_judge
    (launch1 launch2 : SpecialJudge.launcher) (self : Judge.t) tr expected :
  Judge.selected_special_judge self = None ->
  Judge.judge_test_case launch1 self tr expected
  = Judge.judge_test_case launch2 self tr expected.
Proof.
  intros Hsel. unfold Judge.judge_test_case. rewrite Hsel. reflexivity.
Qed.

Lemma judge_cases_without_special_judge
    (launch1 launch2 : SpecialJudge.launcher) (self : Judge.t)
    expected_outputs (test_results : list TestRecord.t) :
  Judge.selected_special_judge self = None ->
  forall verdicts,
    Judge.judge_cases launch1 self expected_outputs verdicts test_results
    = Judge.judge_cases launch2 self expected_outputs verdicts test_results.
Proof.
  intros Hsel. induction test_results as [|tr rest IH]; intros verdicts; simpl.
  - reflexivity.
  - rewrite IH.
    by rewrite (judge_test_case_without_special_judge launch1 launch2).
Qed.

Lemma not_special_mode_selects_none (self : Judge.t) :
  ProblemConfig.comparison_mode (Judge.config self) <> "special" ->
  Judge.selected_special_judge self = None.
Proof.
  intros Hmode. unfold Judge.selected_special_judge.
  destruct (Judge.special_judge self); [| reflexivity].
  destruct (String.eqb_spec (ProblemConfig.comparison_mode (Judge.config self)) "special");
    [contradiction | reflexivity].
Qed.

Lemma no_special_judge_selects_none (self : Judge.t) :
  Judge.special_judge self = None -> Judge.selected_special_judge self = None.
Proof. intros H. unfold Judge.selected_special_judge. by rewrite H. Qed.

(** A judge built by [__init__] from a configuration without a special
    judge path never selects a special judge, whatever the mode says. *)
Lemma init_without_path path_exists executable config self :
  Judge.str_truthy (ProblemConfig.special_judge_path config) = false ->
  Judge.init path_exists executable (Some config) = inr self ->
  Judge.selected_special_judge self = None.
Proof.
  unfold Judge.init, Judge.str_truthy. simpl.
  destruct (ProblemConfig.special_judge_path config) as [path|].
  - intros ->. intros [= <-]. reflexivity.
  - intros _ [= <-]. reflexivity.
Qed.

(** C9.  When the comparison mode does not run the external special judge
    (no special judge is configured, or the mode is not [special]), the
    JudgeResult is the same whatever the environment's special-judge
    program does: two runs on the same harness output, expected outputs
    and configuration give identical results. *)
Theorem judging_is_deterministic
    (launch1 launch2 : SpecialJudge.launcher) (self : Judge.t)
    (harness_output : HarnessOutput.t)
    (expected_outputs : option (gmap string string)) :
  Judge.selected_special_judge self = None ->
  Judge.judge_submission launch1 self harness_output expected_outputs
  = Judge.judge_submission launch2 self harness_output expected_outputs.
Proof.
  intros Hsel. unfold Judge.judge_submission.
  destruct (Judge.compile_failed _); [reflexivity |].
  cbv zeta.
  by rewrite (judge_cases_without_special_judge launch1 launch2).
Qed.

Lemma judging_is_deterministic_witness :
  let self :=
    Judge.mk (with_mode "exact" ∅ (Some "/judges/checker"))
      (Some (SpecialJudge.mk "/judges/checker")) in
  let document :=
    sample_document [sample_record "a" "passed" "3" "3";
                     sample_record "b" "passed" "5" "4"] in
  Judge.judge_submission crashing_program self document None
  = Judge.judge_submission double_score_program self document None.
Proof.
  apply (judging_is_deterministic crashing_program double_score_program
           (Judge.mk (with_mode "exact" ∅ (Some "/judges/checker"))
              (Some (SpecialJudge.mk "/judges/checker")))).
  reflexivity.
Defined.

(** ** C10: a document without test results *)

(** C10.  When the harness-output document has an empty list of test
    results, no [stdout] key and no failed compile step, the result is AC
    with all three scores 0 and no per-case verdict, and [main] exits with
    status 0. *)
Theorem empty_test_results_accepted
    (launch : SpecialJudge.launcher) (self : Judge.t)
    (harness_output : HarnessOutput.t)
    (expected_outputs : option (gmap string string)) :
  get (HarnessOutput.test_results harness_output)
    (get (HarnessOutput.testResults harness_output) []) = [] ->
  HarnessOutput.stdout harness_output = None ->
  Judge.compile_failed
    (get (HarnessOutput.compile_result harness_output)
       (get (HarnessOutput.compileResult harness_output) None)) = false ->
  let result := Judge.judge_submission launch self harness_output expected_outputs in
  JudgeResult.final_verdict result = AC
  /\ JudgeResult.total_score result = Fin 0
  /\ JudgeResult.max_score result = Fin 0
  /\ JudgeResult.score_percentage result = Fin 0
  /\ JudgeResult.total_count result = 0
  /\ JudgeResult.test_verdicts result = []
  /\ Judge.exit_code result = 0.
Proof.
  intros Hresults Hstdout Hcompile result. subst result.
  unfold Judge.exit_code, Judge.judge_submission.
  rewrite Hcompile, Hresults, Hstdout. cbn.
  repeat split; reflexivity.
Qed.

Lemma empty_test_results_accepted_witness :
  let result :=
    Judge.judge_submission crashing_program default_judge (sample_document []) None in
  JudgeResult.final_verdict result = AC /\ Judge.exit_code result = 0.
Proof.
  pose proof (empty_test_results_accepted crashing_program default_judge
                (sample_document []) None eq_refl eq_refl eq_refl) as H.
  split; [apply H | apply H].
Defined.

(** * Further facts *)

(** ** The loop of [judge_submission] as an indexed map *)

Lemma judge_cases_imap launch self expected_outputs (test_results : list TestRecord.t) :
  forall verdicts,
    Judge.judge_cases launch self expected_outputs verdicts test_results
    = (verdicts
       ++ imap (fun i tr =>
                  Judge.judge_test_case launch self tr
                    (expected_for expected_outputs (length verdicts + i) tr))
            test_results)%list.
Proof.
  induction test_results as [|tr rest IH]; intros verdicts; simpl.
  - by rewrite app_nil_r.
  - rewrite IH, <- app_assoc. simpl. f_equal.
    rewrite Nat.add_0_r. f_equal.
    apply imap_ext. intros i x _. simpl.
    rewrite length_app. simpl. do 2 f_equal. lia.
Qed.

Lemma judge_submission_not_failed launch self harness_output expected_outputs :
  Judge.compile_failed (compile_result_of harness_output) = false ->
  test_results_of harness_output <> [] ->
  JudgeResult.test_verdicts
    (Judge.judge_submission launch self harness_output expected_outputs)
  = Judge.judge_cases launch self expected_outputs [] (test_results_of harness_output).
Proof.
  unfold compile_result_of, test_results_of, Judge.judge_submission.
  intros -> Hne. cbv zeta.
  destruct (get (HarnessOutput.test_results harness_output) _); [done | reflexivity].
Qed.

Lemma judge_test_case_test_id launch self tr expected :
  TestCaseVerdict.test_id (Judge.judge_test_case launch self tr expected)
  = case_test_id tr.
Proof.
  unfold Judge.judge_test_case, case_test_id.
  repeat match goal with
         | |- context [if ?b then _ else _] => destruct b
         | |- context [match ?x with _ => _ end] => destruct x
         end; reflexivity.
Qed.

Lemma imap_judged_test_ids launch self (test_results : list TestRecord.t) :
  forall expected : nat -> TestRecord.t -> option string,
    map TestCaseVerdict.test_id
      (imap (fun i tr => Judge.judge_test_case launch self tr (expected i tr))
         test_results)
    = map case_test_id test_results.
Proof.
  induction test_results as [|tr rest IH]; intros expected; [reflexivity |].
  simpl. rewrite judge_test_case_test_id. f_equal.
  apply (IH (fun i => expected (S i))).
Qed.

(** X1.  When the compile step has not failed and the document lists test
    results, the result has one verdict per record, in the order of the
    records: the verdict at position [i] is the verdict of the record at
    position [i], judged against the entry of the expected-outputs mapping
    under the record's identifier, or under [test-(i+1)] when the record
    has none.  The verdict itself names such a record [unknown]. *)
Theorem verdicts_follow_records
    (launch : SpecialJudge.launcher) (self : Judge.t)
    (harness_output : HarnessOutput.t)
    (expected_outputs : option (gmap string string)) :
  Judge.compile_failed (compile_result_of harness_output) = false ->
  test_results_of harness_output <> [] ->
  let verdicts :=
    JudgeResult.test_verdicts
      (Judge.judge_submission launch self harness_output expected_outputs) in
  verdicts
  = imap (fun i tr =>
            Judge.judge_test_case launch self tr (expected_for expected_outputs i tr))
      (test_results_of harness_output)
  /\ length verdicts = length (test_results_of harness_output)
  /\ map TestCaseVerdict.test_id verdicts
     = map case_test_id (test_results_of harness_output).
Proof.
  intros Hcompile Hne verdicts. subst verdicts.
  rewrite judge_submission_not_failed by done.
  rewrite judge_cases_imap. simpl.
  split; [reflexivity |]. split; [by rewrite length_imap |].
  apply imap_judged_test_ids.
Qed.

Lemma verdicts_follow_records_witness :
  map TestCaseVerdict.test_id
    (JudgeResult.test_verdicts
       (Judge.judge_submission crashing_program default_judge
          (sample_document [sample_record "b" "passed" "3" "3";
                            sample_record "a" "timeout" "" "4"]) None))
  = ["b"; "a"].
Proof.
  apply (verdicts_follow_records crashing_program default_judge
           (sample_document [sample_record "b" "passed" "3" "3";
                             sample_record "a" "timeout" "" "4"]) None).
  - reflexivity.
  - discriminate.
Defined.

(** ** Counters and the final verdict *)

Lemma final_verdict_not_failed launch self harness_output expected_outputs :
  Judge.compile_failed (compile_result_of harness_output) = false ->
  let result := Judge.judge_submission launch self harness_output expected_outputs in
  JudgeResult.final_verdict result
  = (if forallb (Judge.verdict_is AC) (JudgeResult.test_verdicts result) then AC
     else if existsb (Judge.verdict_is TLE) (JudgeResult.test_verdicts result) then TLE
     else if existsb (Judge.verdict_is MLE) (JudgeResult.test_verdicts result) then MLE
     else if existsb (Judge.verdict_is RE) (JudgeResult.test_verdicts result) then RE
     else WA).
Proof.
  unfold compile_result_of, Judge.judge_submission. intros ->. reflexivity.
Qed.

(** X2.  The final verdict is AC, and [main] exits with status 0, exactly
    when the compile step has not failed and every per-case verdict is AC
    (in particular when there is no case at all); the final verdict is CE
    exactly when the compile step has failed, and then no case is judged. *)
Theorem accepted_iff_all_cases_accepted
    (launch : SpecialJudge.launcher) (self : Judge.t)
    (harness_output : HarnessOutput.t)
    (expected_outputs : option (gmap string string)) :
  let result := Judge.judge_submission launch self harness_output expected_outputs in
  let accepted :=
    Judge.compile_failed (compile_result_of harness_output) = false
    /\ Forall (fun v => TestCaseVerdict.verdict v = AC) (JudgeResult.test_verdicts result) in
  (JudgeResult.final_verdict result = AC <-> accepted)
  /\ (Judge.exit_code result = 0 <-> accepted)
  /\ (JudgeResult.final_verdict result = CE
      <-> Judge.compile_failed (compile_result_of harness_output) = true)
  /\ (JudgeResult.final_verdict result = CE -> JudgeResult.test_verdicts result = []).
Proof.
  intros result accepted.
  assert (Hexit : Judge.exit_code result = 0 <-> JudgeResult.final_verdict result = AC).
  { unfold Judge.exit_code. case_bool_decide; split; try done; lia. }
  assert (HAC : JudgeResult.final_verdict result = AC <-> accepted).
  { subst accepted.
    destruct (Judge.compile_failed (compile_result_of harness_output)) eqn:Hc.
    - subst result. unfold Judge.judge_submission. fold (compile_result_of harness_output).
      rewrite Hc. simpl. split; [discriminate | intros [[=] _]].
    - subst result. rewrite final_verdict_not_failed by done. cbv zeta.
      set (verdicts := JudgeResult.test_verdicts _).
      pose proof (forallb_verdict_is AC verdicts) as HforAC.
      unfold all_cases in HforAC. rewrite Forall_map in HforAC.
      destruct (forallb _ verdicts).
      + split; [intros _; split; [done | by apply HforAC] | done].
      + split.
        * intros H. exfalso.
          repeat match type of H with
                 | (if ?b then _ else _) = _ => destruct b
                 end; discriminate.
        * intros [_ H%HforAC]. discriminate. }
  split; [exact HAC |]. split; [by rewrite Hexit |].
  assert (HCE : JudgeResult.final_verdict result = CE
                <-> Judge.compile_failed (compile_result_of harness_output) = true).
  { destruct (Judge.compile_failed (compile_result_of harness_output)) eqn:Hc.
    - subst result. unfold Judge.judge_submission. fold (compile_result_of harness_output).
      rewrite Hc. done.
    - subst result. rewrite final_verdict_not_failed by done. cbv zeta.
      split; [| discriminate]. intros H.
      repeat match type of H with
             | (if ?b then _ else _) = _ => destruct b
             end; discriminate. }
  split; [exact HCE |].
  intros H%HCE. subst result. unfold Judge.judge_submission.
  fold (compile_result_of harness_output). by rewrite H.
Qed.

(** X3.  The three counters of a result agree with its list of verdicts:
    [passed_count] is the number of AC verdicts, [failed_count] the number
    of the others, and their sum is [total_count], the length of the
    list. *)
Theorem counters_agree_with_verdicts
    (launch : SpecialJudge.launcher) (self : Judge.t)
    (harness_output : HarnessOutput.t)
    (expected_outputs : option (gmap string string)) :
  let result := Judge.judge_submission launch self harness_output expected_outputs in
  let verdicts := JudgeResult.test_verdicts result in
  JudgeResult.total_count result = Z.of_nat (length verdicts)
  /\ JudgeResult.passed_count result
     = Z.of_nat (length (filter (fun v => TestCaseVerdict.verdict v = AC) verdicts))
  /\ JudgeResult.failed_count result
     = Z.of_nat (length (filter (fun v => TestCaseVerdict.verdict v <> AC) verdicts))
  /\ JudgeResult.passed_count result + JudgeResult.failed_count result
     = JudgeResult.total_count result.
Proof.
  intros result verdicts.
  assert (Hfilter : forall vs : list TestCaseVerdict.t,
             filter (Judge.verdict_is AC) vs
             = filter (fun v => TestCaseVerdict.verdict v = AC) vs).
  { intros vs. apply list_filter_iff. intros v. unfold Judge.verdict_is.
    by rewrite bool_decide_spec. }
  assert (Hsplit : forall vs : list TestCaseVerdict.t,
             (length (filter (fun v => TestCaseVerdict.verdict v = AC) vs)
              + length (filter (fun v => TestCaseVerdict.verdict v <> AC) vs)
              = length vs)%nat).
  { induction vs as [|v vs IH]; [reflexivity |].
    rewrite !filter_cons. repeat case_decide; simpl; try done; lia. }
  subst verdicts result. unfold Judge.judge_submission.
  destruct (Judge.compile_failed _); [by repeat split |].
  cbv zeta.
  cbn [JudgeResult.test_verdicts JudgeResult.total_count JudgeResult.passed_count
       JudgeResult.failed_count].
  set (verdicts := Judge.judge_cases _ _ _ _ _).
  rewrite Hfilter. specialize (Hsplit verdicts).
  repeat split; lia.
Qed.

Lemma accepted_iff_all_cases_accepted_witness :
  Judge.exit_code
    (Judge.judge_submission crashing_program default_judge
       (sample_document [sample_record "a" "passed" "3" "3"]) None) = 0.
Proof.
  apply (accepted_iff_all_cases_accepted crashing_program default_judge
           (sample_document [sample_record "a" "passed" "3" "3"]) None).
  split; [reflexivity |]. vm_compute. repeat constructor.
Defined.

(** ** Time and memory totals *)

Lemma sum_int_from (xs : list Z) : forall start, fold_left Z.add xs start = start + Judge.sum_int xs.
Proof.
  unfold Judge.sum_int.
  induction xs as [|x xs IH]; intros start; simpl; [lia |].
  rewrite (IH (start + x)), (IH (0 + x)). lia.
Qed.

Lemma fold_max_ge (xs : list Z) :
  forall start, start <= fold_left Z.max xs start
                /\ Forall (fun x => x <= fold_left Z.max xs start) xs.
Proof.
  induction xs as [|x xs IH]; intros start; simpl; [split; [lia | constructor] |].
  destruct (IH (Z.max start x)) as [Hstart Hall]. split; [lia |].
  constructor; [lia | exact Hall].
Qed.

Lemma fold_max_attained (xs : list Z) :
  forall start, fold_left Z.max xs start = start \/ fold_left Z.max xs start ∈ xs.
Proof.
  induction xs as [|x xs IH]; intros start; simpl; [by left |].
  destruct (IH (Z.max start x)) as [-> | Hin].
  - destruct (Z.max_spec start x) as [[_ ->] | [_ ->]]; [right; left | by left].
  - right. by right.
Qed.

(** X4.  [total_time_ms] is the sum of the per-case times.
    [max_memory_kb] is 0 when no case was judged; otherwise it is the
    memory of one of the cases and no case used more. *)
Theorem time_and_memory_totals
    (launch : SpecialJudge.launcher) (self : Judge.t)
    (harness_output : HarnessOutput.t)
    (expected_outputs : option (gmap string string)) :
  let result := Judge.judge_submission launch self harness_output expected_outputs in
  let times := map TestCaseVerdict.execution_time_ms (JudgeResult.test_verdicts result) in
  let memories := map TestCaseVerdict.memory_used_kb (JudgeResult.test_verdicts result) in
  JudgeResult.total_time_ms result = foldr Z.add 0 times
  /\ Forall (fun m => m <= JudgeResult.max_memory_kb result) memories
  /\ (memories = [] -> JudgeResult.max_memory_kb result = 0)
  /\ (memories <> [] -> JudgeResult.max_memory_kb result ∈ memories).
Proof.
  intros result times memories.
  assert (Hsum : forall xs, Judge.sum_int xs = foldr Z.add 0 xs).
  { induction xs as [|x xs IH]; [reflexivity |].
    unfold Judge.sum_int. simpl. rewrite sum_int_from, IH. lia. }
  assert (Hmax : forall xs,
             Forall (fun m => m <= Judge.max_default0 xs) xs
             /\ (xs = [] -> Judge.max_default0 xs = 0)
             /\ (xs <> [] -> Judge.max_default0 xs ∈ xs)).
  { intros [|x xs]; simpl; [by repeat split |].
    destruct (fold_max_ge xs x) as [Hx Hall].
    split; [by constructor |]. split; [done |]. intros _.
    destruct (fold_max_attained xs x) as [-> | Hin]; [left | by right]. }
  subst times memories result. unfold Judge.judge_submission.
  destruct (Judge.compile_failed _).
  - simpl. repeat split; [constructor | done].
  - cbv zeta.
    cbn [JudgeResult.test_verdicts JudgeResult.total_time_ms JudgeResult.max_memory_kb].
    split; [apply Hsum | apply Hmax].
Qed.

Lemma time_and_memory_totals_witness :
  JudgeResult.max_memory_kb
    (Judge.judge_submission crashing_program default_judge (sample_document []) None) = 0.
Proof.
  apply (time_and_memory_totals crashing_program default_judge (sample_document []) None).
  reflexivity.
Defined.

(** ** How a case gets its verdict *)

(** The four ways a case gets its verdict. *)
Lemma judge_test_case_cases
    (launch : SpecialJudge.launcher) (self : Judge.t)
    (tr : TestRecord.t) (expected : option string) :
  let verdict :=
    TestCaseVerdict.verdict (Judge.judge_test_case launch self tr expected) in
  let status := get (TestRecord.status tr) "" in
  (timed_out tr = true /\ verdict = TLE)
  \/ (timed_out tr = false /\ status = "memory_limit" /\ verdict = MLE)
  \/ (timed_out tr = false /\ status <> "memory_limit"
      /\ status = "runtime_error" /\ verdict = RE)
  \/ (classified_by_status tr = false /\ (verdict = AC \/ verdict = WA)).
Proof.
  intros verdict status. subst verdict status.
  unfold classified_by_status, timed_out, Judge.judge_test_case.
  destruct (String.eqb (get (TestRecord.status tr) "") "timeout"
            || get (TestRecord.timedOut tr) false) eqn:Hto.
  { left. by simpl. }
  destruct (String.eqb_spec (get (TestRecord.status tr) "") "memory_limit") as [Hml|Hml].
  { right. left. by simpl. }
  destruct (String.eqb_spec (get (TestRecord.status tr) "") "runtime_error") as [Hre|Hre].
  { right. right. left. by simpl. }
  right. right. right. split; [reflexivity |].
  destruct (Judge.selected_special_judge self) as [sj|].
  - destruct (SpecialJudge.run _ _ _ _ _ _) as [[[] score] message]; simpl; auto.
  - match goal with
    | |- context [if String.eqb ?m "token" then ?a else ?b] =>
        destruct (if String.eqb m "token" then a else b) as [[] message]
    end; simpl; auto.
Qed.

(** X5.  The verdict of a case is decided by its status first: TLE
    exactly for a timeout, MLE exactly for the status [memory_limit]
    without a timeout, RE exactly for the status [runtime_error] without
    a timeout.  Every other case is AC or WA, also in special mode: the
    verdict code a special judge prints is not kept. *)
Theorem verdict_by_status
    (launch : SpecialJudge.launcher) (self : Judge.t)
    (tr : TestRecord.t) (expected : option string) :
  let verdict :=
    TestCaseVerdict.verdict (Judge.judge_test_case launch self tr expected) in
  let status := get (TestRecord.status tr) "" in
  (verdict = TLE <-> timed_out tr = true)
  /\ (verdict = MLE <-> timed_out tr = false /\ status = "memory_limit")
  /\ (verdict = RE <-> timed_out tr = false /\ status = "runtime_error")
  /\ (classified_by_status tr = false -> verdict = AC \/ verdict = WA).
Proof.
  intros verdict status.
  pose proof (judge_test_case_cases launch self tr expected) as H.
  fold verdict in H. subst status. unfold classified_by_status in *.
  destruct H as [[Hto ->] | [(Hto & Hst & ->) | [(Hto & Hml & Hst & ->) | [Hcl Hv]]]].
  - rewrite Hto. repeat split; simpl; try done; try (intros [? _]; done).
  - rewrite Hto, Hst. repeat split; simpl; try done; try (intros [_ [=]]).
  - rewrite Hto, Hst. repeat split; simpl; try done; try (intros [_ [=]]).
  - apply orb_false_iff in Hcl as [Hcl Hre]. apply orb_false_iff in Hcl as [Hto Hml].
    rewrite Hto. apply String.eqb_neq in Hml, Hre.
    destruct Hv as [-> | ->]; repeat split; try done; try (intros [_ ?]; done); auto.
Qed.

Lemma verdict_by_status_witness :
  TestCaseVerdict.verdict
    (Judge.judge_test_case crashing_program default_judge
       (sample_record "a" "memory_limit" "3" "3") None) = MLE.
Proof.
  apply (verdict_by_status crashing_program default_judge
           (sample_record "a" "memory_limit" "3" "3") None).
  split; reflexivity.
Defined.

(** Two judges that judge every case alike judge every submission
    alike. *)
Lemma judge_submission_ext
    (launch1 launch2 : SpecialJudge.launcher) (self1 self2 : Judge.t)
    (harness_output : HarnessOutput.t)
    (expected_outputs : option (gmap string string)) :
  (forall tr expected,
      Judge.judge_test_case launch1 self1 tr expected
      = Judge.judge_test_case launch2 self2 tr expected) ->
  Judge.judge_submission launch1 self1 harness_output expected_outputs
  = Judge.judge_submission launch2 self2 harness_output expected_outputs.
Proof.
  intros Hcase.
  assert (Hcases : forall test_results verdicts,
             Judge.judge_cases launch1 self1 expected_outputs verdicts test_results
             = Judge.judge_cases launch2 self2 expected_outputs verdicts test_results).
  { induction test_results as [|tr rest IH]; intros verdicts; simpl; [reflexivity |].
    by rewrite IH, Hcase. }
  unfold Judge.judge_submission.
  destruct (Judge.compile_failed _); [reflexivity |].
  cbv zeta. by rewrite Hcases.
Qed.

Lemma judge_test_case_other_modes
    (launch : SpecialJudge.launcher) (self : Judge.t) tr expected :
  Judge.special_judge self = None ->
  ProblemConfig.comparison_mode (Judge.config self) <> "token" ->
  ProblemConfig.comparison_mode (Judge.config self) <> "float" ->
  Judge.judge_test_case launch self tr expected
  = Judge.judge_test_case launch (with_comparison_mode "exact" self) tr expected.
Proof.
  intros Hsj Htoken Hfloat.
  unfold Judge.judge_test_case, Judge.selected_special_judge.
  cbn [with_comparison_mode Judge.config Judge.special_judge
       ProblemConfig.comparison_mode ProblemConfig.test_weights].
  rewrite Hsj.
  destruct (String.eqb_spec (ProblemConfig.comparison_mode (Judge.config self)) "token");
    [contradiction |].
  destruct (String.eqb_spec (ProblemConfig.comparison_mode (Judge.config self)) "float");
    [contradiction |].
  reflexivity.
Qed.

(** X6.  Without a selected special judge, every comparison mode other
    than [token] and [float] is the exact comparison: a mode [special]
    without a special judge, or an unknown mode, judges a submission as
    the mode [exact] does. *)
Theorem other_modes_are_exact
    (launch : SpecialJudge.launcher) (self : Judge.t)
    (harness_output : HarnessOutput.t)
    (expected_outputs : option (gmap string string)) :
  Judge.special_judge self = None ->
  ProblemConfig.comparison_mode (Judge.config self) <> "token" ->
  ProblemConfig.comparison_mode (Judge.config self) <> "float" ->
  Judge.judge_submission launch self harness_output expected_outputs
  = Judge.judge_submission launch (with_comparison_mode "exact" self)
      harness_output expected_outputs.
Proof.
  intros Hsj Htoken Hfloat. apply judge_submission_ext.
  intros tr expected. by apply judge_test_case_other_modes.
Qed.

Lemma other_modes_are_exact_witness :
  let self := Judge.mk (with_mode "special" ∅ None) None in
  let document := sample_document [sample_record "a" "passed" "3" "3"] in
  Judge.judge_submission crashing_program self document None
  = Judge.judge_submission crashing_program (with_comparison_mode "exact" self)
      document None.
Proof.
  apply (other_modes_are_exact crashing_program
           (Judge.mk (with_mode "special" ∅ None) None)
           (sample_document [sample_record "a" "passed" "3" "3"]) None);
    [reflexivity | discriminate | discriminate].
Defined.

(** ** The expected-outputs mapping *)

Lemma imap_after_map {A B C : Type} (h : A -> B) (l : list A) :
  forall (f : nat -> B -> C) (g : nat -> A -> C),
    (forall i x, l !! i = Some x -> f i (h x) = g i x) ->
    imap f (map h l) = imap g l.
Proof.
  induction l as [|x l IH]; intros f g Hfg; [reflexivity |].
  simpl. f_equal; [apply (Hfg 0%nat x eq_refl) |].
  apply IH. intros i y Hi. apply (Hfg (S i) y Hi).
Qed.

(** X7.  An empty expected-outputs mapping is ignored: the submission is
    judged as without a mapping, against the expected outputs that the
    records carry.  When a non-empty mapping has entries for the
    identifiers of all records, the expected outputs that the records
    carry play no part. *)
Theorem expected_outputs_mapping
    (launch : SpecialJudge.launcher) (self : Judge.t) :
  (forall harness_output,
      Judge.judge_submission launch self harness_output (Some ∅)
      = Judge.judge_submission launch self harness_output None)
  /\ (forall (outputs : gmap string string) (test_results : list TestRecord.t)
             (snake camel : option string),
         outputs <> ∅ ->
         (forall i tr, test_results !! i = Some tr -> is_Some (outputs !! lookup_id i tr)) ->
         Judge.judge_cases launch self (Some outputs) []
           (map (with_expected snake camel) test_results)
         = Judge.judge_cases launch self (Some outputs) [] test_results).
Proof.
  split.
  - intros harness_output.
    assert (Hcases : forall test_results verdicts,
               Judge.judge_cases launch self (Some ∅) verdicts test_results
               = Judge.judge_cases launch self None verdicts test_results).
    { induction test_results as [|tr rest IH]; intros verdicts; simpl; [reflexivity |].
      by rewrite IH. }
    unfold Judge.judge_submission.
    destruct (Judge.compile_failed _); [reflexivity |].
    cbv zeta. rewrite Hcases. reflexivity.
  - intros outputs test_results snake camel Hne Hentries.
    rewrite !judge_cases_imap. simpl.
    assert (Htruthy : Judge.dict_truthy outputs = true).
    { unfold Judge.dict_truthy.
      destruct (map_to_list outputs) eqn:Hl; [| reflexivity].
      by apply map_to_list_empty_iff in Hl. }
    apply imap_after_map. intros i tr Hi.
    destruct (Hentries i tr Hi) as [e He].
    unfold expected_for. rewrite Htruthy.
    replace (lookup_id i (with_expected snake camel tr)) with (lookup_id i tr)
      by reflexivity.
    rewrite He. reflexivity.
Qed.

Lemma expected_outputs_mapping_witness :
  let outputs : gmap string string := <["a" := "3"]> ∅ in
  Judge.judge_cases crashing_program default_judge (Some outputs) []
    (map (with_expected (Some "7") None) [sample_record "a" "passed" "3" "0"])
  = Judge.judge_cases crashing_program default_judge (Some outputs) []
      [sample_record "a" "passed" "3" "0"].
Proof.
  apply (proj2 (expected_outputs_mapping crashing_program default_judge)
           (<["a" := "3"]> ∅) [sample_record "a" "passed" "3" "0"] (Some "7") None).
  - intros H. apply (f_equal (fun m : gmap string string => m !! "a")) in H.
    vm_compute in H. discriminate.
  - intros [|i] tr; simpl; [intros [= <-]; vm_compute; eauto | discriminate].
Defined.

(** ** Rounding *)

Lemma Qltb_lt a b : PyFloat.Qltb a b = true <-> (a < b)%Q.
Proof.
  unfold PyFloat.Qltb. rewrite negb_true_iff.
  destruct (Qle_bool b a) eqn:H.
  - apply Qle_bool_iff in H. split; [discriminate | intros ?; lra].
  - split; [intros _ | done].
    destruct (Qlt_le_dec a b) as [|Hle]; [done |].
    apply Qle_bool_iff in Hle. congruence.
Qed.

Lemma round_half_even_floor q :
  Qfloor q <= PyFloat.round_half_even q <= Qfloor q + 1.
Proof.
  unfold PyFloat.round_half_even.
  repeat match goal with |- context [if ?b then _ else _] => destruct b end; lia.
Qed.

Lemma round_half_even_Z n : PyFloat.round_half_even (inject_Z n) = n.
Proof.
  unfold PyFloat.round_half_even. rewrite Qfloor_Z.
  assert (H : PyFloat.Qltb (inject_Z n - inject_Z n) (1 # 2) = true)
    by (apply Qltb_lt; lra).
  by rewrite H.
Qed.

Lemma Qfloor_bounds q : (inject_Z (Qfloor q) <= q < inject_Z (Qfloor q + 1))%Q.
Proof.
  split; [apply Qfloor_le |].
  pose proof (Qlt_floor q) as H. exact H.
Qed.

Lemma round_half_even_mono q1 q2 :
  (q1 <= q2)%Q -> PyFloat.round_half_even q1 <= PyFloat.round_half_even q2.
Proof.
  intros Hle.
  pose proof (Qfloor_resp_le _ _ Hle) as Hfloor.
  destruct (Z.eq_dec (Qfloor q1) (Qfloor q2)) as [Heq | Hne].
  - unfold PyFloat.round_half_even. rewrite <- Heq.
    destruct (PyFloat.Qltb (q1 - inject_Z (Qfloor q1)) (1 # 2)) eqn:H1.
    + repeat match goal with |- context [if ?b then _ else _] => destruct b end; lia.
    + destruct (PyFloat.Qltb (q2 - inject_Z (Qfloor q1)) (1 # 2)) eqn:H2.
      * apply Qltb_lt in H2.
        assert (PyFloat.Qltb (q1 - inject_Z (Qfloor q1)) (1 # 2) = true)
          by (apply Qltb_lt; lra).
        congruence.
      * destruct (PyFloat.Qltb (1 # 2) (q1 - inject_Z (Qfloor q1))) eqn:H3.
        -- apply Qltb_lt in H3.
           assert (H4 : PyFloat.Qltb (1 # 2) (q2 - inject_Z (Qfloor q1)) = true)
             by (apply Qltb_lt; lra).
           rewrite H4. lia.
        -- repeat match goal with |- context [if ?b then _ else _] => destruct b end; lia.
  - pose proof (round_half_even_floor q1). pose proof (round_half_even_floor q2). lia.
Qed.



(** ** The percentage *)





(** ** Lines: splitting and joining *)

Lemma join_cons2 sep x y ys :
  PyStr.join sep (x :: y :: ys) = x +:+ sep +:+ PyStr.join sep (y :: ys).
Proof. reflexivity. Qed.

(** Joining the lines of a text with newlines gives the text back. *)
Lemma join_split_on text :
  PyStr.join (String PyStr.nl "") (PyStr.split_on PyStr.nl text) = text.
Proof.
  induction text as [|c text IH]; [reflexivity |].
  cbn [PyStr.split_on].
  destruct (PyStr.split_on PyStr.nl text) as [|l ls] eqn:Hsplit;
    [by destruct (split_on_nonempty PyStr.nl text) |].
  destruct (Ascii.eqb_spec c PyStr.nl) as [-> | Hc].
  - rewrite join_cons2, IH. reflexivity.
  - destruct ls as [|y ys].
    + simpl in *. by rewrite IH.
    + rewrite join_cons2 in IH |- *.
      transitivity (String c (l +:+ String PyStr.nl "" +:+
                              PyStr.join (String PyStr.nl "") (y :: ys)));
        [reflexivity | by rewrite IH].
Qed.

(** ** The first difference of two lists *)

Lemma first_diff_spec {A : Type} (neqb : A -> A -> bool) (xs : list A) :
  forall (ys : list A) (start : nat),
    match Comparator.first_diff neqb start xs ys with
    | Some i =>
        exists k x y,
          i = (start + k)%nat /\ xs !! k = Some x /\ ys !! k = Some y
          /\ neqb x y = true
          /\ Forall2 (fun x y => neqb x y = false) (take k xs) (take k ys)
    | None =>
        Forall2 (fun x y => neqb x y = false)
          (take (length ys) xs) (take (length xs) ys)
    end.
Proof.
  induction xs as [|x xs IH]; intros [|y ys] start; simpl; try by constructor.
  destruct (neqb x y) eqn:Hxy.
  - exists 0%nat, x, y. rewrite Nat.add_0_r. by repeat split.
  - specialize (IH ys (S start)).
    destruct (Comparator.first_diff neqb (S start) xs ys) as [i|].
    + destruct IH as (k & x' & y' & -> & Hx & Hy & Hne & Hprefix).
      exists (S k), x', y'. repeat split; try done; [lia |].
      simpl. by constructor.
    + by constructor.
Qed.

Lemma str_neqb_false a b : Comparator.str_neqb a b = false <-> a = b.
Proof.
  unfold Comparator.str_neqb. rewrite negb_false_iff. apply String.eqb_eq.
Qed.

Lemma Forall2_str_neqb_eq (xs ys : list string) :
  Forall2 (fun x y => Comparator.str_neqb x y = false) xs ys -> xs = ys.
Proof.
  induction 1 as [|x y xs ys Hxy _ IH]; [reflexivity |].
  apply str_neqb_false in Hxy. congruence.
Qed.

(** Two lists of the same length without a first difference are equal. *)
Lemma first_diff_none_eq (xs ys : list string) start :
  length xs = length ys ->
  Comparator.first_diff Comparator.str_neqb start xs ys = None -> xs = ys.
Proof.
  intros Hlen Hnone.
  pose proof (first_diff_spec Comparator.str_neqb xs ys start) as H.
  rewrite Hnone in H. rewrite <- Hlen, firstn_all in H.
  rewrite Hlen, firstn_all in H. by apply Forall2_str_neqb_eq.
Qed.

Lemma first_diff_some (xs ys : list string) i :
  Comparator.first_diff Comparator.str_neqb 0 xs ys = Some i ->
  take i xs = take i ys
  /\ exists x y, xs !! i = Some x /\ ys !! i = Some y /\ x <> y.
Proof.
  intros Hsome.
  pose proof (first_diff_spec Comparator.str_neqb xs ys 0%nat) as H.
  rewrite Hsome in H. destruct H as (k & x & y & -> & Hx & Hy & Hne & Hprefix).
  simpl. split; [by apply Forall2_str_neqb_eq |].
  exists x, y. repeat split; try done.
  intros ->. unfold Comparator.str_neqb in Hne. by rewrite String.eqb_refl in Hne.
Qed.

(** ** The diagnostics of the exact comparator *)

(** X9.  What the exact comparator reports is accurate.  On a mismatch
    it reports either the two line counts, which then differ, or the
    number (counted from 1) of the first line on which the normalised
    texts differ, all earlier lines being equal.  The closing message
    [Output differs from expected] is never produced. *)
Theorem exact_match_diagnostic
    (expected actual : string) (config : ProblemConfig.t) :
  let exp_lines := compared_lines config expected in
  let act_lines := compared_lines config actual in
  match Comparator.exact_match expected actual config with
  | (true, m) => exp_lines = act_lines /\ m = MsgText "Output matches expected"
  | (false, MsgLineCount e a) =>
      e = length exp_lines /\ a = length act_lines /\ e <> a
  | (false, MsgDiffLine n) =>
      length exp_lines = length act_lines
      /\ exists i x y,
           n = S i /\ take i exp_lines = take i act_lines
           /\ exp_lines !! i = Some x /\ act_lines !! i = Some y /\ x <> y
  | (false, _) => False
  end.
Proof.
  intros exp_lines act_lines. subst exp_lines act_lines.
  unfold Comparator.exact_match, compared_lines.
  set (ne := Comparator.normalize (Some expected) config).
  set (na := Comparator.normalize (Some actual) config).
  destruct (String.eqb_spec ne na) as [Heq | Hne]; [by rewrite Heq |].
  destruct (Nat.eqb_spec (length (PyStr.split_on PyStr.nl ne))
              (length (PyStr.split_on PyStr.nl na))) as [Hlen | Hlen]; simpl.
  - destruct (Comparator.first_diff _ _ _) as [i|] eqn:Hdiff.
    + destruct (first_diff_some _ _ _ Hdiff) as (Hprefix & x & y & Hx & Hy & Hxy).
      split; [done |]. exists i, x, y. repeat split; try done. lia.
    + apply Hne. rewrite <- (join_split_on ne), <- (join_split_on na).
      f_equal. by eapply first_diff_none_eq.
  - done.
Qed.

(** ** Tokens *)

Lemma split_ws_cons c text :
  PyStr.split_ws (String c text)
  = if PyStr.isspace c then PyStr.split_ws text
    else if at_boundary text then String c "" :: PyStr.split_ws text
    else match PyStr.split_ws text with
         | [] => [String c ""]
         | t :: ts => String c t :: ts
         end.
Proof.
  cbn [PyStr.split_ws]. destruct (PyStr.isspace c); [reflexivity |].
  destruct text as [|c' text]; [reflexivity |]. reflexivity.
Qed.

Lemma isspace_lower c : PyStr.isspace (PyStr.lower_char c) = PyStr.isspace c.
Proof. by destruct c as [[] [] [] [] [] [] [] []]. Qed.

Lemma lower_char_nl c :
  Ascii.eqb (PyStr.lower_char c) PyStr.nl = Ascii.eqb c PyStr.nl.
Proof. by destruct c as [[] [] [] [] [] [] [] []]. Qed.

Lemma lower_char_idem c : PyStr.lower_char (PyStr.lower_char c) = PyStr.lower_char c.
Proof. by destruct c as [[] [] [] [] [] [] [] []]. Qed.

Lemma isspace_nl c : Ascii.eqb c PyStr.nl = true -> PyStr.isspace c = true.
Proof. intros ->%Ascii.eqb_eq. reflexivity. Qed.

Lemma at_boundary_lower text : at_boundary (PyStr.lower text) = at_boundary text.
Proof. destruct text; [reflexivity |]. simpl. apply isspace_lower. Qed.

(** Lower-casing a text lower-cases its tokens. *)
Lemma split_ws_lower text :
  PyStr.split_ws (PyStr.lower text) = map PyStr.lower (PyStr.split_ws text).
Proof.
  induction text as [|c text IH]; [reflexivity |].
  cbn [PyStr.lower].
  rewrite (split_ws_cons (PyStr.lower_char c)), (split_ws_cons c text), isspace_lower,
    at_boundary_lower, IH.
  destruct (PyStr.isspace c); [reflexivity |].
  destruct (at_boundary text); [reflexivity |].
  destruct (PyStr.split_ws text); reflexivity.
Qed.

Lemma at_line_end_boundary text : at_line_end text = true -> at_boundary text = true.
Proof. destruct text; [done |]. simpl. apply isspace_nl. Qed.

Lemma at_boundary_strip_each_line text :
  at_boundary (strip_each_line text) = at_boundary text.
Proof.
  destruct text as [|c text]; [reflexivity |]. cbn [strip_each_line].
  destruct (Ascii.eqb c PyStr.nl) eqn:Hc; [reflexivity |].
  destruct (PyStr.isspace c) eqn:Hs; simpl; [| by rewrite Hs].
  destruct (at_line_end (strip_each_line text)) eqn:He; simpl; [| by rewrite Hs].
  rewrite Hs. by apply at_line_end_boundary.
Qed.

(** Trailing whitespace of a line separates no tokens. *)
Lemma split_ws_strip_each_line text :
  PyStr.split_ws (strip_each_line text) = PyStr.split_ws text.
Proof.
  induction text as [|c text IH]; [reflexivity |].
  cbn [strip_each_line].
  destruct (Ascii.eqb c PyStr.nl) eqn:Hc.
  - rewrite (split_ws_cons c (strip_each_line text)), (split_ws_cons c text),
      (isspace_nl c Hc).
    exact IH.
  - destruct (PyStr.isspace c) eqn:Hs; cbn [andb].
    + destruct (at_line_end (strip_each_line text)).
      * rewrite split_ws_cons, Hs. exact IH.
      * rewrite (split_ws_cons c (strip_each_line text)), (split_ws_cons c text), Hs.
        exact IH.
    + rewrite (split_ws_cons c (strip_each_line text)), (split_ws_cons c text), Hs,
        at_boundary_strip_each_line, IH.
      reflexivity.
Qed.

Lemma rstrip_by_head p c text :
  PyStr.rstrip_by p (String c text) = EmptyString
  \/ exists rest, PyStr.rstrip_by p (String c text) = String c rest.
Proof.
  simpl. destruct (PyStr.rstrip_by p text); [destruct (p c) |]; eauto.
Qed.

Lemma rstrip_by_empty p text :
  (forall c, p c = true -> PyStr.isspace c = true) ->
  PyStr.rstrip_by p text = EmptyString -> PyStr.split_ws text = [] /\ at_boundary text = true.
Proof.
  intros Hp. induction text as [|c text IH]; [done |].
  simpl PyStr.rstrip_by.
  destruct (PyStr.rstrip_by p text) eqn:Hr; [| discriminate].
  destruct (p c) eqn:Hc; [| discriminate]. intros _.
  rewrite split_ws_cons. simpl. rewrite (Hp c Hc). by destruct IH.
Qed.

Lemma at_boundary_rstrip_by p text :
  (forall c, p c = true -> PyStr.isspace c = true) ->
  at_boundary (PyStr.rstrip_by p text) = at_boundary text.
Proof.
  intros Hp. destruct text as [|c text]; [reflexivity |].
  destruct (rstrip_by_head p c text) as [H | [rest H]].
  - rewrite H. symmetry. by apply (rstrip_by_empty p _ Hp).
  - by rewrite H.
Qed.

(** Stripped trailing whitespace separates no tokens. *)
Lemma split_ws_rstrip_by p text :
  (forall c, p c = true -> PyStr.isspace c = true) ->
  PyStr.split_ws (PyStr.rstrip_by p text) = PyStr.split_ws text.
Proof.
  intros Hp. induction text as [|c text IH]; [reflexivity |].
  pose proof (at_boundary_rstrip_by p text Hp) as Hb.
  simpl PyStr.rstrip_by.
  destruct (PyStr.rstrip_by p text) as [|d r] eqn:Hr.
  - destruct (rstrip_by_empty p text Hp Hr) as [Hempty Hbound].
    rewrite (split_ws_cons c text), Hempty, Hbound.
    destruct (p c) eqn:Hc.
    + by rewrite (Hp c Hc).
    + simpl. by destruct (PyStr.isspace c).
  - rewrite (split_ws_cons c (String d r)), (split_ws_cons c text), Hb, IH.
    reflexivity.
Qed.

(** The tokens are those of the normalised text. *)
Lemma compared_tokens_normalize config text :
  compared_tokens config text
  = PyStr.split_ws (Comparator.normalize (Some text) config).
Proof.
  rewrite normalize_refines. unfold compared_tokens, normalise.
  assert (Hnl : forall c, Ascii.eqb PyStr.nl c = true -> PyStr.isspace c = true).
  { intros c H. apply isspace_nl. by rewrite Ascii.eqb_sym. }
  assert (H : forall t,
             PyStr.split_ws
               (if ProblemConfig.ignore_trailing_newlines config
                then PyStr.rstrip_chars PyStr.nl
                       (if ProblemConfig.ignore_trailing_whitespace config
                        then strip_each_line t else t)
                else if ProblemConfig.ignore_trailing_whitespace config
                     then strip_each_line t else t)
             = PyStr.split_ws t).
  { intros t. unfold PyStr.rstrip_chars.
    destruct (ProblemConfig.ignore_trailing_newlines config),
      (ProblemConfig.ignore_trailing_whitespace config);
      rewrite ?split_ws_rstrip_by, ?split_ws_strip_each_line by exact Hnl; reflexivity. }
  destruct (ProblemConfig.case_sensitive config).
  - by rewrite H.
  - by rewrite split_ws_lower, H.
Qed.

(** X10.  The token comparator reports a match exactly when the two
    texts have the same tokens (compared without case when the
    configuration says so).  On a mismatch it reports either the two
    token counts, which then differ, or the position (counted from 1) of
    the first differing token together with the two tokens; the closing
    message [Tokens differ] is never produced. *)
Theorem token_match_diagnostic
    (expected actual : string) (config : ProblemConfig.t) :
  let exp_tokens := compared_tokens config expected in
  let act_tokens := compared_tokens config actual in
  match Comparator.token_match expected actual config with
  | (true, m) => exp_tokens = act_tokens /\ m = MsgText "All tokens match"
  | (false, MsgTokenCount e a) =>
      e = length exp_tokens /\ a = length act_tokens /\ e <> a
  | (false, MsgTokenMismatch n x y) =>
      length exp_tokens = length act_tokens
      /\ exists i,
           n = S i /\ take i exp_tokens = take i act_tokens
           /\ exp_tokens !! i = Some x /\ act_tokens !! i = Some y /\ x <> y
  | (false, _) => False
  end.
Proof.
  intros exp_tokens act_tokens. subst exp_tokens act_tokens.
  unfold Comparator.token_match, compared_tokens, Comparator.list_str_eqb.
  destruct (ProblemConfig.case_sensitive config); cbn [negb];
    match goal with
    | |- context [bool_decide (?xs = ?ys)] =>
        set (exp_tokens := xs); set (act_tokens := ys)
    end;
    (case_bool_decide as Heq; [done |]);
    (destruct (Nat.eqb_spec (length exp_tokens) (length act_tokens)) as [Hlen | Hlen];
     simpl; [| done]);
    (destruct (Comparator.first_diff _ _ _ _) as [i|] eqn:Hdiff;
     [| destruct Heq; by eapply first_diff_none_eq]);
    destruct (first_diff_some _ _ _ Hdiff) as (Hprefix & x & y & Hx & Hy & Hxy);
    (split; [done |]); exists i;
    rewrite (nth_lookup_Some _ _ _ _ Hx), (nth_lookup_Some _ _ _ _ Hy);
    repeat split; try done; lia.
Qed.

(** X11.  The token comparison is coarser than the exact one: it
    compares the tokens of the normalised texts, so two texts that the
    exact comparator accepts are accepted by the token comparator too. *)
Theorem exact_match_implies_token_match
    (expected actual : string) (config : ProblemConfig.t) :
  (fst (Comparator.token_match expected actual config) = true
   <-> PyStr.split_ws (Comparator.normalize (Some expected) config)
       = PyStr.split_ws (Comparator.normalize (Some actual) config))
  /\ (fst (Comparator.exact_match expected actual config) = true ->
      fst (Comparator.token_match expected actual config) = true).
Proof.
  assert (Htoken : fst (Comparator.token_match expected actual config) = true
                   <-> compared_tokens config expected = compared_tokens config actual).
  { pose proof (token_match_diagnostic expected actual config) as H. cbv zeta in H.
    destruct (Comparator.token_match expected actual config) as [[] m]; simpl.
    - by destruct H.
    - split; [discriminate |]. intros Heq. exfalso.
      destruct m; try done.
      + destruct H as (-> & -> & H). apply H. by rewrite Heq.
      + destruct H as (_ & i & _ & _ & Hx & Hy & Hxy). rewrite Heq in Hx. congruence. }
  rewrite !compared_tokens_normalize in Htoken.
  split; [exact Htoken |].
  intros Hexact. apply Htoken.
  unfold Comparator.exact_match in Hexact.
  destruct (String.eqb_spec (Comparator.normalize (Some expected) config)
              (Comparator.normalize (Some actual) config)) as [-> | Hne]; [done |].
  exfalso. revert Hexact.
  repeat match goal with |- context [if ?b then _ else _] => destruct b end;
    try discriminate.
  destruct (Comparator.first_diff _ _ _ _); discriminate.
Qed.

Lemma exact_match_implies_token_match_witness :
  fst (Comparator.token_match "1 2" ("1 2  " ++ String PyStr.nl "") ProblemConfig.default)
  = true.
Proof.
  apply (proj2 (exact_match_implies_token_match "1 2" ("1 2  " ++ String PyStr.nl "")
                  ProblemConfig.default)).
  reflexivity.
Defined.

(** ** The built-in float comparison *)

Lemma Qltb_false a b : PyFloat.Qltb a b = false <-> (b <= a)%Q.
Proof.
  unfold PyFloat.Qltb. rewrite negb_false_iff. apply Qle_bool_iff.
Qed.

Lemma mul_tolerance_inf t :
  (0 <= t)%Q -> PyFloat.ltb (PyFloat.mul (Fin t) PosInf) PosInf = false.
Proof.
  intros Ht. unfold PyFloat.mul, PyFloat.sign.
  destruct t as [n d]. unfold Qle in Ht. simpl in *.
  destruct n; simpl; try reflexivity. lia.
Qed.

Lemma out_of_tolerance_spec t exp_val act_val :
  (0 <= t)%Q ->
  Comparator.out_of_tolerance (Fin t) exp_val act_val = false
  <-> within_tolerance t exp_val act_val.
Proof.
  intros Ht. unfold Comparator.out_of_tolerance, PyFloat.gtb.
  destruct exp_val as [x| | |], act_val as [y| | |];
    cbn [within_tolerance PyFloat.sub PyFloat.neg PyFloat.add PyFloat.abs PyFloat.ltb];
    try (split; [done | reflexivity]);
    try (split; [discriminate | contradiction]);
    try (rewrite mul_tolerance_inf by done; rewrite andb_false_r; done).
  cbn [PyFloat.mul PyFloat.ltb]. rewrite andb_false_iff, !Qltb_false.
  reflexivity.
Qed.

Lemma first_diff_none_iff {A : Type} (neqb : A -> A -> bool) (xs ys : list A) :
  length xs = length ys ->
  forall start,
    Comparator.first_diff neqb start xs ys = None
    <-> Forall2 (fun x y => neqb x y = false) xs ys.
Proof.
  revert ys. induction xs as [|x xs IH]; intros [|y ys] Hlen start; simpl in *;
    try discriminate.
  - split; [constructor | done].
  - destruct (neqb x y) eqn:Hxy.
    + split; [discriminate |]. intros H. inversion H. congruence.
    + rewrite IH by lia. split; [by constructor | by inversion 1].
Qed.





(** ** The stand-alone float judge *)

Lemma is_close_refl x : FloatTolerance.is_close x x = true.
Proof.
  destruct x as [x| | |]; try reflexivity.
  unfold FloatTolerance.is_close.
  cbn [PyFloat.isnan PyFloat.isinf andb orb PyFloat.sub PyFloat.neg PyFloat.add
       PyFloat.abs PyFloat.leb FloatTolerance.ABSOLUTE_TOLERANCE].
  assert (H : Qle_bool (Qabs (x + - x)) (1 # 1000000000) = true).
  { apply Qle_bool_iff. assert (Hz : (x + - x == 0)%Q) by ring.
    rewrite Hz. by vm_compute. }
  by rewrite H.
Qed.

Lemma is_close_within_tolerance expected actual :
  FloatTolerance.is_close expected actual = true ->
  Comparator.out_of_tolerance (Fin (1 # 1000000)) expected actual = false.
Proof.
  intros Hclose.
  apply (out_of_tolerance_spec (1 # 1000000)); [by vm_compute |].
  destruct expected as [x| | |], actual as [y| | |]; try exact I; try discriminate.
  revert Hclose. unfold FloatTolerance.is_close.
  cbn [PyFloat.isnan PyFloat.isinf andb orb PyFloat.sub PyFloat.neg PyFloat.add
       PyFloat.abs PyFloat.leb PyFloat.eqb PyFloat.mul
       FloatTolerance.ABSOLUTE_TOLERANCE FloatTolerance.RELATIVE_TOLERANCE
       within_tolerance].
  change (x + - y)%Q with (x - y)%Q.
  destruct (Qle_bool (Qabs (x - y)) (1 # 1000000000)) eqn:Habs.
  - intros _. left. apply Qle_bool_iff in Habs. lra.
  - destruct (negb (Qeq_bool x 0)); [| discriminate].
    intros Hrel%Qle_bool_iff. by right.
Qed.

(** X13.  [is_close] of the stand-alone float judge accepts every value
    against itself, NaN and the infinities included, and accepts a NaN
    only against a NaN.  With the default tolerances it is stricter than
    the built-in comparison at its default tolerance [1e-6]: a pair it
    accepts is never out of tolerance there. *)
Theorem is_close_stricter_than_builtin :
  (forall x, FloatTolerance.is_close x x = true)
  /\ (forall x, FloatTolerance.is_close x NaN = true <-> x = NaN)
  /\ (forall expected actual,
         FloatTolerance.is_close expected actual = true ->
         Comparator.out_of_tolerance (Fin (1 # 1000000)) expected actual = false).
Proof.
  split; [| split].
  - apply is_close_refl.
  - intros [x| | |]; split; try done.
  - apply is_close_within_tolerance.
Qed.

Lemma is_close_stricter_than_builtin_witness :
  Comparator.out_of_tolerance (Fin (1 # 1000000)) (Fin 1000) (Fin (10000001 # 10000))
  = false.
Proof.
  apply (proj2 (proj2 is_close_stricter_than_builtin)). by vm_compute.
Defined.

(** ** Normalisation is idempotent *)

Lemma strip_each_line_stripped text : lines_stripped (strip_each_line text) = true.
Proof.
  induction text as [|c text IH]; [reflexivity |].
  cbn [strip_each_line].
  destruct (Ascii.eqb c PyStr.nl) eqn:Hc.
  - cbn [lines_stripped]. by rewrite IH, Hc.
  - destruct (PyStr.isspace c && at_line_end (strip_each_line text)) eqn:Hcond.
    + exact IH.
    + cbn [lines_stripped]. rewrite IH, Hc. cbn [negb andb]. by rewrite Hcond.
Qed.

Lemma strip_each_line_fixed text :
  lines_stripped text = true -> strip_each_line text = text.
Proof.
  induction text as [|c text IH]; [reflexivity |].
  cbn [lines_stripped strip_each_line]. rewrite andb_true_iff, negb_true_iff.
  intros [Hclean Hcond]. rewrite (IH Hclean).
  destruct (Ascii.eqb c PyStr.nl); [reflexivity |].
  cbn [negb andb] in Hcond. by rewrite Hcond.
Qed.

Lemma rstrip_nl_empty text :
  PyStr.rstrip_chars PyStr.nl text = EmptyString -> at_line_end text = true.
Proof.
  unfold PyStr.rstrip_chars. destruct text as [|c text]; [done |].
  cbn [PyStr.rstrip_by at_line_end].
  destruct (PyStr.rstrip_by _ text); [| intros H; inversion H].
  destruct (Ascii.eqb PyStr.nl c) eqn:Hc; [| intros H; inversion H].
  intros _. by rewrite Ascii.eqb_sym.
Qed.

Lemma at_line_end_rstrip_nl text :
  at_line_end (PyStr.rstrip_chars PyStr.nl text) = at_line_end text.
Proof.
  destruct text as [|c text]; [reflexivity |].
  destruct (rstrip_by_head (Ascii.eqb PyStr.nl) c text) as [H | [rest H]];
    unfold PyStr.rstrip_chars.
  - rewrite H. symmetry. by apply rstrip_nl_empty.
  - by rewrite H.
Qed.

Lemma rstrip_nl_stripped text :
  lines_stripped text = true ->
  lines_stripped (PyStr.rstrip_chars PyStr.nl text) = true.
Proof.
  induction text as [|c text IH]; [reflexivity |].
  cbn [lines_stripped]. rewrite andb_true_iff, negb_true_iff.
  intros [Hclean Hcond]. specialize (IH Hclean).
  pose proof (at_line_end_rstrip_nl text) as Hend.
  unfold PyStr.rstrip_chars in *. cbn [PyStr.rstrip_by].
  destruct (PyStr.rstrip_by (Ascii.eqb PyStr.nl) text) as [|d r] eqn:Hr.
  - destruct (Ascii.eqb PyStr.nl c) eqn:Hc; [reflexivity |].
    rewrite Ascii.eqb_sym in Hc. rewrite Hc in Hcond. cbn [at_line_end] in Hend.
    rewrite <- Hend in Hcond. cbn [negb andb] in Hcond.
    cbn [lines_stripped at_line_end]. rewrite Hc. cbn [negb andb].
    rewrite andb_true_r in Hcond |- *. by rewrite Hcond.
  - cbn [lines_stripped] in *. rewrite IH. rewrite Hend, Hcond. reflexivity.
Qed.

Lemma rstrip_by_idem p text :
  PyStr.rstrip_by p (PyStr.rstrip_by p text) = PyStr.rstrip_by p text.
Proof.
  induction text as [|c text IH]; [reflexivity |].
  simpl. destruct (PyStr.rstrip_by p text) as [|d r] eqn:Hr.
  - destruct (p c) eqn:Hc; [reflexivity |]. simpl. by rewrite Hc.
  - change (PyStr.rstrip_by p (String c (String d r)))
      with (match PyStr.rstrip_by p (String d r) with
            | EmptyString => if p c then EmptyString else String c EmptyString
            | String e r' => String c (String e r')
            end).
    by rewrite IH.
Qed.

Lemma at_line_end_lower text : at_line_end (PyStr.lower text) = at_line_end text.
Proof. destruct text; [reflexivity |]. simpl. apply lower_char_nl. Qed.

Lemma strip_each_line_lower text :
  strip_each_line (PyStr.lower text) = PyStr.lower (strip_each_line text).
Proof.
  induction text as [|c text IH]; [reflexivity |].
  cbn [PyStr.lower strip_each_line].
  rewrite lower_char_nl, isspace_lower, IH, at_line_end_lower.
  destruct (Ascii.eqb c PyStr.nl); [reflexivity |].
  destruct (PyStr.isspace c && at_line_end (strip_each_line text)); reflexivity.
Qed.

Lemma rstrip_nl_lower text :
  PyStr.rstrip_chars PyStr.nl (PyStr.lower text)
  = PyStr.lower (PyStr.rstrip_chars PyStr.nl text).
Proof.
  unfold PyStr.rstrip_chars.
  induction text as [|c text IH]; [reflexivity |].
  cbn [PyStr.lower PyStr.rstrip_by]. rewrite IH.
  destruct (PyStr.rstrip_by (Ascii.eqb PyStr.nl) text) as [|d r]; [| reflexivity].
  cbn [PyStr.lower]. rewrite (Ascii.eqb_sym PyStr.nl), lower_char_nl, Ascii.eqb_sym.
  by destruct (Ascii.eqb PyStr.nl c).
Qed.

Lemma lower_idem text : PyStr.lower (PyStr.lower text) = PyStr.lower text.
Proof.
  induction text as [|c text IH]; [reflexivity |].
  simpl. by rewrite lower_char_idem, IH.
Qed.

Lemma strip_each_line_idem text :
  strip_each_line (strip_each_line text) = strip_each_line text.
Proof. apply strip_each_line_fixed, strip_each_line_stripped. Qed.

Lemma strip_rstrip_strip text :
  strip_each_line (PyStr.rstrip_chars PyStr.nl (strip_each_line text))
  = PyStr.rstrip_chars PyStr.nl (strip_each_line text).
Proof. apply strip_each_line_fixed, rstrip_nl_stripped, strip_each_line_stripped. Qed.

Lemma rstrip_nl_idem text :
  PyStr.rstrip_chars PyStr.nl (PyStr.rstrip_chars PyStr.nl text)
  = PyStr.rstrip_chars PyStr.nl text.
Proof. apply rstrip_by_idem. Qed.

(** X14.  Normalisation is idempotent: a normalised text is left as it
    is by a second normalisation under the same configuration. *)
Theorem normalize_idempotent (text : string) (config : ProblemConfig.t) :
  Comparator.normalize (Some (Comparator.normalize (Some text) config)) config
  = Comparator.normalize (Some text) config.
Proof.
  rewrite !normalize_refines. unfold normalise.
  destruct (ProblemConfig.ignore_trailing_whitespace config),
    (ProblemConfig.ignore_trailing_newlines config),
    (ProblemConfig.case_sensitive config);
    rewrite ?strip_each_line_lower, ?rstrip_nl_lower, ?lower_idem,
      ?strip_rstrip_strip, ?strip_each_line_idem, ?rstrip_nl_idem;
    reflexivity.
Qed.

(** ** The records of the harness *)

(** X15.  A record of [json_helper.py] is consistent in its status: the
    status is one of five texts, the [passed] flag is set exactly with
    the status [passed], the status [memory_limit] stands exactly for
    the exit code 139, [wrong_answer] exactly for an exit code 0 with a
    differing output, and the [error] field is empty exactly when the
    child exited with code 0. *)
Theorem harness_record_status
    (proc : JsonHelper.process) (elapsed_ms max_rss_kb : Z)
    (test_case : JsonHelper.TestCase.t) (timeout_sec memory_limit_kb : Z) :
  let r := JsonHelper.run_single_test proc elapsed_ms max_rss_kb test_case
             timeout_sec memory_limit_kb in
  let same_output :=
    exists returncode stdout stderr,
      proc = JsonHelper.Exited returncode stdout stderr
      /\ PyStr.strip (PyStr.strip stdout)
         = PyStr.strip (JsonHelper.TestCase.expected_output test_case) in
  JsonHelper.TestResult.status r
  ∈ ["passed"; "wrong_answer"; "timeout"; "memory_limit"; "runtime_error"]
  /\ (JsonHelper.TestResult.passed r = true <-> JsonHelper.TestResult.status r = "passed")
  /\ (JsonHelper.TestResult.status r = "memory_limit"
      <-> JsonHelper.exit_code_of proc = Some 139)
  /\ (JsonHelper.TestResult.status r = "wrong_answer"
      <-> JsonHelper.exit_code_of proc = Some 0 /\ ~ same_output)
  /\ (JsonHelper.TestResult.error r = None <-> JsonHelper.exit_code_of proc = Some 0).
Proof.
  intros r same_output. subst r same_output.
  unfold JsonHelper.run_single_test.
  destruct proc as [rc out err|out err|e]; cbn -[PyStr.take PyStr.strip].
  - destruct (Z.eqb_spec rc 124) as [->|H124].
    { cbn. split; [repeat constructor |]. repeat split; try done. by intros [[=] _]. }
    destruct (Z.eqb_spec rc 137) as [->|H137].
    { cbn. split; [repeat constructor |]. repeat split; try done. by intros [[=] _]. }
    destruct (Z.eqb_spec rc 139) as [->|H139].
    { cbn. split; [repeat constructor |]. repeat split; try done. by intros [[=] _]. }
    destruct (Z.eqb_spec rc 0) as [->|H0]; cbn -[PyStr.take PyStr.strip];
      destruct (String.eqb_spec (PyStr.strip (PyStr.strip out))
                  (PyStr.strip (JsonHelper.TestCase.expected_output test_case)))
        as [Heq|Hne];
      cbn -[PyStr.take PyStr.strip].
    + split; [repeat constructor |]. repeat split; try done; try congruence.
      intros [_ H]. destruct H. eauto.
    + split; [repeat constructor |]. repeat split; try done; try congruence.
      intros (? & ? & ? & [= <- <- <-] & ?). done.
    + split; [repeat constructor |]. repeat split; try done; try congruence.
      by intros [[=] _].
    + split; [repeat constructor |]. repeat split; try done; try congruence.
      by intros [[=] _].
  - split; [repeat constructor |]. repeat split; try done. by intros [[=] _].
  - split; [repeat constructor |]. repeat split; try done. by intros [[=] _].
Qed.

Lemma harness_record_status_witness :
  JsonHelper.TestResult.passed
    (JsonHelper.run_single_test (JsonHelper.Exited 1 "42" "boom") 5 800
       (JsonHelper.TestCase.mk "a" "" "42" None None false (Fin 1)) 5 262144)
  = true.
Proof.
  pose proof (harness_record_status (JsonHelper.Exited 1 "42" "boom") 5 800
                (JsonHelper.TestCase.mk "a" "" "42" None None false (Fin 1))
                5 262144) as H.
  cbv zeta in H. destruct H as (_ & Hpassed & _).
  apply Hpassed. reflexivity.
Defined.

(** ** The two runners of [run_tests.py] *)

(** X16.  Under either runner of [run_tests.py], a result is marked as
    passed exactly when the child ended with return code 0 (and, under
    the timed runner, the time file could be read), the measured memory
    does not exceed the limit, and the captured output, cut to 100000
    characters and stripped, is the stripped expected output. *)
Theorem runner_passed_iff
    (expected_output test_id : string) (timeout_sec memory_kb : Z) :
  (forall (proc : RunTests.process) (elapsed_ms : Z) (vm_hwm_kb : option Z),
      RunTests.Result.passed
        (RunTests.run_single_test proc elapsed_ms vm_hwm_kb expected_output test_id
           timeout_sec memory_kb) = true
      <-> exists stdout stderr,
            proc = RunTests.Exited 0 stdout stderr
            /\ get vm_hwm_kb 0 <= memory_kb
            /\ PyStr.strip (PyStr.take 100000 stdout) = PyStr.strip expected_output)
  /\ (forall proc : RunTestsDriver.process,
         RunTests.Result.passed
           (RunTestsDriver.run_with_time_command proc expected_output test_id
              timeout_sec memory_kb) = true
         <-> exists stdout stderr elapsed_ms rss kb,
               proc = RunTestsDriver.Finished 0 stdout stderr elapsed_ms rss
               /\ recorded_memory rss = Some kb /\ kb <= memory_kb
               /\ PyStr.strip (PyStr.take 100000 stdout) = PyStr.strip expected_output).
Proof.
  split.
  - intros proc elapsed_ms vm_hwm_kb. unfold RunTests.run_single_test.
    destruct proc as [rc out err|out err| |e]; cbn -[PyStr.take PyStr.strip Z.gtb].
    + destruct (Z.gtb_spec (get vm_hwm_kb 0) memory_kb) as [Hmem|Hmem];
        cbn -[PyStr.take PyStr.strip].
      { split; [discriminate |]. intros (? & ? & _ & ? & _). lia. }
      destruct (Z.eqb_spec rc 0) as [->|Hrc].
      * rewrite String.eqb_eq. split; [intros H; by eexists _, _ |].
        by intros (? & ? & [= <- <-] & _ & ?).
      * split; [discriminate |]. by intros (? & ? & [= -> _ _] & _).
    + destruct (_ >? _); cbn; (split; [discriminate | by intros (? & ? & [=] & _)]).
    + destruct (_ >? _); cbn; (split; [discriminate | by intros (? & ? & [=] & _)]).
    + destruct (_ >? _); cbn; (split; [discriminate | by intros (? & ? & [=] & _)]).
  - intros proc. unfold RunTestsDriver.run_with_time_command.
    destruct proc as [rc out err elapsed rss| |e].
    + destruct rss as [|kb|e]; cbn -[PyStr.take PyStr.strip Z.gtb].
      1, 2:
        (match goal with
         | |- context [(?k >? ?m)%Z] =>
             destruct (Z.gtb_spec k m) as [Hmem|Hmem];
             cbn -[PyStr.take PyStr.strip];
             [ split; [discriminate |];
               intros (? & ? & ? & ? & kb' & [= _ <- <- <- <-] & [= <-] & ? & _); lia
             | destruct (Z.eqb_spec rc 0) as [->|Hrc]; cbn [Z.eqb negb orb andb];
               [ rewrite String.eqb_eq; split;
                 [ intros H; by eexists _, _, _, _, k
                 | by intros (? & ? & ? & ? & ? & [= <- <- <- <-] & _ & _ & ?) ]
               | rewrite andb_false_r; split; [discriminate |];
                 by intros (? & ? & ? & ? & ? & [= -> _ _ _ _] & _) ] ]
         end).
      destruct (0 >? memory_kb)%Z; cbn; rewrite ?andb_false_r;
        (split; [discriminate |]);
        by intros (? & ? & ? & ? & ? & [= _ _ _ _ <-] & [=] & _).
    + cbn -[Z.gtb]. destruct (0 >? memory_kb)%Z; cbn;
        (split; [discriminate | by intros (? & ? & ? & ? & ? & [=] & _)]).
    + cbn -[Z.gtb]. destruct (0 >? memory_kb)%Z; cbn;
        (split; [discriminate | by intros (? & ? & ? & ? & ? & [=] & _)]).
Qed.

Lemma runner_passed_iff_witness :
  RunTests.Result.passed
    (RunTestsDriver.run_with_time_command
       (RunTestsDriver.Finished 0 "42 " "" 15 (RunTestsDriver.RssValue 900))
       "42" "a" 5 262144) = true.
Proof.
  apply (proj2 (runner_passed_iff "42" "a" 5 262144)).
  exists "42 ", "", 15, (RunTestsDriver.RssValue 900), 900.
  split; [reflexivity |]. split; [reflexivity |]. split; [discriminate | reflexivity].
Defined.

(** ** The loop of [run_tests.py] *)

Lemma run_cases_cons env timeout_sec memory_kb i test_case rest :
  RunTestsDriver.run_cases env timeout_sec memory_kb i (test_case :: rest)
  = result_at env timeout_sec memory_kb i test_case
    :: (if stops_after env timeout_sec memory_kb i test_case then []
        else RunTestsDriver.run_cases env timeout_sec memory_kb (S i) rest).
Proof.
  unfold stops_after, result_at. cbn [RunTestsDriver.run_cases].
  destruct (RunTestsDriver.has_time_command env).
  - by destruct (_ && _).
  - destruct (RunTestsDriver.plain_process env i) as [[proc elapsed] hwm]. simpl.
    by destruct (_ && _).
Qed.

Lemma run_cases_prefix env timeout_sec memory_kb (test_cases : list RunTestsDriver.TestCase.t) :
  forall start,
  exists n,
    (n <= length test_cases)%nat
    /\ RunTestsDriver.run_cases env timeout_sec memory_kb start test_cases
       = imap (fun i => result_at env timeout_sec memory_kb (start + i))
           (take n test_cases)
    /\ (forall i tc, (S i < n)%nat -> test_cases !! i = Some tc ->
                     stops_after env timeout_sec memory_kb (start + i) tc = false)
    /\ ((n < length test_cases)%nat ->
        exists i tc, n = S i /\ test_cases !! i = Some tc
                     /\ stops_after env timeout_sec memory_kb (start + i) tc = true).
Proof.
  induction test_cases as [|tc rest IH]; intros start.
  - exists 0%nat. repeat split; [done | | simpl; lia].
    intros i tc' Hi. lia.
  - rewrite run_cases_cons.
    destruct (stops_after env timeout_sec memory_kb start tc) eqn:Hstop.
    + exists 1%nat. split; [simpl; lia |]. split.
      { simpl. by rewrite Nat.add_0_r. }
      split; [intros i tc' Hi; lia |].
      intros _. exists 0%nat, tc. rewrite Nat.add_0_r. done.
    + destruct (IH (S start)) as (n & Hn & Hres & Hbefore & Hlast).
      exists (S n). split; [simpl; lia |]. split.
      { simpl. rewrite Nat.add_0_r, Hres. f_equal.
        apply imap_ext. intros i x _. simpl. f_equal. lia. }
      split.
      * intros [|i] tc' Hi Hlook; simpl in Hlook.
        -- injection Hlook as <-. by rewrite Nat.add_0_r.
        -- replace (start + S i)%nat with (S start + i)%nat by lia.
           apply Hbefore; [lia | done].
      * intros Hlt. destruct Hlast as (i & tc' & -> & Hlook & Hstops); [simpl in Hlt; lia |].
        exists (S i), tc'. repeat split; [done |].
        by replace (start + S i)%nat with (S start + i)%nat by lia.
Qed.

(** X17.  The loop of [run_tests.py] reports the results of the first
    [n] test cases, in order: it goes through all test cases unless a
    test case that asks to stop on failure fails, and then the result of
    that test case is the last one reported.  Without such a test case
    there is one result per test case. *)
Theorem run_cases_stop_on_failure
    (env : RunTestsDriver.environment) (timeout_sec memory_kb : Z)
    (test_cases : list RunTestsDriver.TestCase.t) :
  let results := RunTestsDriver.run_cases env timeout_sec memory_kb 0 test_cases in
  (exists n,
      (n <= length test_cases)%nat
      /\ results = imap (result_at env timeout_sec memory_kb) (take n test_cases)
      /\ (forall i tc, (S i < n)%nat -> test_cases !! i = Some tc ->
                       stops_after env timeout_sec memory_kb i tc = false)
      /\ ((n < length test_cases)%nat ->
          exists i tc, n = S i /\ test_cases !! i = Some tc
                       /\ stops_after env timeout_sec memory_kb i tc = true))
  /\ ((forall i tc, test_cases !! i = Some tc ->
                    stops_after env timeout_sec memory_kb i tc = false) ->
      results = imap (result_at env timeout_sec memory_kb) test_cases).
Proof.
  intros results. subst results.
  destruct (run_cases_prefix env timeout_sec memory_kb test_cases 0%nat)
    as (n & Hn & Hres & Hbefore & Hlast).
  split.
  - exists n. repeat split; try done.
  - intros Hnever. rewrite Hres.
    destruct (Nat.lt_ge_cases n (length test_cases)) as [Hlt | Hge].
    + destruct (Hlast Hlt) as (i & tc & -> & Hlook & Hstops).
      change (0 + i)%nat with i in Hstops.
      rewrite (Hnever i tc Hlook) in Hstops. discriminate.
    + by rewrite firstn_all2.
Qed.

Lemma run_cases_stop_on_failure_witness :
  let test_cases :=
    [RunTestsDriver.TestCase.mk (Some "a") None (Some "42") None (Some true);
     RunTestsDriver.TestCase.mk None None None (Some "7") None] in
  map RunTests.Result.testId
    (RunTestsDriver.run_cases sample_environment 5 262144 0 test_cases)
  = ["a"; "test-2"].
Proof.
  intros test_cases.
  rewrite (proj2 (run_cases_stop_on_failure sample_environment 5 262144 test_cases)).
  - reflexivity.
  - intros [|[|i]] tc; simpl; intros [= <-]; reflexivity.
Defined.

(** ** The special-judge program [exact_match.py] *)

Lemma rstrip_by_weaker (p q : ascii -> bool) text :
  (forall c, p c = true -> q c = true) ->
  PyStr.rstrip_by p (PyStr.rstrip_by q text) = PyStr.rstrip_by q text.
Proof.
  intros Hpq. induction text as [|c text IH]; [reflexivity |].
  cbn [PyStr.rstrip_by].
  destruct (PyStr.rstrip_by q text) as [|d r] eqn:Hr.
  - destruct (q c) eqn:Hq; [reflexivity |].
    cbn [PyStr.rstrip_by]. destruct (p c) eqn:Hp; [| reflexivity].
    rewrite (Hpq c Hp) in Hq. discriminate.
  - change (PyStr.rstrip_by p (String c (String d r)))
      with (match PyStr.rstrip_by p (String d r) with
            | EmptyString => if p c then EmptyString else String c EmptyString
            | String x y => String c (String x y)
            end).
    by rewrite IH.
Qed.

Lemma rstrip_by_app p (a b : string) :
  PyStr.rstrip_by p (a ++ b)
  = match PyStr.rstrip_by p b with
    | EmptyString => PyStr.rstrip_by p a
    | String d r => a ++ String d r
    end.
Proof.
  induction a as [|c a IH].
  - change ("" ++ b) with b.
    destruct (PyStr.rstrip_by p b); reflexivity.
  - change (String c a ++ b) with (String c (a ++ b)).
    cbn [PyStr.rstrip_by]. rewrite IH.
    destruct (PyStr.rstrip_by p b) as [|d r]; [reflexivity |].
    by destruct a.
Qed.

Lemma pop_trailing_empty_join lines :
  PyStr.join (String PyStr.nl "") (ExactMatchJudge.pop_trailing_empty lines) = ""
  -> ExactMatchJudge.pop_trailing_empty lines = [].
Proof.
  induction lines as [|l ls IH]; [done |].
  cbn [ExactMatchJudge.pop_trailing_empty].
  destruct (ExactMatchJudge.pop_trailing_empty ls) as [|k ks].
  - destruct (String.eqb_spec l ""); [done |].
    simpl. intros ->. done.
  - cbn [PyStr.join]. destruct l; simpl; discriminate.
Qed.

Lemma rstrip_nl_join lines :
  Forall (fun l => PyStr.rstrip_chars PyStr.nl l = l) lines ->
  PyStr.rstrip_chars PyStr.nl (PyStr.join (String PyStr.nl "") lines)
  = PyStr.join (String PyStr.nl "") (ExactMatchJudge.pop_trailing_empty lines).
Proof.
  induction 1 as [|l ls Hl Hls IH]; [reflexivity |].
  destruct ls as [|y ys].
  - simpl. rewrite Hl. by destruct (String.eqb_spec l "") as [-> |].
  - change (PyStr.join (String PyStr.nl "") (l :: y :: ys))
      with (l ++ String PyStr.nl (PyStr.join (String PyStr.nl "") (y :: ys))).
    unfold PyStr.rstrip_chars in *. rewrite rstrip_by_app.
    cbn [PyStr.rstrip_by]. rewrite IH.
    cbn [ExactMatchJudge.pop_trailing_empty].
    fold (ExactMatchJudge.pop_trailing_empty (y :: ys)).
    destruct (PyStr.join (String PyStr.nl "")
                (ExactMatchJudge.pop_trailing_empty (y :: ys))) as [|d r] eqn:Hj.
    + apply pop_trailing_empty_join in Hj.
      cbn [ExactMatchJudge.pop_trailing_empty] in Hj. rewrite Hj.
      rewrite Ascii.eqb_refl, Hl.
      by destruct (String.eqb_spec l "") as [-> |].
    + cbn [ExactMatchJudge.pop_trailing_empty] in Hj.
      destruct (match ExactMatchJudge.pop_trailing_empty ys with
                | [] => if String.eqb y "" then [] else [y]
                | k :: ks => y :: k :: ks
                end) as [|z zs] eqn:Hpop; [discriminate |].
      change (PyStr.join (String PyStr.nl "") (l :: z :: zs))
        with (l ++ String PyStr.nl (PyStr.join (String PyStr.nl "") (z :: zs))).
      rewrite Hj. reflexivity.
Qed.

Lemma exact_match_judge_normalize text :
  ExactMatchJudge.normalize text
  = Comparator.normalize (Some text) ProblemConfig.default.
Proof.
  unfold ExactMatchJudge.normalize, Comparator.normalize. simpl.
  symmetry. apply rstrip_nl_join.
  apply Forall_map, Forall_forall. intros l _. simpl.
  apply rstrip_by_weaker. intros c Hc.
  apply Ascii.eqb_eq in Hc. by subst c.
Qed.

(** X18.  The special-judge program [exact_match.py] decides as the
    built-in exact comparison does under the default configuration: its
    [normalize] is the built-in normalisation, and when both files are
    read the program ends with exit code 0, reports AC with score 1 if
    the built-in comparison accepts the two texts and WA with score 0
    otherwise, with the text of the built-in comparison as its message. *)
Theorem exact_match_judge_agrees_with_builtin
    (argc : nat) (expected actual : string) :
  ExactMatchJudge.normalize expected
  = Comparator.normalize (Some expected) ProblemConfig.default
  /\ ((4 <= argc)%nat ->
      let report := ExactMatchJudge.main argc (inr expected) (inr actual) in
      let builtin := Comparator.exact_match expected actual ProblemConfig.default in
      report.2 = 0
      /\ JudgeReport.verdict report.1 = (if builtin.1 then "AC" else "WA")
      /\ JudgeReport.passed report.1 = Some builtin.1
      /\ JudgeReport.score report.1 = (if builtin.1 then Fin 1 else Fin 0)
      /\ builtin_text builtin.2 = Some (JudgeReport.message report.1)).
Proof.
  split; [apply exact_match_judge_normalize |].
  intros Hargc report builtin. subst report builtin.
  unfold ExactMatchJudge.main, Comparator.exact_match.
  destruct (Nat.ltb_spec argc 4) as [Hlt | _]; [lia |].
  cbv zeta. rewrite !exact_match_judge_normalize.
  set (e := Comparator.normalize (Some expected) ProblemConfig.default).
  set (a := Comparator.normalize (Some actual) ProblemConfig.default).
  destruct (String.eqb_spec e a) as [Heq | Hne]; [by repeat split |].
  destruct (negb _) eqn:Hlen; [by repeat split |].
  destruct (Comparator.first_diff Comparator.str_neqb 0 _ _) as [i|] eqn:Hdiff;
    [by repeat split |].
  exfalso. apply Hne.
  apply negb_false_iff, Nat.eqb_eq in Hlen.
  pose proof (first_diff_none_eq _ _ 0%nat Hlen Hdiff) as Hlines.
  rewrite <- (join_split_on e), <- (join_split_on a). by rewrite Hlines.
Qed.

Lemma exact_match_judge_agrees_with_builtin_witness :
  JudgeReport.verdict
    (ExactMatchJudge.main 5 (inr ("1 2  " ++ String PyStr.nl "")) (inr "1 2")).1
  = "AC".
Proof.
  pose proof (proj2 (exact_match_judge_agrees_with_builtin 5
                       ("1 2  " ++ String PyStr.nl "") "1 2")) as H.
  destruct (H ltac:(lia)) as (_ & Hverdict & _).
  rewrite Hverdict. reflexivity.
Defined.

(** ** The special-judge program [float_tolerance.py] *)

Lemma split_ws_lstrip text :
  PyStr.split_ws (PyStr.lstrip_by PyStr.isspace text) = PyStr.split_ws text.
Proof.
  induction text as [|c text IH]; [reflexivity |].
  cbn [PyStr.lstrip_by]. destruct (PyStr.isspace c) eqn:Hc; [| reflexivity].
  by rewrite IH, (split_ws_cons c text), Hc.
Qed.

Lemma split_ws_strip text : PyStr.split_ws (PyStr.strip text) = PyStr.split_ws text.
Proof.
  unfold PyStr.strip. rewrite split_ws_rstrip_by by done. apply split_ws_lstrip.
Qed.

(** X19.  The special-judge program [float_tolerance.py], once both
    files are read, always ends with exit code 0.  It reports IE exactly
    when a token of the expected text is not a float, whatever the
    contestant printed; it reports AC, with score 1, exactly when both
    texts parse to the same number of values and [is_close] holds for
    each pair; otherwise it reports WA.  The score is 0 unless the
    verdict is AC.  With the default tolerances, what it accepts the
    built-in float comparison at its default tolerance accepts too. *)
Theorem float_tolerance_judge_verdict
    (argc : nat) (expected actual : string) :
  (4 <= argc)%nat ->
  let report := FloatToleranceJudge.main argc (inr expected) (inr actual) in
  let verdict := JudgeReport.verdict report.1 in
  report.2 = 0
  /\ (verdict = "AC" \/ verdict = "WA" \/ verdict = "IE")
  /\ (verdict = "IE"
      <-> exists bad, Comparator.parse_floats (PyStr.split_ws expected) = inl bad)
  /\ (verdict = "AC"
      <-> exists exp_values act_values,
            Comparator.parse_floats (PyStr.split_ws expected) = inr exp_values
            /\ Comparator.parse_floats (PyStr.split_ws actual) = inr act_values
            /\ Forall2 (fun e a => FloatTolerance.is_close e a = true)
                 exp_values act_values)
  /\ JudgeReport.score report.1 = (if String.eqb verdict "AC" then Fin 1 else Fin 0)
  /\ (verdict = "AC" ->
      (Comparator.float_match expected actual ProblemConfig.default).1 = true).
Proof.
  intros Hargc report verdict. subst verdict report.
  unfold FloatToleranceJudge.main, FloatToleranceJudge.parse_floats,
    Comparator.float_match.
  destruct (Nat.ltb_spec argc 4) as [Hlt | _]; [lia |].
  cbv zeta. rewrite !split_ws_strip.
  destruct (Comparator.parse_floats (PyStr.split_ws expected)) as [bad|exp_values].
  { cbn. repeat split; eauto; try discriminate.
    intros (? & ? & [=] & _). }
  destruct (Comparator.parse_floats (PyStr.split_ws actual)) as [bad|act_values].
  { cbn. repeat split; eauto; try discriminate.
    - intros [? [=]].
    - intros (? & ? & _ & [=] & _). }
  destruct (Nat.eqb_spec (length exp_values) (length act_values)) as [Hlen | Hlen];
    cbn [negb].
  2:{ cbn. repeat split; eauto; try discriminate.
      - intros [? [=]].
      - intros (? & ? & [= <-] & [= <-] & Hall).
        by apply Forall2_length in Hall. }
  pose proof (first_diff_none_iff FloatToleranceJudge.not_close
                exp_values act_values Hlen 0%nat) as Hnone.
  assert (Hpairs : forall P : pyfloat -> pyfloat -> Prop,
             (forall e a, FloatTolerance.is_close e a = true -> P e a) ->
             Forall2 (fun e a => FloatToleranceJudge.not_close e a = false)
               exp_values act_values ->
             Forall2 P exp_values act_values).
  { intros P HP H. eapply Forall2_impl; [exact H |].
    intros e a Hea. apply HP. by apply negb_false_iff in Hea. }
  destruct (Comparator.first_diff FloatToleranceJudge.not_close 0 _ _) as [i|].
  - cbn. repeat split; eauto; try discriminate.
    + intros [? [=]].
    + intros (? & ? & [= <-] & [= <-] & Hall).
      assert (Hno : Forall2 (fun e a => FloatToleranceJudge.not_close e a = false)
                      exp_values act_values).
      { eapply Forall2_impl; [exact Hall |]. intros e a Hea.
        unfold FloatToleranceJudge.not_close. by rewrite Hea. }
      apply Hnone in Hno. discriminate.
  - assert (Hall : Forall2 (fun e a => FloatToleranceJudge.not_close e a = false)
                     exp_values act_values) by by apply Hnone.
    cbn [fst snd JudgeReport.verdict JudgeReport.score String.eqb Ascii.eqb].
    repeat split; eauto; try discriminate.
    + intros [? [=]].
    + intros _. exists exp_values, act_values. repeat split; try done.
      by apply Hpairs.
    + intros _.
      assert (Hin : Comparator.first_diff
                      (Comparator.out_of_tolerance
                         (ProblemConfig.float_tolerance ProblemConfig.default))
                      0 exp_values act_values = None).
      { apply (first_diff_none_iff _ _ _ Hlen).
        apply Hpairs; [| done]. apply is_close_within_tolerance. }
      by rewrite Hin.
Qed.

Lemma float_tolerance_judge_verdict_witness :
  (Comparator.float_match "1000 nan" " 1000.0001 nan " ProblemConfig.default).1 = true.
Proof.
  assert (Hargc : (4 <= 5)%nat) by lia.
  destruct (float_tolerance_judge_verdict 5 "1000 nan" " 1000.0001 nan " Hargc)
    as (_ & _ & _ & _ & _ & Hbuiltin).
  apply Hbuiltin. by vm_compute.
Defined.

(** ** The special-judge program [partial_score.py] *)

Lemma round4_bounds q :
  (0 <= q <= 1)%Q ->
  (0 <= PartialScoreJudge.round4 q <= 1)%Q.
Proof.
  intros [Hlo Hhi]. unfold PartialScoreJudge.round4. rewrite Qred_correct.
  assert (H1 : PyFloat.round_half_even (inject_Z 0)
               <= PyFloat.round_half_even (q * 10000)).
  { apply round_half_even_mono. change (inject_Z 0) with 0%Q. lra. }
  assert (H2 : PyFloat.round_half_even (q * 10000)
               <= PyFloat.round_half_even (inject_Z 10000)).
  { apply round_half_even_mono. change (inject_Z 10000) with 10000%Q. lra. }
  rewrite round_half_even_Z in H1, H2.
  rewrite Zle_Qle in H1, H2.
  change (inject_Z 0) with 0%Q in *. change (inject_Z 10000) with 10000%Q in *.
  set (r := inject_Z (PyFloat.round_half_even (q * 10000))) in *.
  split.
  - apply Qle_shift_div_l; [reflexivity | lra].
  - apply Qle_shift_div_r; [reflexivity | lra].
Qed.

Lemma round4_one q : (q == 1)%Q -> PartialScoreJudge.round4 q = 1%Q.
Proof.
  intros Hq. unfold PartialScoreJudge.round4.
  assert (H1 : PyFloat.round_half_even (inject_Z 10000)
               <= PyFloat.round_half_even (q * 10000)).
  { apply round_half_even_mono. change (inject_Z 10000) with 10000%Q. lra. }
  assert (H2 : PyFloat.round_half_even (q * 10000)
               <= PyFloat.round_half_even (inject_Z 10000)).
  { apply round_half_even_mono. change (inject_Z 10000) with 10000%Q. lra. }
  rewrite round_half_even_Z in H1, H2.
  assert (Hr : PyFloat.round_half_even (q * 10000) = 10000%Z) by lia.
  rewrite Hr. by vm_compute.
Qed.

Lemma count_correct_le expected_lines : forall actual_lines i,
  ((PartialScoreJudge.count_correct i expected_lines actual_lines).1
   <= length expected_lines)%nat.
Proof.
  induction expected_lines as [|e es IH]; intros [|a acts] i; simpl; try lia.
  specialize (IH acts (S i)).
  destruct (PartialScoreJudge.count_correct (S i) es acts) as [c w].
  destruct (String.eqb e a); simpl in *; lia.
Qed.

(** All pairs are equal exactly when the expected lines are the first
    of the actual lines. *)
Lemma count_correct_all expected_lines : forall actual_lines i,
  (PartialScoreJudge.count_correct i expected_lines actual_lines).1
  = length expected_lines
  <-> take (length expected_lines) actual_lines = expected_lines.
Proof.
  induction expected_lines as [|e es IH]; intros [|a acts] i; simpl; try done.
  pose proof (count_correct_le es acts (S i)) as Hle.
  specialize (IH acts (S i)).
  destruct (PartialScoreJudge.count_correct (S i) es acts) as [c w].
  destruct (String.eqb_spec e a) as [-> | Hne]; simpl in *.
  - rewrite Nat.succ_inj_wd, IH. split; [by intros -> | by intros [= ->]].
  - split; [lia | intros [= -> _]; done].
Qed.

Lemma read_lines_nonempty text :
  Forall (fun line => line <> "") (PartialScoreJudge.read_lines text).
Proof.
  unfold PartialScoreJudge.read_lines. apply Forall_map, Forall_forall.
  intros line Hin%list_elem_of_In%filter_In. destruct Hin as [_ Hne].
  simpl. by destruct (String.eqb_spec (PyStr.strip line) "").
Qed.

Lemma padded_equal expected_lines actual_lines :
  Forall (fun line => line <> "") expected_lines ->
  PartialScoreJudge.pad actual_lines (length expected_lines) = expected_lines
  <-> actual_lines = expected_lines.
Proof.
  intros Hne. unfold PartialScoreJudge.pad. split.
  - intros Heq.
    destruct (replicate (length expected_lines - length actual_lines) "")
      as [|x xs] eqn:Hrep.
    + by rewrite app_nil_r in Heq.
    + exfalso.
      assert (Hx : x = "").
      { apply (elem_of_replicate
                 (length expected_lines - length actual_lines) "" x).
        rewrite Hrep. left. }
      subst x. rewrite <- Heq in Hne.
      apply Forall_app in Hne as [_ Hne]. by inversion Hne.
  - intros ->. by rewrite Nat.sub_diag, app_nil_r.
Qed.

(** X20.  The special-judge program [partial_score.py], once both files
    are read, ends with exit code 0 and reports AC or WA.  It reports
    AC exactly when the two files hold the same stripped non-empty
    lines; the score is then 1.  In every case the score lies between 0
    and 1. *)
Theorem partial_score_judge_verdict
    (argc : nat) (expected actual : string) :
  (4 <= argc)%nat ->
  let report := PartialScoreJudge.main argc (inr expected) (inr actual) in
  let verdict := JudgeReport.verdict report.1 in
  report.2 = 0
  /\ (verdict = "AC" \/ verdict = "WA")
  /\ (verdict = "AC"
      <-> PartialScoreJudge.read_lines actual = PartialScoreJudge.read_lines expected)
  /\ (exists q, JudgeReport.score report.1 = Fin q /\ (0 <= q <= 1)%Q
                /\ (verdict = "AC" -> q = 1%Q)).
Proof.
  intros Hargc report verdict. subst verdict report.
  unfold PartialScoreJudge.main.
  destruct (Nat.ltb_spec argc 4) as [Hlt | _]; [lia |].
  cbv zeta.
  pose proof (read_lines_nonempty expected) as Hne.
  set (exp_lines := PartialScoreJudge.read_lines expected) in *.
  set (act_lines := PartialScoreJudge.read_lines actual) in *.
  destruct (Nat.eqb_spec (length exp_lines) 0) as [Hempty | Hsome].
  { apply nil_length_inv in Hempty. rewrite Hempty.
    destruct (Nat.eqb_spec (length act_lines) 0) as [Hact | Hact].
    - apply nil_length_inv in Hact. rewrite Hact. cbn.
      repeat split; eauto. exists 1%Q. repeat split; by vm_compute.
    - cbn. repeat split; eauto; try discriminate.
      + intros Heq. rewrite Heq in Hact. done.
      + exists 0%Q. repeat split; by vm_compute. }
  pose proof (count_correct_le exp_lines
                (PartialScoreJudge.pad act_lines (length exp_lines)) 0) as Hle.
  pose proof (count_correct_all exp_lines
                (PartialScoreJudge.pad act_lines (length exp_lines)) 0) as Hall.
  pose proof (padded_equal exp_lines act_lines Hne) as Hpad.
  assert (Hlen : (length exp_lines
                  <= length (PartialScoreJudge.pad act_lines (length exp_lines)))%nat).
  { unfold PartialScoreJudge.pad. rewrite length_app, length_replicate. lia. }
  set (padded := PartialScoreJudge.pad act_lines (length exp_lines)) in *.
  destruct (PartialScoreJudge.count_correct 0 exp_lines padded) as [correct wrong].
  cbn [fst] in Hle, Hall.
  set (total := length exp_lines) in *.
  set (extra := Z.of_nat (length padded) - Z.of_nat total).
  assert (Hunit : (0 <= inject_Z (Z.of_nat correct) / inject_Z (Z.of_nat total) <= 1)%Q).
  { assert (Ht : (0 < inject_Z (Z.of_nat total))%Q).
    { change 0%Q with (inject_Z 0). rewrite <- Zlt_Qlt. lia. }
    split.
    - apply Qle_shift_div_l; [done |].
      assert (Hc : (inject_Z 0 <= inject_Z (Z.of_nat correct))%Q)
        by (rewrite <- Zle_Qle; lia).
      change (inject_Z 0) with 0%Q in Hc. lra.
    - apply Qle_shift_div_r; [done |].
      assert (Hc : (inject_Z (Z.of_nat correct) <= inject_Z (Z.of_nat total))%Q)
        by (rewrite <- Zle_Qle; lia).
      lra. }
  set (ratio := (inject_Z (Z.of_nat correct) / inject_Z (Z.of_nat total))%Q) in *.
  set (score := if extra >? 0
                then if PyFloat.Qltb 0 (ratio - (1 # 10) * inject_Z extra)
                     then (ratio - (1 # 10) * inject_Z extra)%Q else 0%Q
                else ratio).
  assert (Hscore : (0 <= score <= 1)%Q).
  { subst score. destruct (Z.gtb_spec extra 0) as [Hextra | Hextra]; [| done].
    destruct (PyFloat.Qltb 0 _) eqn:Hlow; [| lra].
    apply Qltb_lt in Hlow.
    assert (He : (inject_Z 0 < inject_Z extra)%Q) by (rewrite <- Zlt_Qlt; lia).
    change (inject_Z 0) with 0%Q in He. lra. }
  assert (Hiff : (correct =? total)%nat && (extra =? 0)%Z = true
                 <-> act_lines = exp_lines).
  { rewrite andb_true_iff, Nat.eqb_eq, Z.eqb_eq, Hall, <- Hpad. split.
    - intros [Htake Hextra]. rewrite firstn_all2 in Htake by (subst extra; lia).
      done.
    - intros Heq. split; [rewrite Heq; apply firstn_all |].
      subst extra. rewrite Heq. subst total. lia. }
  destruct ((correct =? total)%nat && (extra =? 0)%Z) eqn:Hac.
  - apply andb_true_iff in Hac as [Hcorrect%Nat.eqb_eq Hextra%Z.eqb_eq].
    cbn [fst snd JudgeReport.verdict JudgeReport.score].
    repeat split; eauto.
    + intros _. by apply Hiff.
    + exists (PartialScoreJudge.round4 score).
      split; [done |]. split; [by apply round4_bounds |]. intros _.
      subst score. rewrite Hextra. cbn [Z.gtb Z.compare].
      apply round4_one. subst ratio. rewrite Hcorrect.
      apply Qmult_inv_r. intros Hz.
      assert (Hz' : (inject_Z (Z.of_nat total) == inject_Z 0)%Q) by exact Hz.
      rewrite inject_Z_injective in Hz'. lia.
  - assert (Hdiff : act_lines <> exp_lines).
    { intros Heq. apply Hiff in Heq. discriminate. }
    destruct (PyFloat.Qltb 0 score);
      cbn [fst snd JudgeReport.verdict JudgeReport.score];
      (repeat split; eauto; try discriminate; try done;
       exists (PartialScoreJudge.round4 score);
       split; [done |]; split; [by apply round4_bounds | discriminate]).
Qed.

Lemma partial_score_judge_verdict_witness :
  let expected := "1" ++ String PyStr.nl "2" ++ String PyStr.nl "" in
  let actual := " 1 " ++ String PyStr.nl (String PyStr.nl "2") in
  JudgeReport.verdict (PartialScoreJudge.main 5 (inr expected) (inr actual)).1 = "AC".
Proof.
  intros expected actual.
  assert (Hargc : (4 <= 5)%nat) by lia.
  destruct (partial_score_judge_verdict 5 expected actual Hargc)
    as (_ & _ & Hiff & _).
  apply Hiff. by vm_compute.
Defined.

(** ** The summary of [json_helper.py] *)











(** ** The two shapes of the test-case document *)

Lemma camel_limit_fallback (snake camel : option (option Z)) :
  get snake (get camel None) = get snake None <-> ~ camel_limit_read snake camel.
Proof.
  unfold camel_limit_read.
  destruct snake as [s|], camel as [[v|]|]; simpl; split; intros H;
    try done; try (intros [? [? ?]]; congruence);
    try (exfalso; apply H; eauto).
Qed.

(** X22.  A test-case array is loaded in the same way whether it is the
    whole document or the [test_cases] entry of an object, except for
    the limits: the two loads agree exactly when no test case gives a
    limit by its camelCase key only, which only the first shape reads. *)
Theorem load_test_cases_shapes_agree
    (test_list : list JsonHelperSuite.RawTestCase.t) :
  JsonHelperSuite.load_test_cases (JsonHelperSuite.DocArray test_list)
  = JsonHelperSuite.load_test_cases (JsonHelperSuite.DocObject (Some test_list))
  <-> Forall camel_limits_unused test_list.
Proof.
  unfold JsonHelperSuite.load_test_cases, JsonHelperSuite.load_test_cases_from_list.
  split.
  - intros Heq. apply Forall_lookup. intros i tc Hi.
    assert (Hat := f_equal (fun l => l !! i) Heq). simpl in Hat.
    rewrite !list_lookup_imap, Hi in Hat. simpl in Hat.
    injection Hat as Htime Hmem.
    split; by apply camel_limit_fallback.
  - intros Hall. apply imap_ext. intros i tc Hi.
    destruct (proj1 (Forall_lookup _ _) Hall i tc Hi) as [Htime Hmem].
    apply camel_limit_fallback in Htime, Hmem. by rewrite Htime, Hmem.
Qed.

Lemma load_test_cases_shapes_agree_witness :
  let test_list :=
    [JsonHelperSuite.RawTestCase.mk (Some "a") None (Some "42") None
       (Some (Some 2000)) (Some (Some 3000)) None (Some None) None None] in
  JsonHelperSuite.load_test_cases (JsonHelperSuite.DocArray test_list)
  = JsonHelperSuite.load_test_cases (JsonHelperSuite.DocObject (Some test_list)).
Proof.
  intros test_list.
  apply (proj2 (load_test_cases_shapes_agree test_list)).
  repeat constructor; intros [Hsnake [v Hcamel]]; discriminate.
Defined.

(** ** From the harness to the judge *)

Lemma exact_match_same text config :
  (Comparator.exact_match text text config).1 = true.
Proof. unfold Comparator.exact_match. by rewrite String.eqb_refl. Qed.

Lemma token_match_same text config :
  (Comparator.token_match text text config).1 = true.
Proof.
  unfold Comparator.token_match, Comparator.list_str_eqb.
  destruct (negb (ProblemConfig.case_sensitive config)); simpl;
    by rewrite bool_decide_eq_true_2.
Qed.

Lemma judge_test_case_builtin launch self tr expected :
  classified_by_status tr = false ->
  Judge.selected_special_judge self = None ->
  TestCaseVerdict.verdict (Judge.judge_test_case launch self tr expected)
  = if (if String.eqb (ProblemConfig.comparison_mode (Judge.config self)) "token"
        then Comparator.token_match (case_expected tr expected) (case_actual tr)
               (Judge.config self)
        else if String.eqb (ProblemConfig.comparison_mode (Judge.config self)) "float"
        then Comparator.float_match (case_expected tr expected) (case_actual tr)
               (Judge.config self)
        else Comparator.exact_match (case_expected tr expected) (case_actual tr)
               (Judge.config self)).1
    then AC else WA.
Proof.
  unfold classified_by_status, timed_out, Judge.judge_test_case,
    case_expected, case_actual.
  intros Hcl Hsel. rewrite Hsel.
  destruct (String.eqb (get (TestRecord.status tr) "") "timeout"
            || get (TestRecord.timedOut tr) false); [discriminate |].
  destruct (String.eqb (get (TestRecord.status tr) "") "memory_limit"); [discriminate |].
  destruct (String.eqb (get (TestRecord.status tr) "") "runtime_error"); [discriminate |].
  match goal with
  | |- context [if String.eqb ?m "token" then ?a else ?b] =>
      destruct (if String.eqb m "token" then a else b) as [passed message]
  end.
  reflexivity.
Qed.

(** The status of a record of the harness, by the exit code. *)
Lemma harness_status_by_exit_code
    (proc : JsonHelper.process) (elapsed_ms max_rss_kb : Z)
    (test_case : JsonHelper.TestCase.t) (timeout_sec memory_limit_kb : Z) :
  let r := JsonHelper.run_single_test proc elapsed_ms max_rss_kb test_case
             timeout_sec memory_limit_kb in
  (JsonHelper.TestResult.status r = "timeout"
   <-> JsonHelper.exit_code_of proc = Some 124 \/ JsonHelper.exit_code_of proc = Some 137)
  /\ (JsonHelper.TestResult.status r = "memory_limit"
      <-> JsonHelper.exit_code_of proc = Some 139)
  /\ (JsonHelper.exit_code_of proc = Some 0 ->
      (JsonHelper.TestResult.status r = "passed"
       \/ JsonHelper.TestResult.status r = "wrong_answer")
      /\ (JsonHelper.TestCase.hidden test_case = true ->
          JsonHelper.TestResult.expected_output r = "[hidden]"
          /\ JsonHelper.TestResult.actual_output r = "[hidden]")).
Proof.
  intros r. subst r. unfold JsonHelper.run_single_test.
  destruct proc as [rc out err|out err|e]; cbn -[PyStr.take PyStr.strip].
  - destruct (Z.eqb_spec rc 124) as [->|H124]; [cbn; harness_cases |].
    destruct (Z.eqb_spec rc 137) as [->|H137]; [cbn; harness_cases |].
    destruct (Z.eqb_spec rc 139) as [->|H139]; [cbn; harness_cases |].
    destruct (Z.eqb_spec rc 0) as [->|H0]; cbn -[PyStr.take PyStr.strip];
      destruct (String.eqb (PyStr.strip (PyStr.strip out))
                  (PyStr.strip (JsonHelper.TestCase.expected_output test_case)));
      cbn -[PyStr.take PyStr.strip]; harness_cases.
  - harness_cases.
  - harness_cases.
Qed.

(** X23.  A record written by [json_helper.py] and read by the judge is
    judged by the exit code of the child first: TLE exactly for the exit
    codes 124 and 137 (and a [communicate] timeout), MLE exactly for the
    exit code 139, RE exactly for a record of status [runtime_error].
    A hidden test case whose child exits with code 0 is judged AC by the
    exact and the token comparison when no expected output is supplied
    to the judge, whatever the child printed: the record holds the
    placeholder for both texts. *)
Theorem harness_record_verdict
    (render : JsonHelper.error_text -> string)
    (launch : SpecialJudge.launcher) (self : Judge.t)
    (proc : JsonHelper.process) (elapsed_ms max_rss_kb : Z)
    (test_case : JsonHelper.TestCase.t) (timeout_sec memory_limit_kb : Z)
    (expected : option string) :
  let r := JsonHelper.run_single_test proc elapsed_ms max_rss_kb test_case
             timeout_sec memory_limit_kb in
  let verdict :=
    TestCaseVerdict.verdict
      (Judge.judge_test_case launch self (JsonHelperSuite.record_of render r) expected) in
  (verdict = TLE
   <-> JsonHelper.exit_code_of proc = Some 124 \/ JsonHelper.exit_code_of proc = Some 137)
  /\ (verdict = MLE <-> JsonHelper.exit_code_of proc = Some 139)
  /\ (verdict = RE <-> JsonHelper.TestResult.status r = "runtime_error")
  /\ (JsonHelper.TestCase.hidden test_case = true ->
      JsonHelper.exit_code_of proc = Some 0 ->
      expected = None ->
      Judge.special_judge self = None ->
      ProblemConfig.comparison_mode (Judge.config self) <> "float" ->
      verdict = AC).
Proof.
  intros r verdict.
  pose proof (judge_test_case_cases launch self (JsonHelperSuite.record_of render r)
                expected) as Hcases.
  fold verdict in Hcases.
  pose proof (judge_test_case_builtin launch self (JsonHelperSuite.record_of render r)
                expected) as Hbuiltin.
  fold verdict in Hbuiltin.
  unfold classified_by_status, timed_out, case_expected, case_actual in Hcases, Hbuiltin.
  cbn [JsonHelperSuite.record_of TestRecord.status TestRecord.timedOut
       TestRecord.expected_output TestRecord.actual_output get] in Hcases, Hbuiltin.
  rewrite !orb_false_r in Hcases, Hbuiltin.
  destruct (harness_status_by_exit_code proc elapsed_ms max_rss_kb test_case
              timeout_sec memory_limit_kb) as (Htimeout & Hmemory & Hzero).
  fold r in Htimeout, Hmemory, Hzero.
  set (status := JsonHelper.TestResult.status r) in *.
  assert (Hverdicts :
    (verdict = TLE <-> status = "timeout")
    /\ (verdict = MLE <-> status = "memory_limit")
    /\ (verdict = RE <-> status = "runtime_error")).
  { destruct Hcases as [[Hto ->] | [(Hto & Hst & ->) | [(Hto & Hml & Hst & ->) | [Hcl Hv]]]].
    - apply String.eqb_eq in Hto. rewrite Hto. repeat split; done.
    - rewrite Hst. repeat split; done.
    - rewrite Hst. repeat split; done.
    - apply orb_false_iff in Hcl as [Hcl Hre]. apply orb_false_iff in Hcl as [Hto Hml].
      apply String.eqb_neq in Hto, Hml, Hre.
      destruct Hv as [-> | ->]; repeat split; done. }
  destruct Hverdicts as (Htle & Hmle & Hre).
  split; [by rewrite Htle |]. split; [by rewrite Hmle |]. split; [exact Hre |].
  intros Hhidden Hcode -> Hsj Hmode.
  destruct (Hzero Hcode) as [Hstatus Hshown].
  destruct (Hshown Hhidden) as [Hexp Hact].
  rewrite Hexp, Hact in Hbuiltin.
  rewrite Hbuiltin.
  - destruct (String.eqb (ProblemConfig.comparison_mode (Judge.config self)) "token").
    + by rewrite token_match_same.
    + destruct (String.eqb_spec (ProblemConfig.comparison_mode (Judge.config self))
                  "float"); [contradiction |].
      by rewrite exact_match_same.
  - by destruct Hstatus as [-> | ->].
  - by apply no_special_judge_selects_none.
Qed.

Lemma harness_record_verdict_witness :
  TestCaseVerdict.verdict
    (Judge.judge_test_case crashing_program default_judge
       (JsonHelperSuite.record_of (fun _ => "")
          (JsonHelper.run_single_test (JsonHelper.Exited 0 "41" "") 5 800
             (JsonHelper.TestCase.mk "a" "" "42" None None true (Fin 1)) 5 262144))
       None)
  = AC.
Proof.
  apply (harness_record_verdict (fun _ => "") crashing_program default_judge
           (JsonHelper.Exited 0 "41" "") 5 800
           (JsonHelper.TestCase.mk "a" "" "42" None None true (Fin 1)) 5 262144 None);
    try reflexivity.
  by vm_compute.
Defined.

(** ** Loading the expected outputs *)

Lemma collect_cons i tc rest outputs :
  JudgeMain.collect i (tc :: rest) outputs
  = JudgeMain.collect (S i) rest (<[expected_key i tc := expected_value tc]> outputs).
Proof. reflexivity. Qed.

Lemma collect_other test_list : forall start outputs k,
  (forall i tc, test_list !! i = Some tc -> expected_key (start + i) tc <> k) ->
  JudgeMain.collect start test_list outputs !! k = outputs !! k.
Proof.
  induction test_list as [|tc rest IH]; intros start outputs k Hnone; [reflexivity |].
  rewrite collect_cons, IH.
  - apply lookup_insert_ne. specialize (Hnone 0%nat tc eq_refl).
    by rewrite Nat.add_0_r in Hnone.
  - intros i tc' Hi. specialize (Hnone (S i) tc' Hi).
    by replace (start + S i)%nat with (S start + i)%nat in Hnone by lia.
Qed.

Lemma collect_last test_list : forall start outputs i tc,
  test_list !! i = Some tc ->
  (forall j tc', (i < j)%nat -> test_list !! j = Some tc' ->
                 expected_key (start + j) tc' <> expected_key (start + i) tc) ->
  JudgeMain.collect start test_list outputs !! expected_key (start + i) tc
  = Some (expected_value tc).
Proof.
  induction test_list as [|tc0 rest IH]; intros start outputs i tc Hi Hlater; [done |].
  rewrite collect_cons. destruct i as [|i]; simpl in Hi.
  - injection Hi as ->. rewrite collect_other.
    + rewrite Nat.add_0_r. apply lookup_insert_eq.
    + intros j tc' Hj. specialize (Hlater (S j) tc' ltac:(lia) Hj).
      by replace (start + S j)%nat with (S start + j)%nat in Hlater by lia.
  - replace (start + S i)%nat with (S start + i)%nat by lia.
    apply IH; [done |]. intros j tc' Hij Hj.
    specialize (Hlater (S j) tc' ltac:(lia) Hj).
    replace (start + S j)%nat with (S start + j)%nat in Hlater by lia.
    by replace (start + S i)%nat with (S start + i)%nat in Hlater by lia.
Qed.

Lemma collect_none test_list : forall start outputs k,
  JudgeMain.collect start test_list outputs !! k = None ->
  outputs !! k = None
  /\ forall i tc, test_list !! i = Some tc -> expected_key (start + i) tc <> k.
Proof.
  induction test_list as [|tc rest IH]; intros start outputs k Hnone.
  - split; [done |]. intros i tc Hi. done.
  - rewrite collect_cons in Hnone. apply IH in Hnone as [Hins Hrest].
    apply lookup_insert_None in Hins as [Hout Hkey].
    split; [done |]. intros [|i] tc' Hi; simpl in Hi.
    + injection Hi as <-. by rewrite Nat.add_0_r.
    + replace (start + S i)%nat with (S start + i)%nat by lia. by apply Hrest.
Qed.

(** X24.  The expected outputs loaded from an array of test cases have
    exactly the keys of the test cases (the [id], else the [test_id],
    else [test-] and the 1-based position); a test case is found under
    its key unless a later test case has the same key.  An object with a
    [test_cases] entry is loaded as that array, and its other entries
    are ignored; an object without one is the mapping itself. *)
Theorem load_expected_outputs_lookup
    (test_list : list JudgeMain.ExpectedCase.t) (mapping : gmap string string) :
  let outputs := JudgeMain.load_expected_outputs (JudgeMain.ExpArray test_list) in
  (forall k,
      outputs !! k = None
      <-> forall i tc, test_list !! i = Some tc -> expected_key i tc <> k)
  /\ (forall i tc,
         test_list !! i = Some tc ->
         (forall j tc', (i < j)%nat -> test_list !! j = Some tc' ->
                        expected_key j tc' <> expected_key i tc) ->
         outputs !! expected_key i tc = Some (expected_value tc))
  /\ JudgeMain.load_expected_outputs (JudgeMain.ExpObject (Some test_list) mapping)
     = outputs
  /\ JudgeMain.load_expected_outputs (JudgeMain.ExpObject None mapping) = mapping.
Proof.
  intros outputs. subst outputs. cbn [JudgeMain.load_expected_outputs].
  unfold JudgeMain.load_expected_outputs_from_list.
  split; [| split; [| done]].
  - intros k. split.
    + intros Hnone. by destruct (collect_none test_list 0 ∅ k Hnone) as [_ H].
    + intros Hkeys. by rewrite (collect_other test_list 0 ∅ k Hkeys).
  - intros i tc Hi Hlater. by apply (collect_last test_list 0 ∅ i tc Hi).
Qed.

Lemma load_expected_outputs_lookup_witness :
  JudgeMain.load_expected_outputs
    (JudgeMain.ExpArray
       [JudgeMain.ExpectedCase.mk (Some "a") None (Some "1") None;
        JudgeMain.ExpectedCase.mk None None None (Some "2");
        JudgeMain.ExpectedCase.mk (Some "a") None (Some "3") None])
  !! "test-2" = Some "2".
Proof.
  pose proof (load_expected_outputs_lookup
                [JudgeMain.ExpectedCase.mk (Some "a") None (Some "1") None;
                 JudgeMain.ExpectedCase.mk None None None (Some "2");
                 JudgeMain.ExpectedCase.mk (Some "a") None (Some "3") None] ∅) as H.
  destruct H as (_ & Hfound & _).
  apply (Hfound 1%nat (JudgeMain.ExpectedCase.mk None None None (Some "2")) eq_refl).
  intros [|[|[|j]]] tc' Hlt Hj; try lia; simpl in Hj; [| done].
  injection Hj as <-. by vm_compute.
Defined.

(** ** The configuration [main] builds *)

(** X25.  The configuration of [main]: a special-judge path on the
    command line forces the mode [special] with that path, whatever the
    configuration file and the comparison flag say; with a configuration
    file the flags for the comparison mode, the tolerance and the letter
    case have no effect; and with neither, a comparison flag other than
    [token] and [float] (so also [special]) gives the result of the
    exact comparison. *)
Theorem main_configuration
    (launch : SpecialJudge.launcher) (fs : JudgeMain.files) (args : JudgeMain.Args.t) :
  (Judge.str_truthy (JudgeMain.Args.special_judge args) = true ->
   ProblemConfig.comparison_mode (JudgeMain.config_of fs args) = "special"
   /\ ProblemConfig.special_judge_path (JudgeMain.config_of fs args)
      = JudgeMain.Args.special_judge args)
  /\ (Judge.str_truthy (JudgeMain.Args.problem_config args) = true ->
      forall comparison tolerance case_insensitive,
        JudgeMain.main launch fs (with_flags comparison tolerance case_insensitive args)
        = JudgeMain.main launch fs args)
  /\ (Judge.str_truthy (JudgeMain.Args.problem_config args) = false ->
      Judge.str_truthy (JudgeMain.Args.special_judge args) = false ->
      JudgeMain.Args.comparison args <> "token" ->
      JudgeMain.Args.comparison args <> "float" ->
      JudgeMain.main launch fs args
      = JudgeMain.main launch fs
          (with_flags "exact" (JudgeMain.Args.tolerance args)
             (JudgeMain.Args.case_insensitive args) args)).
Proof.
  split; [| split].
  - intros Hsj. unfold JudgeMain.config_of. by rewrite Hsj.
  - intros Hfile comparison tolerance case_insensitive.
    unfold JudgeMain.main, JudgeMain.config_of.
    cbn [with_flags JudgeMain.Args.harness_output JudgeMain.Args.expected
         JudgeMain.Args.special_judge JudgeMain.Args.problem_config].
    by rewrite Hfile.
  - intros Hfile Hsj Htoken Hfloat.
    unfold JudgeMain.main, JudgeMain.config_of.
    cbn [with_flags JudgeMain.Args.harness_output JudgeMain.Args.expected
         JudgeMain.Args.special_judge JudgeMain.Args.problem_config
         JudgeMain.Args.comparison JudgeMain.Args.tolerance
         JudgeMain.Args.case_insensitive].
    rewrite Hfile, Hsj. unfold Judge.init. cbn [get ProblemConfig.special_judge_path].
    assert (Hsame : forall config1 config2,
               config2 = Judge.config (with_comparison_mode "exact" (Judge.mk config1 None)) ->
               ProblemConfig.comparison_mode config1 <> "token" ->
               ProblemConfig.comparison_mode config1 <> "float" ->
               forall harness_output expected_outputs,
                 Judge.judge_submission launch (Judge.mk config1 None)
                   harness_output expected_outputs
                 = Judge.judge_submission launch (Judge.mk config2 None)
                     harness_output expected_outputs).
    { intros config1 config2 -> H1 H2 harness_output expected_outputs.
      apply judge_submission_ext. intros tr expected.
      by apply judge_test_case_other_modes. }
    destruct (JudgeMain.Args.special_judge args) as [path|] eqn:Hpath.
    + simpl in Hsj. apply negb_false_iff in Hsj. rewrite Hsj. cbn [negb].
      erewrite Hsame; [reflexivity | reflexivity | done | done].
    + erewrite Hsame; [reflexivity | reflexivity | done | done].
Qed.

Lemma main_configuration_witness :
  let args :=
    JudgeMain.Args.mk "result.json" None None None None "special" (Fin 0) false in
  JudgeMain.main crashing_program sample_files args
  = JudgeMain.main crashing_program sample_files (with_flags "exact" (Fin 0) false args).
Proof.
  intros args.
  apply (proj2 (proj2 (main_configuration crashing_program sample_files args)));
    by vm_compute.
Defined.

